(** * openvpn-status-parser: the status parser, its model and the
      OpenMetrics formatter, embedded in Rocq.

    Go strings are byte sequences: they are [string] here (a list of
    [ascii], one per byte).  [int] and [int64] values are [Z]; a slice is a
    [list].  A function that mutates [*Status] and returns an [error] takes
    the status and returns the new status with an optional error. *)

From Stdlib Require Import String Ascii List ZArith Lia Bool DecimalString.
From Stdlib Require Import Sorted.
Import ListNotations.
Open Scope string_scope.
Open Scope Z_scope.

(** ** Bytes used by the program *)

Definition tab : ascii := "009"%char.
Definition lf : ascii := "010"%char.
Definition cr : ascii := "013"%char.
Definition comma : ascii := ","%char.
Definition colon : ascii := ":"%char.

Definition byte (c : ascii) : Z := Z.of_N (N_of_ascii c).

(** [fmt]'s [%d] on an integer. *)
Definition itoa (z : Z) : string := NilZero.string_of_int (Z.to_int z).

(** ** Package [strings] of the Go standard library *)

Module Strings.

(** [strings.Split(s, sep)] for a separator of one byte, the only kind this
    program passes ([","], ["\t"] and [":"]).  The result is never empty:
    splitting [""] gives [[""]]. *)
Fixpoint Split (s : string) (sep : ascii) : list string :=
  match s with
  | EmptyString => [EmptyString]
  | String c rest =>
      if Ascii.eqb c sep then EmptyString :: Split rest sep
      else match Split rest sep with
           | [] => [String c EmptyString]
           | f :: fs => String c f :: fs
           end
  end.

(** [strings.Join(elems, sep)]. *)
Definition Join (elems : list string) (sep : string) : string :=
  String.concat sep elems.

(** The six ASCII bytes of [unicode.IsSpace]. *)
Definition asciiSpace (c : ascii) : bool :=
  let b := byte c in ((9 <=? b) && (b <=? 13)) || (b =? 32).

(** Width in bytes of the white-space rune whose UTF-8 encoding [s] starts
    with, [0] when [s] starts with no such rune.  [unicode.IsSpace] holds of
    U+0009..U+000D, U+0020, U+0085, U+00A0, U+1680, U+2000..U+200A, U+2028,
    U+2029, U+202F, U+205F and U+3000. *)
Definition spaceWidth (s : string) : nat :=
  match s with
  | EmptyString => 0%nat
  | String c0 rest =>
      if asciiSpace c0 then 1%nat
      else match rest with
           | String c1 rest1 =>
               let b0 := byte c0 in
               let b1 := byte c1 in
               if (b0 =? 194) && ((b1 =? 133) || (b1 =? 160)) then 2%nat
               else match rest1 with
                    | String c2 _ =>
                        let b2 := byte c2 in
                        if (b0 =? 225) && (b1 =? 154) && (b2 =? 128) then 3%nat
                        else if (b0 =? 226) && (b1 =? 128)
                                && (((128 <=? b2) && (b2 <=? 138))
                                    || (b2 =? 168) || (b2 =? 169) || (b2 =? 175))
                        then 3%nat
                        else if (b0 =? 226) && (b1 =? 129) && (b2 =? 159) then 3%nat
                        else if (b0 =? 227) && (b1 =? 128) && (b2 =? 128) then 3%nat
                        else 0%nat
                    | EmptyString => 0%nat
                    end
           | EmptyString => 0%nat
           end
  end.

(** The same test on the reversed string: width of the white-space rune
    whose encoding the original string ends with. *)
Definition spaceWidthRev (r : string) : nat :=
  match r with
  | EmptyString => 0%nat
  | String c0 rest =>
      if asciiSpace c0 then 1%nat
      else match rest with
           | String c1 rest1 =>
               if Nat.eqb (spaceWidth (String c1 (String c0 EmptyString))) 2 then 2%nat
               else match rest1 with
                    | String c2 _ =>
                        if Nat.eqb (spaceWidth (String c2 (String c1 (String c0 EmptyString)))) 3
                        then 3%nat else 0%nat
                    | EmptyString => 0%nat
                    end
           | EmptyString => 0%nat
           end
  end.

(** Drops white-space runes from the front; [skip] counts the bytes of the
    current rune still to drop. *)
Fixpoint dropSpaces (width : string -> nat) (skip : nat) (s : string) : string :=
  match s with
  | EmptyString => EmptyString
  | String _ rest =>
      match skip with
      | S k => dropSpaces width k rest
      | O => match width s with
             | O => s
             | S k => dropSpaces width k rest
             end
      end
  end.

Fixpoint revOnto (s acc : string) : string :=
  match s with
  | EmptyString => acc
  | String c rest => revOnto rest (String c acc)
  end.

Definition rev (s : string) : string := revOnto s EmptyString.

(** [strings.TrimLeftFunc(s, unicode.IsSpace)]. *)
Definition TrimLeft (s : string) : string := dropSpaces spaceWidth 0 s.

(** [strings.TrimRightFunc(s, unicode.IsSpace)]. *)
Definition TrimRight (s : string) : string :=
  rev (dropSpaces spaceWidthRev 0 (rev s)).

(** [strings.TrimSpace(s)]: all leading and trailing white space removed,
    as defined by Unicode. *)
Definition TrimSpace (s : string) : string := TrimRight (TrimLeft s).

(** [strings.ReplaceAll(s, old, new)] for [old] of one byte. *)
Fixpoint ReplaceAll (s : string) (old : ascii) (new : string) : string :=
  match s with
  | EmptyString => EmptyString
  | String c rest =>
      if Ascii.eqb c old then new ++ ReplaceAll rest old new
      else String c (ReplaceAll rest old new)
  end.

(** [strings.HasPrefix(s, prefix)]. *)
Definition HasPrefix (s prefix : string) : bool := String.prefix prefix s.

Definition pushField (cur : string) (rest : list string) : list string :=
  match cur with
  | EmptyString => rest
  | _ => cur :: rest
  end.

(** The scan of [strings.Fields]: the bytes of the field that runs at the
    head of [s], if one does, and the fields after it.  [skip] counts the
    bytes of the current white-space rune still to pass. *)
Fixpoint fieldsFrom (skip : nat) (s : string) : string * list string :=
  match s with
  | EmptyString => (EmptyString, [])
  | String c rest =>
      match skip with
      | S k => let r := fieldsFrom k rest in (EmptyString, pushField (fst r) (snd r))
      | O =>
          match spaceWidth s with
          | S k => let r := fieldsFrom k rest in (EmptyString, pushField (fst r) (snd r))
          | O => let r := fieldsFrom 0 rest in (String c (fst r), snd r)
          end
      end
  end.

(** [strings.Fields(s)]: the maximal runs of bytes between white space, as
    defined by [unicode.IsSpace]. *)
Definition Fields (s : string) : list string :=
  let r := fieldsFrom 0 s in pushField (fst r) (snd r).

End Strings.

(** ** Package [strconv] *)

Module Strconv.

Inductive Err := ErrSyntax | ErrRange.

(** [*strconv.NumError]. *)
Record NumError := mkNumError { Func : string; Num : string; Cause : Err }.

Definition maxUint64 : Z := 2 ^ 64 - 1.

Definition isDigit (c : ascii) : bool := (48 <=? byte c) && (byte c <=? 57).

(** The digit loop of [ParseUint(s, 10, 64)]: it stops at the first byte
    that is no decimal digit or at the first overflow. *)
Fixpoint parseUintLoop (s : string) (n : Z) : Z * option Err :=
  match s with
  | EmptyString => (n, None)
  | String c rest =>
      if isDigit c then
        let d := byte c - 48 in
        if maxUint64 / 10 + 1 <=? n then (maxUint64, Some ErrRange)
        else
          let n1 := n * 10 + d in
          if maxUint64 <? n1 then (maxUint64, Some ErrRange)
          else parseUintLoop rest n1
      else (0, Some ErrSyntax)
  end.

Definition ParseUint (s : string) : Z * option Err :=
  match s with
  | EmptyString => (0, Some ErrSyntax)
  | _ => parseUintLoop s 0
  end.

(** [strconv.ParseInt(s, 10, 64)]. *)
Definition ParseInt (s0 : string) : Z * option NumError :=
  match s0 with
  | EmptyString => (0, Some (mkNumError "ParseInt" s0 ErrSyntax))
  | String c rest =>
      let neg := Ascii.eqb c "-" in
      let s := if Ascii.eqb c "+" || neg then rest else s0 in
      let cutoff := 2 ^ 63 in
      match ParseUint s with
      | (_, Some ErrSyntax) => (0, Some (mkNumError "ParseInt" s0 ErrSyntax))
      | (un, _) =>
          if negb neg && (cutoff <=? un)
          then (cutoff - 1, Some (mkNumError "ParseInt" s0 ErrRange))
          else if neg && (cutoff <? un)
          then (- cutoff, Some (mkNumError "ParseInt" s0 ErrRange))
          else (if neg then - un else un, None)
      end
  end.

(** The digit loop of the fast path of [Atoi]. *)
Fixpoint atoiLoop (s : string) (n : Z) : option Z :=
  match s with
  | EmptyString => Some n
  | String ch rest =>
      if isDigit ch then atoiLoop rest (n * 10 + (byte ch - 48)) else None
  end.

(** [strconv.Atoi(s)] where [int] has 64 bits: strings of 1 to 18 bytes take
    the fast path, the others go through [ParseInt]. *)
Definition Atoi (s0 : string) : Z * option NumError :=
  let sLen := Z.of_nat (String.length s0) in
  if (0 <? sLen) && (sLen <? 19) then
    match s0 with
    | EmptyString => (0, Some (mkNumError "Atoi" s0 ErrSyntax))
    | String c rest =>
        let signed := Ascii.eqb c "-" || Ascii.eqb c "+" in
        let s := if signed then rest else s0 in
        if signed && (Z.of_nat (String.length s) <? 1)
        then (0, Some (mkNumError "Atoi" s0 ErrSyntax))
        else match atoiLoop s 0 with
             | None => (0, Some (mkNumError "Atoi" s0 ErrSyntax))
             | Some n => (if Ascii.eqb c "-" then - n else n, None)
             end
    end
  else
    match ParseInt s0 with
    | (i64, Some nerr) => (i64, Some (mkNumError "Atoi" (Num nerr) (Cause nerr)))
    | (i64, None) => (i64, None)
    end.

End Strconv.

(** ** Go's [error] values, as far as this program builds them *)

Inductive error :=
| errorString (msg : string)
    (** [fmt.Errorf] without [%w] *)
| wrapError (msg : string) (inner : error)
    (** [fmt.Errorf(msg + "%w", inner)] *)
| numError (e : Strconv.NumError)
| ioError (msg : string)
    (** an error of [os.Open] or of a read *)
| ErrTooLong
    (** [bufio.ErrTooLong] *)
| ParseError (Line : Z) (Field : string) (Value : string) (Err : error).

(** ** Package [bufio]: a [Scanner] with the default [ScanLines] split *)

Module Bufio.

Import Strings.

Definition MaxScanTokenSize : Z := 64 * 1024.

(** [dropCR]: a trailing carriage return is removed. *)
Fixpoint dropCR (data : string) : string :=
  match data with
  | EmptyString => EmptyString
  | String c EmptyString => if Ascii.eqb c cr then EmptyString else data
  | String c rest => String c (dropCR rest)
  end.

(** A line that does not fit the buffer stops the scanner. *)
Definition tooLong (seg : string) : bool :=
  MaxScanTokenSize <=? Z.of_nat (String.length seg).

(** The tokens of the segments between line feeds.  The last segment is the
    unterminated rest of the input: it is a token unless it is empty. *)
Fixpoint tokens (segs : list string) : list string * option error :=
  match segs with
  | [] => ([], None)
  | seg :: rest =>
      match rest with
      | [] =>
          if String.eqb seg "" then ([], None)
          else if tooLong seg then ([], Some ErrTooLong)
          else ([dropCR seg], None)
      | _ :: _ =>
          if tooLong seg then ([], Some ErrTooLong)
          else (dropCR seg :: fst (tokens rest), snd (tokens rest))
      end
  end.

(** What a scan of a reader yields: [data] are the bytes the reader delivers
    before it ends, [rderr] the error it ends with ([None] for end of file).
    The first component lists the successive [scanner.Text()], the second is
    [scanner.Err()]. *)
Definition Scan (data : string) (rderr : option error)
  : list string * option error :=
  let r := tokens (Split data lf) in
  (fst r, match snd r with Some e => Some e | None => rderr end).

End Bufio.

(** ** Package [parser]: the result model *)

Module Parser.

Import Strings.

(** [type StatusVersion int]. *)
Definition StatusVersion := Z.
Definition Version1 : StatusVersion := 1.
Definition Version2 : StatusVersion := 2.
Definition Version3 : StatusVersion := 3.

Record ServerConfig := mkServerConfig {
  ID : string;
  Local : string;
  Port : string;
  Proto : string;
  Dev : string
}.

Record Client := mkClient {
  CommonName : string;
  RealAddress : string;
  VirtualAddress : string;
  VirtualIPv6Address : string;
  BytesReceived : Z;
  BytesSent : Z;
  ConnectedSince : string;
  ConnectedSinceTime : Z;
  Username : string;
  ClientID : Z;
  PeerID : Z;
  DataCipher : string
}.

Record Route := mkRoute {
  rVirtualAddress : string;
  rCommonName : string;
  rRealAddress : string;
  LastRef : string;
  LastRefTime : Z
}.

Record Status := mkStatus {
  Server : option ServerConfig;
  Title : string;
  Time : list string;
  ClientList : list Client;
  RoutingTable : list Route
}.

(** [Client{}] and [Route{}]: the zero values.  The fields of [Route] that
    share a name with a field of [Client] carry the prefix [r]. *)
Definition emptyClient : Client :=
  mkClient "" "" "" "" 0 0 "" 0 "" 0 0 "".

Definition emptyRoute : Route := mkRoute "" "" "" "" 0.

(** Field assignments. *)
Definition setCommonName (c : Client) (v : string) : Client :=
  mkClient v (RealAddress c) (VirtualAddress c) (VirtualIPv6Address c)
    (BytesReceived c) (BytesSent c) (ConnectedSince c) (ConnectedSinceTime c)
    (Username c) (ClientID c) (PeerID c) (DataCipher c).
Definition setRealAddress (c : Client) (v : string) : Client :=
  mkClient (CommonName c) v (VirtualAddress c) (VirtualIPv6Address c)
    (BytesReceived c) (BytesSent c) (ConnectedSince c) (ConnectedSinceTime c)
    (Username c) (ClientID c) (PeerID c) (DataCipher c).
Definition setVirtualAddress (c : Client) (v : string) : Client :=
  mkClient (CommonName c) (RealAddress c) v (VirtualIPv6Address c)
    (BytesReceived c) (BytesSent c) (ConnectedSince c) (ConnectedSinceTime c)
    (Username c) (ClientID c) (PeerID c) (DataCipher c).
Definition setVirtualIPv6Address (c : Client) (v : string) : Client :=
  mkClient (CommonName c) (RealAddress c) (VirtualAddress c) v
    (BytesReceived c) (BytesSent c) (ConnectedSince c) (ConnectedSinceTime c)
    (Username c) (ClientID c) (PeerID c) (DataCipher c).
Definition setBytesReceived (c : Client) (v : Z) : Client :=
  mkClient (CommonName c) (RealAddress c) (VirtualAddress c) (VirtualIPv6Address c)
    v (BytesSent c) (ConnectedSince c) (ConnectedSinceTime c)
    (Username c) (ClientID c) (PeerID c) (DataCipher c).
Definition setBytesSent (c : Client) (v : Z) : Client :=
  mkClient (CommonName c) (RealAddress c) (VirtualAddress c) (VirtualIPv6Address c)
    (BytesReceived c) v (ConnectedSince c) (ConnectedSinceTime c)
    (Username c) (ClientID c) (PeerID c) (DataCipher c).
Definition setConnectedSince (c : Client) (v : string) : Client :=
  mkClient (CommonName c) (RealAddress c) (VirtualAddress c) (VirtualIPv6Address c)
    (BytesReceived c) (BytesSent c) v (ConnectedSinceTime c)
    (Username c) (ClientID c) (PeerID c) (DataCipher c).
Definition setConnectedSinceTime (c : Client) (v : Z) : Client :=
  mkClient (CommonName c) (RealAddress c) (VirtualAddress c) (VirtualIPv6Address c)
    (BytesReceived c) (BytesSent c) (ConnectedSince c) v
    (Username c) (ClientID c) (PeerID c) (DataCipher c).
Definition setUsername (c : Client) (v : string) : Client :=
  mkClient (CommonName c) (RealAddress c) (VirtualAddress c) (VirtualIPv6Address c)
    (BytesReceived c) (BytesSent c) (ConnectedSince c) (ConnectedSinceTime c)
    v (ClientID c) (PeerID c) (DataCipher c).
Definition setClientID (c : Client) (v : Z) : Client :=
  mkClient (CommonName c) (RealAddress c) (VirtualAddress c) (VirtualIPv6Address c)
    (BytesReceived c) (BytesSent c) (ConnectedSince c) (ConnectedSinceTime c)
    (Username c) v (PeerID c) (DataCipher c).
Definition setPeerID (c : Client) (v : Z) : Client :=
  mkClient (CommonName c) (RealAddress c) (VirtualAddress c) (VirtualIPv6Address c)
    (BytesReceived c) (BytesSent c) (ConnectedSince c) (ConnectedSinceTime c)
    (Username c) (ClientID c) v (DataCipher c).
Definition setDataCipher (c : Client) (v : string) : Client :=
  mkClient (CommonName c) (RealAddress c) (VirtualAddress c) (VirtualIPv6Address c)
    (BytesReceived c) (BytesSent c) (ConnectedSince c) (ConnectedSinceTime c)
    (Username c) (ClientID c) (PeerID c) v.

Definition setRVirtualAddress (r : Route) (v : string) : Route :=
  mkRoute v (rCommonName r) (rRealAddress r) (LastRef r) (LastRefTime r).
Definition setRCommonName (r : Route) (v : string) : Route :=
  mkRoute (rVirtualAddress r) v (rRealAddress r) (LastRef r) (LastRefTime r).
Definition setRRealAddress (r : Route) (v : string) : Route :=
  mkRoute (rVirtualAddress r) (rCommonName r) v (LastRef r) (LastRefTime r).
Definition setLastRef (r : Route) (v : string) : Route :=
  mkRoute (rVirtualAddress r) (rCommonName r) (rRealAddress r) v (LastRefTime r).
Definition setLastRefTime (r : Route) (v : Z) : Route :=
  mkRoute (rVirtualAddress r) (rCommonName r) (rRealAddress r) (LastRef r) v.

Definition setTitle (s : Status) (v : string) : Status :=
  mkStatus (Server s) v (Time s) (ClientList s) (RoutingTable s).
Definition setTime (s : Status) (v : list string) : Status :=
  mkStatus (Server s) (Title s) v (ClientList s) (RoutingTable s).
Definition setClientList (s : Status) (v : list Client) : Status :=
  mkStatus (Server s) (Title s) (Time s) v (RoutingTable s).
Definition setRoutingTable (s : Status) (v : list Route) : Status :=
  mkStatus (Server s) (Title s) (Time s) (ClientList s) v.
Definition setServer (s : Status) (v : option ServerConfig) : Status :=
  mkStatus v (Title s) (Time s) (ClientList s) (RoutingTable s).

(** [fields[i]].  Every index expression of the decoders is dominated by a
    check of [len(fields)], so the default is never taken. *)
Definition field (fields : list string) (i : nat) : string :=
  nth i fields EmptyString.

(** [len(fields)] as an [int]. *)
Definition len {A} (l : list A) : Z := Z.of_nat (length l).

(** ** The record decoders *)

(** [handleTitle]. *)
Definition handleTitle (fields : list string) (status : Status) (lineNum : Z)
  : Status * option error :=
  if len fields <? 2 then
    (status,
     Some (ParseError lineNum "TITLE" (Join fields ",")
             (errorString ("expected at least 2 fields, got " ++ itoa (len fields)))))
  else (setTitle status (field fields 1), None).

(** [handleTime]; [fields[1:]] is [tl fields]. *)
Definition handleTime (fields : list string) (status : Status) (lineNum : Z)
  : Status * option error :=
  if len fields <? 2 then
    (status,
     Some (ParseError lineNum "TIME" (Join fields ",")
             (errorString ("expected at least 2 fields, got " ++ itoa (len fields)))))
  else (setTime status (tl fields), None).

(** The block the decoders repeat for each numeric field:
<<
    if raw != "" {
        if val, err := strconv.ParseInt(raw, 10, 64); err != nil {
            errs = append(errs, ParseError{Line: lineNum, Field: name, Value: raw, Err: err})
        } else {
            rec.F = val
        }
    }
>>
    on the pair of the record under construction and [errs]. *)
Definition parseNumeric {R : Type} (lineNum : Z) (name raw : string)
    (assign : R -> Z -> R) (st : R * list error) : R * list error :=
  if String.eqb raw "" then st
  else match Strconv.ParseInt raw with
       | (_, Some err) =>
           (fst st, (snd st ++ [ParseError lineNum name raw (numError err)])%list)
       | (val, None) => (assign (fst st) val, snd st)
       end.

(** [if len(errs) > 0 { return errs[0] }; return nil]. *)
Definition firstError (errs : list error) : option error :=
  match errs with
  | [] => None
  | e :: _ => Some e
  end.

(** [aparts := strings.Split(raw, ":"); aparts[0]]. *)
Definition addressPart (raw : string) : string :=
  field (Split raw colon) 0.

(** [handleClientListV1]. *)
Definition handleClientListV1 (fields : list string) (status : Status) (lineNum : Z)
  : Status * option error :=
  let expectedFields := 5 in
  if len fields <? expectedFields then
    (status,
     Some (ParseError lineNum "CLIENT_LIST_V1" (Join fields ",")
             (errorString ("expected " ++ itoa expectedFields
                           ++ " fields, got " ++ itoa (len fields)))))
  else
    let client := emptyClient in
    let errs : list error := [] in
    let client := setCommonName client (field fields 0) in
    let client := setRealAddress client (addressPart (field fields 1)) in
    let st := parseNumeric lineNum "bytesReceived" (field fields 2)
                setBytesReceived (client, errs) in
    let st := parseNumeric lineNum "bytesSent" (field fields 3)
                setBytesSent st in
    let client := setConnectedSince (fst st) (field fields 4) in
    let errs := snd st in
    (setClientList status (ClientList status ++ [client])%list, firstError errs).

(** [handleClientListV2V3]. *)
Definition handleClientListV2V3 (fields : list string) (status : Status) (lineNum : Z)
  : Status * option error :=
  let minFields := 12 in
  if len fields <? minFields then
    (status,
     Some (ParseError lineNum "CLIENT_LIST" (Join fields ",")
             (errorString ("expected at least " ++ itoa minFields
                           ++ " fields, got " ++ itoa (len fields)))))
  else
    let client := emptyClient in
    let errs : list error := [] in
    let client := setCommonName client (field fields 1) in
    let client := setRealAddress client (addressPart (field fields 2)) in
    let client := setVirtualAddress client (field fields 3) in
    let client := setVirtualIPv6Address client (field fields 4) in
    let st := parseNumeric lineNum "bytesReceived" (field fields 5)
                setBytesReceived (client, errs) in
    let st := parseNumeric lineNum "bytesSent" (field fields 6)
                setBytesSent st in
    let st := (setConnectedSince (fst st) (field fields 7), snd st) in
    let st := parseNumeric lineNum "connectedSinceTime" (field fields 8)
                setConnectedSinceTime st in
    let st := (setUsername (fst st) (field fields 9), snd st) in
    let st := parseNumeric lineNum "clientId" (field fields 10)
                setClientID st in
    let st := parseNumeric lineNum "peerId" (field fields 11)
                setPeerID st in
    let client := fst st in
    let errs := snd st in
    let client :=
      if (12 <? len fields) && negb (String.eqb (field fields 12) "")
      then setDataCipher client (field fields 12) else client in
    (setClientList status (ClientList status ++ [client])%list, firstError errs).

(** [handleRoutingTable]. *)
Definition handleRoutingTable (fields : list string) (status : Status) (lineNum : Z)
  : Status * option error :=
  let expectedFields := 6 in
  if len fields <? expectedFields then
    (status,
     Some (ParseError lineNum "ROUTING_TABLE" (Join fields ",")
             (errorString ("expected " ++ itoa expectedFields
                           ++ " fields, got " ++ itoa (len fields)))))
  else
    let route := emptyRoute in
    let errs : list error := [] in
    let route := setRVirtualAddress route (field fields 1) in
    let route := setRCommonName route (field fields 2) in
    let route := setRRealAddress route (addressPart (field fields 3)) in
    let route := setLastRef route (field fields 4) in
    let st := parseNumeric lineNum "lastRefTime" (field fields 5)
                setLastRefTime (route, errs) in
    (setRoutingTable status (RoutingTable status ++ [fst st])%list, firstError (snd st)).

(** ** The line dispatcher *)

(** [parseLine]. *)
Definition parseLine (line : string) (status : Status) (lineNum : Z)
    (version : StatusVersion) (delimiter : ascii) : Status * option error :=
  let fields := Split line delimiter in
  if len fields =? 0 then (status, None)
  else if version =? Version1 then handleClientListV1 fields status lineNum
  else
    let lineType := field fields 0 in
    if String.eqb lineType "TITLE" then handleTitle fields status lineNum
    else if String.eqb lineType "TIME" then handleTime fields status lineNum
    else if String.eqb lineType "HEADER" then (status, None)
    else if String.eqb lineType "CLIENT_LIST" then handleClientListV2V3 fields status lineNum
    else if String.eqb lineType "ROUTING_TABLE" then handleRoutingTable fields status lineNum
    else (status, None).

(** ** The driver *)

(** An opened file: the bytes it delivers and the error the reads end with. *)
Record File := mkFile { data : string; rderr : option error }.

(** The body of the scan loop of [ParseFile] on one [scanner.Text()].  The
    line counter is a Go [int]; no file has the 2^63 lines it takes to wrap. *)
Definition scanBody (version : StatusVersion) (delimiter : ascii)
    (acc : Status * list error * Z) (text : string) : Status * list error * Z :=
  let '(status, parseErrors, lineNum) := acc in
  let lineNum := lineNum + 1 in
  let line := TrimSpace text in
  if String.eqb line "" then (status, parseErrors, lineNum)
  else match parseLine line status lineNum version delimiter with
       | (status, Some err) => (status, (parseErrors ++ [err])%list, lineNum)
       | (status, None) => (status, parseErrors, lineNum)
       end.

(** The status [ParseFile] starts from. *)
Definition initStatus : Status := mkStatus None "" [] [] [].

(** [ParseFile]; [os_Open] is the file system: the file or the error that
    [os.Open] returns for a path.  The model is [None] for Go's [nil]. *)
Definition ParseFile (os_Open : string -> File + error)
    (filepath : string) (version : StatusVersion) : option Status * list error :=
  match os_Open filepath with
  | inr err => (None, [wrapError "failed to open file: " err])
  | inl file =>
      let delimiter := if version =? Version3 then tab else comma in
      let status := initStatus in
      let scanner := Bufio.Scan (data file) (rderr file) in
      let '(status, parseErrors, _) :=
        fold_left (scanBody version delimiter) (fst scanner) (status, [], 0) in
      let parseErrors :=
        match snd scanner with
        | Some err => (parseErrors ++ [wrapError "error reading file: " err])%list
        | None => parseErrors
        end in
      (Some status, parseErrors)
  end.

End Parser.

(** ** Package [path/filepath] on Unix *)

Module Filepath.

Import Strings.

Definition slash : ascii := "/"%char.
Definition dot : ascii := "."%char.

(** The reversed path without its leading separators: the path without its
    trailing ones. *)
Fixpoint dropSlashes (r : string) : string :=
  match r with
  | EmptyString => EmptyString
  | String c rest => if Ascii.eqb c slash then dropSlashes rest else r
  end.

(** The bytes of the reversed path up to its first separator. *)
Fixpoint untilSlash (r : string) : string :=
  match r with
  | EmptyString => EmptyString
  | String c rest => if Ascii.eqb c slash then EmptyString else String c (untilSlash rest)
  end.

(** [filepath.Base(path)]. *)
Definition Base (path : string) : string :=
  if String.eqb path "" then "."
  else
    let path := rev (untilSlash (dropSlashes (rev path))) in
    if String.eqb path "" then String slash "" else path.

(** The loop of [Ext] on the reversed path; [acc] holds the bytes passed. *)
Fixpoint extFrom (r : string) (acc : string) : string :=
  match r with
  | EmptyString => EmptyString
  | String c rest =>
      if Ascii.eqb c slash then EmptyString
      else if Ascii.eqb c dot then String c acc
      else extFrom rest (String c acc)
  end.

(** [filepath.Ext(path)]. *)
Definition Ext (path : string) : string := extFrom (rev path) "".

End Filepath.

(** ** Package [config]: the [status-version] directive *)

Module Config.

(** [StatusVersion] of the configuration that [ParseConfig] starts from. *)
Definition defaultStatusVersion : Z := 3.

(** The [status-version] case of the directive switch of [ParseConfig], once
    [strconv.Atoi] has read the integer [ver] from the token: the field
    [StatusVersion], [current] so far, changes only for 1, 2 and 3. *)
Definition applyStatusVersion (current ver : Z) : Z :=
  if (1 <=? ver) && (ver <=? 3) then ver else current.

(** *** The configuration reader *)

Record ServerConfig := mkServerConfig {
  ID : string;
  Local : string;
  Port : string;
  Proto : string;
  Dev : string;
  StatusFile : string;
  StatusVersion : Z
}.

Definition setID (c : ServerConfig) (v : string) : ServerConfig :=
  mkServerConfig v (Local c) (Port c) (Proto c) (Dev c) (StatusFile c) (StatusVersion c).
Definition setLocal (c : ServerConfig) (v : string) : ServerConfig :=
  mkServerConfig (ID c) v (Port c) (Proto c) (Dev c) (StatusFile c) (StatusVersion c).
Definition setPort (c : ServerConfig) (v : string) : ServerConfig :=
  mkServerConfig (ID c) (Local c) v (Proto c) (Dev c) (StatusFile c) (StatusVersion c).
Definition setProto (c : ServerConfig) (v : string) : ServerConfig :=
  mkServerConfig (ID c) (Local c) (Port c) v (Dev c) (StatusFile c) (StatusVersion c).
Definition setDev (c : ServerConfig) (v : string) : ServerConfig :=
  mkServerConfig (ID c) (Local c) (Port c) (Proto c) v (StatusFile c) (StatusVersion c).
Definition setStatusFile (c : ServerConfig) (v : string) : ServerConfig :=
  mkServerConfig (ID c) (Local c) (Port c) (Proto c) (Dev c) v (StatusVersion c).
Definition setStatusVersion (c : ServerConfig) (v : Z) : ServerConfig :=
  mkServerConfig (ID c) (Local c) (Port c) (Proto c) (Dev c) (StatusFile c) v.

(** [getServerID] (the same function is in package [main]); the slice
    [basename[:len(basename)-len(ext)]] is in range, [ext] being a suffix of
    [basename]. *)
Definition getServerID (statusPath : string) : string :=
  let basename := Filepath.Base statusPath in
  let ext := Filepath.Ext basename in
  if negb (String.eqb ext "")
  then substring 0 (String.length basename - String.length ext) basename
  else basename.

(** The body of the scan loop of [ParseConfig] on one [scanner.Text()]; the
    line counter of the loop is never read. *)
Definition scanBody (config : ServerConfig) (text : string) : ServerConfig :=
  let line := Strings.TrimSpace text in
  if String.eqb line "" || Strings.HasPrefix line "#" || Strings.HasPrefix line ";"
  then config
  else
    let tokens := Strings.Fields line in
    if Parser.len tokens =? 0 then config
    else
      let directive := Parser.field tokens 0 in
      if String.eqb directive "local" then
        if 2 <=? Parser.len tokens then setLocal config (Parser.field tokens 1)
        else config
      else if String.eqb directive "port" then
        if 2 <=? Parser.len tokens then setPort config (Parser.field tokens 1)
        else config
      else if String.eqb directive "proto" then
        if 2 <=? Parser.len tokens then setProto config (Parser.field tokens 1)
        else config
      else if String.eqb directive "dev" then
        if 2 <=? Parser.len tokens then setDev config (Parser.field tokens 1)
        else config
      else if String.eqb directive "status" then
        if 2 <=? Parser.len tokens then
          let config := setStatusFile config (Parser.field tokens 1) in
          setID config (getServerID (StatusFile config))
        else config
      else if String.eqb directive "status-version" then
        if 2 <=? Parser.len tokens then
          match Strconv.Atoi (Parser.field tokens 1) with
          | (ver, None) =>
              setStatusVersion config (applyStatusVersion (StatusVersion config) ver)
          | (_, Some _) => config
          end
        else config
      else config.

(** The configuration that [ParseConfig] starts from. *)
Definition initConfig : ServerConfig :=
  mkServerConfig "" "" "1194" "" "" "" defaultStatusVersion.

(** [ParseConfig]; [os_Open] is the file system.  The configuration is
    [None] for Go's [nil]. *)
Definition ParseConfig (os_Open : string -> Parser.File + error) (configPath : string)
  : option ServerConfig * option error :=
  match os_Open configPath with
  | inr err => (None, Some (wrapError "failed to open config file: " err))
  | inl file =>
      let config := initConfig in
      let scanner := Bufio.Scan (Parser.data file) (Parser.rderr file) in
      let config := fold_left scanBody (fst scanner) config in
      match snd scanner with
      | Some err => (None, Some (wrapError "error reading config file: " err))
      | None =>
          if String.eqb (StatusFile config) ""
          then (None, Some (errorString "no 'status' directive found in config file"))
          else (Some config, None)
      end
  end.

End Config.

(** ** Package [main] *)

Module Main.

(** [getStatusVersion]. *)
Definition getStatusVersion (ver : Z) : Parser.StatusVersion :=
  if ver =? 1 then Parser.Version1
  else if ver =? 2 then Parser.Version2
  else if ver =? 3 then Parser.Version3
  else Parser.Version3.

End Main.

(** ** Package [formatter]: the OpenMetrics exposition *)

Module Formatter.

Import Strings Parser.

Definition dquote : ascii := "034"%char.
Definition nl : string := String lf EmptyString.

(** [int64] arithmetic wraps. *)
Definition wrap64 (z : Z) : Z := (z + 2 ^ 63) mod 2 ^ 64 - 2 ^ 63.

Section Format.

(** [strconv.Quote], which the verb [%q] applies. *)
Variable Quote : string -> string.

(** [sanitizeLabelValue]. *)
Definition sanitizeLabelValue (value : string) : string :=
  let value := ReplaceAll value "\" "\\" in
  let value := ReplaceAll value lf "\n" in
  let value := ReplaceAll value dquote (String "\" (String dquote EmptyString)) in
  value.

Definition label (name value : string) : string :=
  name ++ "=" ++ Quote (sanitizeLabelValue value).

(** [buildClientLabels]. *)
Definition buildClientLabels (client : Client) (server : ServerConfig) : string :=
  let labels := [ label "common_name" (CommonName client);
                  label "real_address" (RealAddress client);
                  label "server_id" (ID server);
                  label "virtual_address" (VirtualAddress client) ] in
  let labels :=
    if negb (String.eqb (Username client) "")
    then (labels ++ [label "username" (Username client)])%list else labels in
  "{" ++ Join labels "," ++ "}".

(** [buildRouteLabels]. *)
Definition buildRouteLabels (route : Route) (server : ServerConfig) : string :=
  let labels := [ label "virtual_address" (rVirtualAddress route);
                  label "common_name" (rCommonName route);
                  label "real_address" (rRealAddress route);
                  label "server_id" (ID server) ] in
  "{" ++ Join labels "," ++ "}".

(** [buildInfoLabels]. *)
Definition buildInfoLabels (status : Status) (server : ServerConfig) : string :=
  let labels := [ label "title" (Title status);
                  label "server_id" (ID server);
                  label "server_local" (Local server);
                  label "server_port" (Port server);
                  label "server_proto" (Proto server);
                  label "server_dev" (Dev server) ] in
  let labels :=
    match Time status with
    | t0 :: _ => (labels ++ [label "updated_at" t0])%list
    | [] => labels
    end in
  "{" ++ Join labels "," ++ "}".

(** One sample line: [fmt.Sprintf("name%s %d\n", labels, value)]. *)
Definition sample (name labels : string) (value : Z) : string :=
  name ++ labels ++ " " ++ itoa value ++ nl.

(** The third block of [Format]: the connection-duration gauge. *)
Definition durationBlock (now : Z) (status : Status) (server : ServerConfig) : string :=
  "# HELP openvpn_client_connected_duration_seconds Time in seconds since client connected" ++ nl
  ++ "# TYPE openvpn_client_connected_duration_seconds gauge" ++ nl
  ++ String.concat ""
       (map (fun client =>
               let labels := buildClientLabels client server in
               let duration := wrap64 (now - ConnectedSinceTime client) in
               sample "openvpn_client_connected_duration_seconds" labels duration)
            (ClientList status)).

(** [OpenMetricsFormatter.Format]; [now] is [time.Now().Unix()].  The result
    is [None] when [*status.Server] dereferences [nil]; the returned error is
    always [nil]. *)
Definition Format (now : Z) (status : Status) : option string :=
  match Server status with
  | None => None
  | Some server =>
      let serverLabels := Join [label "server_id" (ID server)] "," in
      Some (
        "# HELP openvpn_client_bytes_received_total Total bytes received from client" ++ nl
        ++ "# TYPE openvpn_client_bytes_received_total counter" ++ nl
        ++ String.concat ""
             (map (fun client =>
                     sample "openvpn_client_bytes_received_total"
                       (buildClientLabels client server) (BytesReceived client))
                  (ClientList status))
        ++ "# HELP openvpn_client_bytes_sent_total Total bytes sent to client" ++ nl
        ++ "# TYPE openvpn_client_bytes_sent_total counter" ++ nl
        ++ String.concat ""
             (map (fun client =>
                     sample "openvpn_client_bytes_sent_total"
                       (buildClientLabels client server) (BytesSent client))
                  (ClientList status))
        ++ durationBlock now status server
        ++ "# HELP openvpn_client_connected Client connection status (1 = connected)" ++ nl
        ++ "# TYPE openvpn_client_connected gauge" ++ nl
        ++ String.concat ""
             (map (fun client =>
                     "openvpn_client_connected" ++ buildClientLabels client server
                     ++ " 1" ++ nl)
                  (ClientList status))
        ++ "# HELP openvpn_clients_connected_total Total number of connected clients" ++ nl
        ++ "# TYPE openvpn_clients_connected_total gauge" ++ nl
        ++ sample "openvpn_clients_connected_total" ("{" ++ serverLabels ++ "}")
             (len (ClientList status))
        ++ "# HELP openvpn_routing_entries_total Total number of routing table entries" ++ nl
        ++ "# TYPE openvpn_routing_entries_total gauge" ++ nl
        ++ sample "openvpn_routing_entries_total" ("{" ++ serverLabels ++ "}")
             (len (RoutingTable status))
        ++ "# HELP openvpn_routing_last_ref_seconds Unix timestamp of last routing table reference" ++ nl
        ++ "# TYPE openvpn_routing_last_ref_seconds gauge" ++ nl
        ++ String.concat ""
             (map (fun route =>
                     sample "openvpn_routing_last_ref_seconds"
                       (buildRouteLabels route server) (LastRefTime route))
                  (RoutingTable status))
        ++ "# HELP openvpn_status_info OpenVPN status file metadata" ++ nl
        ++ "# TYPE openvpn_status_info gauge" ++ nl
        ++ "openvpn_status_info" ++ buildInfoLabels status server ++ " 1" ++ nl
        ++ "# EOF" ++ nl)
  end.

End Format.

End Formatter.

(** ** Package [main], continued: [ParseError.Error], the JSON formatter
       and [main] *)

Module Cli.

Import Strings Parser.

Definition Version : string := "0.1.0".

Definition nl : string := String lf EmptyString.

(** The values of the command-line flags after [flag.Parse()]. *)
Record Flags := mkFlags {
  filePath : string;
  format : string;
  indent : bool;
  version : bool
}.

(** What a run writes and the code it exits with. *)
Record Outcome := mkOutcome {
  stdout : string;
  stderr : string;
  exitCode : Z
}.

Section Main.

(** [strconv.Quote], which the verb [%q] applies. *)
Variable Quote : string -> string.

(** [json.Marshal(status)] and [json.MarshalIndent(status, "", "  ")]. *)
Variable Marshal : Status -> string + error.
Variable MarshalIndent : Status -> string + error.

(** [time.Now().Unix()], [os.Args[0]], what [flag.PrintDefaults()] writes,
    and the file system. *)
Variable now : Z.
Variable arg0 : string.
Variable printDefaults : string.
Variable os_Open : string -> File + error.

(** [err.Error()]: [ParseError.Error] of package [parser], and the texts of
    the errors of [fmt], [strconv] and [bufio]. *)
Fixpoint errorText (e : error) : string :=
  match e with
  | errorString msg => msg
  | wrapError msg inner => msg ++ errorText inner
  | numError ne =>
      "strconv." ++ Strconv.Func ne ++ ": parsing " ++ Quote (Strconv.Num ne) ++ ": "
      ++ match Strconv.Cause ne with
         | Strconv.ErrSyntax => "invalid syntax"
         | Strconv.ErrRange => "value out of range"
         end
  | ioError msg => msg
  | ErrTooLong => "bufio.Scanner: token too long"
  | ParseError line name value err =>
      "line " ++ itoa line ++ ", field " ++ name ++ ", value " ++ Quote value
      ++ ": " ++ errorText err
  end.

(** [JSONFormatter.Format]. *)
Definition JSONFormat (indent : bool) (status : Status) : string * option error :=
  match (if indent then MarshalIndent status else Marshal status) with
  | inr err => (EmptyString, Some err)
  | inl output => (output, None)
  end.

(** [flag.Usage]. *)
Definition usage : string :=
  "OpenVPN Status Parser - Converts OpenVPN status files to JSON or OpenMetrics format"
  ++ nl ++ nl
  ++ "Usage: " ++ arg0 ++ " [options]" ++ nl ++ nl
  ++ "Options:" ++ nl
  ++ printDefaults
  ++ nl ++ "Examples:" ++ nl
  ++ "  " ++ arg0 ++ " -file /etc/openvpn/server.conf" ++ nl
  ++ "  " ++ arg0 ++ " -file /etc/openvpn/server.conf -format openmetrics" ++ nl.

(** The warning block that [main] writes for the parse errors. *)
Definition warnings (parseErrors : list error) : string :=
  if 0 <? len parseErrors then
    "Warning: encountered " ++ itoa (len parseErrors) ++ " error(s) during parsing:" ++ nl
    ++ String.concat "" (map (fun err => "  " ++ errorText err ++ nl) parseErrors)
    ++ nl
  else EmptyString.

(** [main] from [flag.Parse()] on.  The result is [None] when the run
    panics on a [nil] dereference. *)
Definition main (flags : Flags) : option Outcome :=
  if version flags then
    Some (mkOutcome ("openvpn-status-parser version " ++ Version ++ nl) EmptyString 0)
  else if String.eqb (filePath flags) "" then
    Some (mkOutcome EmptyString ("Error: -file flag is required" ++ nl ++ nl ++ usage) 1)
  else if negb (String.eqb (format flags) "json")
          && negb (String.eqb (format flags) "openmetrics") then
    Some (mkOutcome EmptyString
            ("Error: -format must be 'json' or 'openmetrics'" ++ nl ++ nl ++ usage) 1)
  else
    match Config.ParseConfig os_Open (filePath flags) with
    | (_, Some err) =>
        Some (mkOutcome EmptyString
                ("Error: failed to parse config file: " ++ errorText err ++ nl) 1)
    | (None, None) => None
    | (Some cfg, None) =>
        let statusFilePath := Config.StatusFile cfg in
        let statusVer := Main.getStatusVersion (Config.StatusVersion cfg) in
        let serverConfig :=
          mkServerConfig (Config.ID cfg) (Config.Local cfg) (Config.Port cfg)
            (Config.Proto cfg) (Config.Dev cfg) in
        let log :=
          "Config file parsed: server_id=" ++ ID serverConfig
          ++ ", status=" ++ statusFilePath
          ++ ", version=" ++ itoa (Config.StatusVersion cfg) ++ nl in
        let parsed := ParseFile os_Open statusFilePath statusVer in
        let parseErrors := snd parsed in
        let log := log ++ warnings parseErrors in
        match fst parsed with
        | None =>
            Some (mkOutcome EmptyString
                    (log ++ "Error: failed to parse status file" ++ nl) 1)
        | Some status =>
            let status := setServer status (Some serverConfig) in
            let formatted :=
              if String.eqb (format flags) "json"
              then Some (JSONFormat (indent flags) status)
              else if String.eqb (format flags) "openmetrics"
              then option_map (fun output => (output, None))
                     (Formatter.Format Quote now status)
              else None in
            match formatted with
            | None => None
            | Some (_, Some err) =>
                Some (mkOutcome EmptyString
                        (log ++ "Error: failed to format output: " ++ errorText err ++ nl) 1)
            | Some (output, None) =>
                Some (mkOutcome output log (if 0 <? len parseErrors then 2 else 0))
            end
        end
    end.

End Main.

End Cli.

(** * Definitions that the statements use *)

Import Strings Parser.

Definition optList {A} (o : option A) : list A :=
  match o with Some a => [a] | None => [] end.

(** [s] holds the byte [x]. *)
Fixpoint hasByte (x : ascii) (s : string) : bool :=
  match s with
  | EmptyString => false
  | String c rest => Ascii.eqb c x || hasByte x rest
  end.

(** [x] occurs in [s]: [strings.Contains(s, x)]. *)
Definition Contains (s x : string) : Prop :=
  exists pre post, s = pre ++ x ++ post.

Definition tabs : string := String tab "".

(** ** File systems for the examples *)

(** A file system with one status file. *)
Definition oneFile (name content : string) : string -> File + error :=
  fun path =>
    if String.eqb path name then inl (mkFile content None)
    else inr (ioError "no such file or directory").

(** A file system with a version-2 and a version-3 status file. *)
Definition twoFiles (name2 content2 name3 content3 : string) : string -> File + error :=
  fun path =>
    if String.eqb path name2 then inl (mkFile content2 None)
    else if String.eqb path name3 then inl (mkFile content3 None)
    else inr (ioError "no such file or directory").

(** ** TITLE and TIME lines *)

(** The model after a valid line with tag [tag]. *)
Definition assignTagged (tag : string) (status : Status) (fields : list string) : Status :=
  if String.eqb tag "TITLE" then setTitle status (field fields 1)
  else setTime status (tl fields).

(** The fields of [text] when it is a valid line with tag [tag]. *)
Definition taggedFields (tag : string) (delimiter : ascii) (text : string)
  : option (list string) :=
  let fields := Split (TrimSpace text) delimiter in
  if String.eqb (field fields 0) tag && (2 <=? len fields) then Some fields else None.

(** The field lists of the valid lines with tag [tag], in file order. *)
Definition validTagged (tag : string) (delimiter : ascii) (texts : list string)
  : list (list string) :=
  flat_map (fun text => optList (taggedFields tag delimiter text)) texts.

(** Five lines: two valid TITLE lines, one TITLE line without a title and
    two valid TIME lines. *)
Definition sampleTitles : string :=
  "TITLE,first" ++ String lf ("TIME,t1,1" ++ String lf ("TITLE,second" ++ String lf
    ("TITLE" ++ String lf ("TIME,t2,2" ++ String lf "")))).

(** ** Numeric sub-fields *)

(** The value that the assignment of a numeric sub-field makes, if any. *)
Definition numAssigned (raw : string) : option Z :=
  if String.eqb raw "" then None
  else match Strconv.ParseInt raw with
       | (val, None) => Some val
       | (_, Some _) => None
       end.

(** The value of a numeric sub-field in the record: what was assigned, and
    the zero of [Client{}] and [Route{}] otherwise. *)
Definition numValue (raw : string) : Z :=
  match numAssigned raw with Some v => v | None => 0 end.

(** The error that a numeric sub-field raises, if any. *)
Definition numFailure (lineNum : Z) (name raw : string) : option error :=
  if String.eqb raw "" then None
  else match Strconv.ParseInt raw with
       | (_, Some err) => Some (ParseError lineNum name raw (numError err))
       | (_, None) => None
       end.

(** The error of the first failing field among the named raw values. *)
Fixpoint firstFailure (lineNum : Z) (named : list (string * string)) : option error :=
  match named with
  | [] => None
  | (name, raw) :: rest =>
      match numFailure lineNum name raw with
      | Some e => Some e
      | None => firstFailure lineNum rest
      end
  end.

(** All bytes of [s] are decimal digits. *)
Fixpoint digits (s : string) : bool :=
  match s with
  | EmptyString => true
  | String c rest => Strconv.isDigit c && digits rest
  end.

(** A decimal numeral: an optional sign and one or more decimal digits. *)
Definition isNumeric (raw : string) : bool :=
  match raw with
  | EmptyString => false
  | String c rest =>
      if Ascii.eqb c "+" || Ascii.eqb c "-"
      then negb (String.eqb rest "") && digits rest
      else digits raw
  end.

(** ** The scan loop as a function of the lines *)

(** The model after the loop body ran on [text] as line [lineNum]. *)
Definition stepStatus (version : StatusVersion) (delimiter : ascii)
    (status : Status) (lineNum : Z) (text : string) : Status :=
  let line := TrimSpace text in
  if String.eqb line "" then status
  else fst (parseLine line status lineNum version delimiter).

(** The model after the lines [texts], the first of which is line [n + 1]. *)
Fixpoint runStatus (version : StatusVersion) (delimiter : ascii)
    (texts : list string) (status : Status) (n : Z) : Status :=
  match texts with
  | [] => status
  | t :: rest =>
      runStatus version delimiter rest
        (stepStatus version delimiter status (n + 1) t) (n + 1)
  end.

(** The decode error of [text] as line [lineNum], if any. *)
Definition decodeError (version : StatusVersion) (delimiter : ascii)
    (lineNum : Z) (text : string) : option error :=
  let line := TrimSpace text in
  if String.eqb line "" then None
  else snd (parseLine line initStatus lineNum version delimiter).

(** The decode errors of the lines [texts] in file order, the first line
    being line [n + 1]. *)
Fixpoint lineErrors (version : StatusVersion) (delimiter : ascii)
    (n : Z) (texts : list string) : list error :=
  match texts with
  | [] => []
  | t :: rest =>
      (optList (decodeError version delimiter (n + 1) t)
       ++ lineErrors version delimiter (n + 1) rest)%list
  end.

(** Four lines: a title, a short CLIENT_LIST line, a blank line and a TITLE
    line without a title. *)
Definition sampleV2 : string :=
  "TITLE,a" ++ String lf ("CLIENT_LIST,b" ++ String lf (String lf ("TITLE" ++ String lf ""))).

(** ** Version 1 *)

(** The client record that a version-1 line with the fields [fields]
    decodes to. *)
Definition clientV1 (fields : list string) : Client :=
  mkClient (field fields 0) (addressPart (field fields 1)) "" ""
    (numValue (field fields 2)) (numValue (field fields 3)) (field fields 4)
    0 "" 0 0 "".

(** The field lists of the valid version-1 lines among [texts]. *)
Definition v1Records (delimiter : ascii) (texts : list string) : list (list string) :=
  filter (fun fields => 5 <=? len fields)
    (map (fun text => Split (TrimSpace text) delimiter) texts).

(** ** The real address *)

(** The address portion of a real-address field split on its last
    address/port separator: everything before the last colon, and the whole
    field when it has no colon. *)
Definition addressBeforeLastSeparator (raw : string) : string :=
  let parts := Split raw colon in
  if len parts <? 2 then raw else Join (removelast parts) ":".

(** An IPv6 address with a port. *)
Definition ipv6Real : string := "[2001:db8::1]:51234".

(** ** The formatter's test without a connect epoch *)

(** The model of [TestOpenMetricsFormatterV1NoTimestamp]: one client whose
    [ConnectedSinceTime] is 0. *)
Definition v1Client : Client :=
  mkClient "user1" "192.168.1.100:54321" "" "" 1000 2000 "" 0 "" 0 0 "".

Definition v1Server : ServerConfig := mkServerConfig "test" "" "" "" "".

Definition v1NoTimestamp : Status := mkStatus (Some v1Server) "" [] [v1Client] [].

(** ** Version 2 against version 3 *)

(** A field that holds no comma and no horizontal tab. *)
Definition fieldFree (f : string) : Prop :=
  hasByte comma f = false /\ hasByte tab f = false.

(** Neither the first nor the last field of a list of two or more fields
    consists of white space only. *)
Definition edgesNotBlank (fields : list string) : Prop :=
  match fields with
  | [] | [_] => True
  | f :: rest => TrimLeft f <> "" /\ TrimRight (last rest "") <> ""
  end.

(** The two delimiters of the status files. *)
Definition isSep (sep : ascii) : Prop := sep = comma \/ sep = tab.

(** Bytes after [R] never change what [width] sees in front of it. *)
Definition stable (width : string -> nat) (R : string) : Prop :=
  forall s, s <> "" -> width (s ++ R) = width s.

(** A title line and a route line, comma-joined and tab-joined. *)
Definition agreeV2 : string :=
  "TITLE,OpenVPN" ++ String lf ("ROUTING_TABLE,10.8.0.2,user1,1.2.3.4:5,now,x" ++ String lf "").

Definition agreeV3 : string :=
  "TITLE" ++ tabs ++ "OpenVPN"
  ++ String lf ("ROUTING_TABLE" ++ tabs ++ "10.8.0.2" ++ tabs ++ "user1" ++ tabs
                ++ "1.2.3.4:5" ++ tabs ++ "now" ++ tabs ++ "x" ++ String lf "").

(** ** Records of versions 2 and 3 *)

(** The numeric sub-fields of a CLIENT_LIST line of versions 2 and 3, with
    the names the decoder gives them. *)
Definition numericV2V3 (fields : list string) : list (string * string) :=
  [("bytesReceived", field fields 5); ("bytesSent", field fields 6);
   ("connectedSinceTime", field fields 8); ("clientId", field fields 10);
   ("peerId", field fields 11)].

(** The client record that a CLIENT_LIST line of versions 2 and 3 with the
    fields [fields] decodes to. *)
Definition clientV2V3 (fields : list string) : Client :=
  mkClient (field fields 1) (addressPart (field fields 2)) (field fields 3)
    (field fields 4) (numValue (field fields 5)) (numValue (field fields 6))
    (field fields 7) (numValue (field fields 8)) (field fields 9)
    (numValue (field fields 10)) (numValue (field fields 11)) (field fields 12).

(** The route record that a ROUTING_TABLE line with the fields [fields]
    decodes to. *)
Definition routeOf (fields : list string) : Route :=
  mkRoute (field fields 1) (field fields 2) (addressPart (field fields 3))
    (field fields 4) (numValue (field fields 5)).

(** The field lists of the lines among [texts] that carry the tag [tag] and
    have at least [floor] fields, in file order. *)
Definition recordFields (tag : string) (floor : Z) (delimiter : ascii)
    (texts : list string) : list (list string) :=
  filter (fun fields => String.eqb (field fields 0) tag && (floor <=? len fields))
    (map (fun text => Split (TrimSpace text) delimiter) texts).

(** The tags that versions 2 and 3 decode. *)
Definition knownTag (tag : string) : bool :=
  String.eqb tag "TITLE" || String.eqb tag "TIME" || String.eqb tag "CLIENT_LIST"
  || String.eqb tag "ROUTING_TABLE".

(** ** Errors and their lines *)

(** The line that an error cites; 0 for an error that cites none. *)
Definition lineOf (e : error) : Z :=
  match e with
  | ParseError line _ _ _ => line
  | _ => 0
  end.

(** The error with its line replaced by [n]. *)
Definition relabel (n : Z) (e : error) : error :=
  match e with
  | ParseError _ f v c => ParseError n f v c
  | _ => e
  end.

(** A line that is not blank after the trim. *)
Definition nonBlank (text : string) : bool :=
  negb (String.eqb (TrimSpace text) "").

(** ** Decimal numerals *)

(** The value of the decimal digits [s] read after the value [n]. *)
Fixpoint valFrom (n : Z) (s : string) : Z :=
  match s with
  | EmptyString => n
  | String c rest => valFrom (n * 10 + (byte c - 48)) rest
  end.

(** The value of the decimal digits [s]. *)
Definition decVal (s : string) : Z := valFrom 0 s.

(** ** Label values of the exposition *)

(** What [sanitizeLabelValue] writes for one byte. *)
Definition escapeByte (c : ascii) : string :=
  if Ascii.eqb c "\" then "\\"
  else if Ascii.eqb c lf then "\n"
  else if Ascii.eqb c Formatter.dquote then String "\" (String Formatter.dquote "")
  else String c "".

(** The reader's side of the escaping: a backslash and the byte after it
    stand for a line feed when that byte is [n], and for the byte itself
    otherwise. *)
Fixpoint unescape (s : string) : string :=
  match s with
  | EmptyString => EmptyString
  | String c rest =>
      if Ascii.eqb c "\" then
        match rest with
        | String d rest' => String (if Ascii.eqb d "n" then lf else d) (unescape rest')
        | EmptyString => String c EmptyString
        end
      else String c (unescape rest)
  end.

(** [s] ends with [x]: [strings.HasSuffix(s, x)]. *)
Definition EndsWith (s x : string) : Prop := exists pre, s = pre ++ x.

(** ** Directives of the configuration *)

(** The argument of the directive [name] on the line [text], when the line
    is such a directive with an argument. *)
Definition directiveArg (name : string) (text : string) : option string :=
  let line := TrimSpace text in
  if String.eqb line "" || HasPrefix line "#" || HasPrefix line ";" then None
  else
    let tokens := Fields line in
    if String.eqb (field tokens 0) name && (2 <=? len tokens)
    then Some (field tokens 1) else None.

(** The arguments of the directives [name] among [texts], in file order. *)
Definition directiveArgs (name : string) (texts : list string) : list string :=
  flat_map (fun text => optList (directiveArg name text)) texts.

(** The version that the argument of a [status-version] directive sets, if
    it sets one. *)
Definition validVersion (arg : string) : option Z :=
  match Strconv.Atoi arg with
  | (ver, None) => if (1 <=? ver) && (ver <=? 3) then Some ver else None
  | (_, Some _) => None
  end.

(** The configuration that the lines [texts] of a configuration file give:
    for every directive the last argument, and the default without one. *)
Definition configOf (texts : list string) : Config.ServerConfig :=
  let statusFile := last (directiveArgs "status" texts) "" in
  Config.mkServerConfig
    (Config.getServerID statusFile)
    (last (directiveArgs "local" texts) "")
    (last (directiveArgs "port" texts) "1194")
    (last (directiveArgs "proto" texts) "")
    (last (directiveArgs "dev" texts) "")
    statusFile
    (last (flat_map (fun arg => optList (validVersion arg))
             (directiveArgs "status-version" texts)) 3).

(** ** An environment for the examples of [main] *)

Definition sampleConf : string :=
  "# server" ++ String lf ("port 1195" ++ String lf
  ("status /run/openvpn/status.log 10" ++ String lf
  ("status-version 9" ++ String lf ("status-version 2" ++ String lf "")))).

Definition sampleStatus : string :=
  "TITLE,OpenVPN" ++ String lf ("CLIENT_LIST,short" ++ String lf "").

Definition sampleFS : string -> File + error :=
  twoFiles "server.conf" sampleConf "/run/openvpn/status.log" sampleStatus.

Definition quoteId (s : string) : string := s.

Definition marshalStub (status : Status) : string + error := inl (Title status).

(** The server configuration that [main] attaches to the model. *)
Definition serverOf (cfg : Config.ServerConfig) : ServerConfig :=
  mkServerConfig (Config.ID cfg) (Config.Local cfg) (Config.Port cfg)
    (Config.Proto cfg) (Config.Dev cfg).

(** ** Further sample files *)

Definition sampleRecords : string :=
  "HEADER,CLIENT_LIST,Common Name" ++ String lf
  ("CLIENT_LIST,user1,1.2.3.4:5,10.8.0.2,,1,2,T,3,user1,4,5,AES-256-GCM,extra" ++ String lf
  ("GLOBAL_STATS,Max bcast/mcast queue length,0" ++ String lf
  ("ROUTING_TABLE,10.8.0.2,user1,1.2.3.4:5,T,9" ++ String lf
  ("CLIENT_LIST,short" ++ String lf
  ("END" ++ String lf ""))))).

Definition withBlanks : string :=
  String lf ("TITLE,a" ++ String lf ("   " ++ String lf ("TIME" ++ String lf ""))).

Definition withoutBlanks : string :=
  "TITLE,a" ++ String lf ("TIME" ++ String lf "").

Definition oneClient : string :=
  "user1,10.0.0.1:5,100,200,T1" ++ String lf "".

Definition twoClients : string :=
  "user1,10.0.0.1:5,100,200,T1" ++ String lf ("user2,10.0.0.2:6,1,2,T2" ++ String lf "").

(** ** Tactics *)

(** Evaluates comparisons of byte values and the boolean connectives. *)
Ltac eval_bytes :=
  repeat (cbn [Z.eqb Z.leb Z.compare Pos.compare Pos.compare_cont Pos.eqb andb orb
               Nat.eqb];
          rewrite ?andb_false_r, ?andb_false_l, ?orb_false_r).

(** * Properties *)

(** ** Helper facts on the library functions *)

Lemma Split_not_nil (s : string) (sep : ascii) : Split s sep <> [].
Proof.
  destruct s as [|c rest]; simpl; [discriminate|].
  destruct (Ascii.eqb c sep); [discriminate|].
  destruct (Split rest sep); discriminate.
Qed.

Lemma len_Split_pos (s : string) (sep : ascii) : (len (Split s sep) =? 0) = false.
Proof.
  apply Z.eqb_neq. unfold len.
  pose proof (Split_not_nil s sep) as H.
  destruct (Split s sep); [congruence | simpl; lia].
Qed.

Lemma eqb_string_false (a b : string) : a <> b -> String.eqb a b = false.
Proof. intros H. apply String.eqb_neq. exact H. Qed.

(** [parseLine] on a line of versions 2 and 3 dispatches on the tag. *)
Lemma parseLine_tagged (line : string) (status : Status) (lineNum : Z)
    (version : StatusVersion) (delimiter : ascii) :
  version <> Version1 ->
  parseLine line status lineNum version delimiter =
    let fields := Split line delimiter in
    let lineType := field fields 0 in
    if String.eqb lineType "TITLE" then handleTitle fields status lineNum
    else if String.eqb lineType "TIME" then handleTime fields status lineNum
    else if String.eqb lineType "HEADER" then (status, None)
    else if String.eqb lineType "CLIENT_LIST" then handleClientListV2V3 fields status lineNum
    else if String.eqb lineType "ROUTING_TABLE" then handleRoutingTable fields status lineNum
    else (status, None).
Proof.
  intros Hv. unfold parseLine. rewrite len_Split_pos.
  apply Z.eqb_neq in Hv. rewrite Hv. reflexivity.
Qed.

Lemma parseLine_v1 (line : string) (status : Status) (lineNum : Z) (delimiter : ascii) :
  parseLine line status lineNum Version1 delimiter =
    handleClientListV1 (Split line delimiter) status lineNum.
Proof. unfold parseLine. rewrite len_Split_pos. reflexivity. Qed.

(** ** C8: the effective version *)

Lemma getStatusVersion_eq (ver : Z) :
  Main.getStatusVersion ver = if (1 <=? ver) && (ver <=? 3) then ver else 3.
Proof.
  unfold Main.getStatusVersion, Version1, Version2, Version3.
  destruct (ver =? 1) eqn:E1; [apply Z.eqb_eq in E1; subst; reflexivity|].
  destruct (ver =? 2) eqn:E2; [apply Z.eqb_eq in E2; subst; reflexivity|].
  destruct (ver =? 3) eqn:E3; [apply Z.eqb_eq in E3; subst; reflexivity|].
  apply Z.eqb_neq in E1, E2, E3.
  destruct (1 <=? ver) eqn:L1; simpl; [|reflexivity].
  destruct (ver <=? 3) eqn:L2; [|reflexivity].
  apply Z.leb_le in L1, L2. lia.
Qed.

(** C8: [getStatusVersion] maps 1, 2 and 3 to themselves and every other
    integer, such as 9, to 3; so does the version that [main] derives from a
    configuration whose only [status-version] directive carries the integer. *)
Theorem getStatusVersion_default_3 :
  forall ver : Z,
    Main.getStatusVersion ver = (if (1 <=? ver) && (ver <=? 3) then ver else 3)
    /\ Main.getStatusVersion 9 = Version3
    /\ Main.getStatusVersion
         (Config.applyStatusVersion Config.defaultStatusVersion ver)
       = (if (1 <=? ver) && (ver <=? 3) then ver else 3).
Proof.
  intros ver. split; [apply getStatusVersion_eq|]. split; [reflexivity|].
  rewrite getStatusVersion_eq. unfold Config.applyStatusVersion.
  destruct ((1 <=? ver) && (ver <=? 3)) eqn:E; [rewrite E|]; reflexivity.
Qed.

(** ** C7: TITLE and TIME lines *)

(** C7: under versions 2 and 3 a line whose first field is [TITLE] or [TIME]
    sets the title to [fields[1]], respectively the time fields to all the
    fields after the tag, when it has at least 2 fields; with fewer fields it
    returns one error for the line and the model is unchanged. *)
Theorem title_time_decoding :
  forall (line : string) (status : Status) (lineNum : Z)
         (version : StatusVersion) (delimiter : ascii)
         (fields : list string) (tag : string),
    version <> Version1 ->
    Split line delimiter = fields ->
    tag = "TITLE" \/ tag = "TIME" ->
    field fields 0 = tag ->
    parseLine line status lineNum version delimiter =
      if len fields <? 2
      then (status,
            Some (ParseError lineNum tag (Join fields ",")
                    (errorString ("expected at least 2 fields, got " ++ itoa (len fields)))))
      else (assignTagged tag status fields, None).
Proof.
  intros line status lineNum version delimiter fields tag Hv Hs Htag Hf.
  rewrite parseLine_tagged by exact Hv. cbv zeta. rewrite Hs, Hf.
  destruct Htag as [-> | ->]; reflexivity.
Qed.

Lemma title_time_decoding_witness :
  parseLine "TITLE,OpenVPN Server Status" initStatus 1 Version2 comma =
    (setTitle initStatus "OpenVPN Server Status", None)
  /\ parseLine "TIME,Thu Nov 27 10:30:45 2025,1732704645" initStatus 2 Version2 comma =
    (setTime initStatus ["Thu Nov 27 10:30:45 2025"; "1732704645"], None)
  /\ parseLine "TIME" initStatus 3 Version2 comma =
    (initStatus,
     Some (ParseError 3 "TIME" "TIME" (errorString "expected at least 2 fields, got 1"))).
Proof.
  split; [|split].
  - apply (title_time_decoding "TITLE,OpenVPN Server Status" initStatus 1 Version2 comma
             ["TITLE"; "OpenVPN Server Status"] "TITLE");
      [discriminate | reflexivity | left; reflexivity | reflexivity].
  - apply (title_time_decoding "TIME,Thu Nov 27 10:30:45 2025,1732704645" initStatus 2
             Version2 comma ["TIME"; "Thu Nov 27 10:30:45 2025"; "1732704645"] "TIME");
      [discriminate | reflexivity | right; reflexivity | reflexivity].
  - apply (title_time_decoding "TIME" initStatus 3 Version2 comma ["TIME"] "TIME");
      [discriminate | reflexivity | right; reflexivity | reflexivity].
Defined.

(** ** C2: CLIENT_LIST lines below the field-count floor *)

(** C2: a non-blank line with fewer than 5 fields under version 1, or with
    tag [CLIENT_LIST] and fewer than 12 fields under versions 2 and 3, makes
    the scan loop append exactly one error for that line; the model, and so
    its client list, is unchanged. *)
Theorem short_client_line_one_error :
  forall (version : StatusVersion) (delimiter : ascii)
         (status : Status) (parseErrors : list error) (lineNum : Z)
         (text : string) (fields : list string),
    TrimSpace text <> "" ->
    Split (TrimSpace text) delimiter = fields ->
    (version = Version1 /\ len fields < 5)
    \/ (version <> Version1 /\ field fields 0 = "CLIENT_LIST" /\ len fields < 12) ->
    scanBody version delimiter (status, parseErrors, lineNum) text =
      (status,
       (parseErrors ++
          [ParseError (lineNum + 1)
             (if version =? Version1 then "CLIENT_LIST_V1" else "CLIENT_LIST")
             (Join fields ",")
             (errorString
                ((if version =? Version1 then "expected 5" else "expected at least 12")
                 ++ " fields, got " ++ itoa (len fields)))])%list,
       lineNum + 1).
Proof.
  intros version delimiter status parseErrors lineNum text fields Hnb Hs Hcase.
  unfold scanBody. rewrite (eqb_string_false _ _ Hnb).
  destruct Hcase as [[-> Hlen] | [Hv [Htag Hlen]]].
  - rewrite parseLine_v1, Hs. unfold handleClientListV1. cbv zeta.
    apply Z.ltb_lt in Hlen. rewrite Hlen. reflexivity.
  - rewrite parseLine_tagged by exact Hv. cbv zeta. rewrite Hs, Htag. simpl.
    unfold handleClientListV2V3. cbv zeta.
    apply Z.ltb_lt in Hlen. rewrite Hlen.
    apply Z.eqb_neq in Hv. rewrite Hv. reflexivity.
Qed.

Lemma short_client_line_one_error_witness :
  scanBody Version1 comma (initStatus, [], 0) "user1,192.168.1.100:54321,1048576" =
    (initStatus,
     [ParseError 1 "CLIENT_LIST_V1" "user1,192.168.1.100:54321,1048576"
        (errorString "expected 5 fields, got 3")], 1)
  /\ scanBody Version3 tab (initStatus, [], 4)
       ("CLIENT_LIST" ++ String tab "user1" ++ String tab "192.168.1.100:54321") =
    (initStatus,
     [ParseError 5 "CLIENT_LIST" "CLIENT_LIST,user1,192.168.1.100:54321"
        (errorString "expected at least 12 fields, got 3")], 5).
Proof.
  split.
  - apply (short_client_line_one_error Version1 comma initStatus [] 0
             "user1,192.168.1.100:54321,1048576"
             ["user1"; "192.168.1.100:54321"; "1048576"]).
    + vm_compute. discriminate.
    + vm_compute. reflexivity.
    + left. split; [reflexivity | vm_compute; reflexivity].
  - apply (short_client_line_one_error Version3 tab initStatus [] 4
             ("CLIENT_LIST" ++ String tab "user1" ++ String tab "192.168.1.100:54321")
             ["CLIENT_LIST"; "user1"; "192.168.1.100:54321"]).
    + vm_compute. discriminate.
    + vm_compute. reflexivity.
    + right. split; [discriminate | split; [reflexivity | vm_compute; reflexivity]].
Defined.

(** ** C3: the policy for numeric sub-fields *)

Lemma parseUintLoop_non_digit (s : string) :
  digits s = false ->
  forall n, Strconv.parseUintLoop s n = (0, Some Strconv.ErrSyntax)
            \/ Strconv.parseUintLoop s n = (Strconv.maxUint64, Some Strconv.ErrRange).
Proof.
  induction s as [|c rest IH]; simpl; [discriminate|].
  intros Hd n. destruct (Strconv.isDigit c); simpl in Hd; [|left; reflexivity].
  repeat match goal with
         | |- context [if ?b then (Strconv.maxUint64, _) else _] =>
             destruct b; [right; reflexivity|]
         end.
  apply IH. exact Hd.
Qed.

Lemma ParseUint_non_digit (s : string) :
  s = "" \/ digits s = false ->
  Strconv.ParseUint s = (0, Some Strconv.ErrSyntax)
  \/ Strconv.ParseUint s = (Strconv.maxUint64, Some Strconv.ErrRange).
Proof.
  intros [-> | Hd]; [left; reflexivity|].
  destruct s as [|c rest]; [discriminate|].
  unfold Strconv.ParseUint. apply parseUintLoop_non_digit. exact Hd.
Qed.

(** [ParseInt] fails on every string that is no decimal numeral. *)
Lemma ParseInt_non_numeric (raw : string) :
  isNumeric raw = false ->
  exists v cause,
    Strconv.ParseInt raw = (v, Some (Strconv.mkNumError "ParseInt" raw cause)).
Proof.
  intros Hn. destruct raw as [|c rest].
  - exists 0, Strconv.ErrSyntax. reflexivity.
  - unfold isNumeric in Hn. unfold Strconv.ParseInt.
    set (neg := Ascii.eqb c "-") in *.
    set (sgn := Ascii.eqb c "+" || neg) in *.
    assert (Hs : (if sgn then rest else String c rest) = ""
                 \/ digits (if sgn then rest else String c rest) = false).
    { destruct sgn; [|right; exact Hn].
      destruct (String.eqb rest "") eqn:E.
      - left. apply String.eqb_eq. exact E.
      - right. exact Hn. }
    destruct (ParseUint_non_digit _ Hs) as [-> | ->].
    + exists 0, Strconv.ErrSyntax. reflexivity.
    + destruct neg.
      * exists (- 2 ^ 63), Strconv.ErrRange. reflexivity.
      * exists (2 ^ 63 - 1), Strconv.ErrRange. reflexivity.
Qed.

Lemma parseNumeric_eq {R : Type} (lineNum : Z) (name raw : string)
    (assign : R -> Z -> R) (st : R * list error) :
  parseNumeric lineNum name raw assign st =
    (match numAssigned raw with Some v => assign (fst st) v | None => fst st end,
     (snd st ++ match numFailure lineNum name raw with Some e => [e] | None => [] end)%list).
Proof.
  unfold parseNumeric, numAssigned, numFailure.
  destruct (String.eqb raw "").
  - rewrite app_nil_r. destruct st; reflexivity.
  - destruct (Strconv.ParseInt raw) as [v [e|]]; simpl.
    + reflexivity.
    + rewrite app_nil_r. reflexivity.
Qed.

Lemma len_ge_ltb {A} (l : list A) (n : Z) : n <= len l -> (len l <? n) = false.
Proof. intros H. apply Z.ltb_ge. exact H. Qed.

(** C3: on a line that meets the field-count floor of its record type each
    numeric sub-field of the appended record holds [numValue] of its raw
    text and the returned error is that of the first failing field: an empty
    raw text gives 0 and no error, and a non-empty text that is no numeral
    gives 0 and a [ParseError] with the field's name, the line number and
    the raw text.  The record is appended in every case. *)
Theorem numeric_subfield_policy :
  forall (fields : list string) (status : Status) (lineNum : Z),
    (12 <= len fields ->
     exists c,
       handleClientListV2V3 fields status lineNum =
         (setClientList status (ClientList status ++ [c])%list,
          firstFailure lineNum
            [("bytesReceived", field fields 5); ("bytesSent", field fields 6);
             ("connectedSinceTime", field fields 8); ("clientId", field fields 10);
             ("peerId", field fields 11)])
       /\ [BytesReceived c; BytesSent c; ConnectedSinceTime c; ClientID c; PeerID c]
          = map numValue [field fields 5; field fields 6; field fields 8;
                          field fields 10; field fields 11])
    /\ (6 <= len fields ->
        exists r,
          handleRoutingTable fields status lineNum =
            (setRoutingTable status (RoutingTable status ++ [r])%list,
             firstFailure lineNum [("lastRefTime", field fields 5)])
          /\ LastRefTime r = numValue (field fields 5))
    /\ (5 <= len fields ->
        exists c,
          handleClientListV1 fields status lineNum =
            (setClientList status (ClientList status ++ [c])%list,
             firstFailure lineNum
               [("bytesReceived", field fields 2); ("bytesSent", field fields 3)])
          /\ [BytesReceived c; BytesSent c]
             = map numValue [field fields 2; field fields 3])
    /\ (forall name, numValue "" = 0 /\ numFailure lineNum name "" = None)
    /\ (forall name raw,
          raw <> "" -> isNumeric raw = false ->
          numValue raw = 0
          /\ exists cause,
               numFailure lineNum name raw =
                 Some (ParseError lineNum name raw
                         (numError (Strconv.mkNumError "ParseInt" raw cause)))).
Proof.
  intros fields status lineNum. split; [|split; [|split; [|split]]].
  - intros Hlen. unfold handleClientListV2V3. cbv zeta.
    rewrite (len_ge_ltb _ _ Hlen). rewrite !parseNumeric_eq.
    eexists. split; [apply f_equal2; [reflexivity|]|].
    + cbn [fst snd firstFailure app].
      destruct (numFailure lineNum "bytesReceived" (field fields 5));
        destruct (numFailure lineNum "bytesSent" (field fields 6));
        destruct (numFailure lineNum "connectedSinceTime" (field fields 8));
        destruct (numFailure lineNum "clientId" (field fields 10));
        destruct (numFailure lineNum "peerId" (field fields 11)); reflexivity.
    + cbn [fst snd map]. unfold numValue.
      destruct (numAssigned (field fields 5));
        destruct (numAssigned (field fields 6));
        destruct (numAssigned (field fields 8));
        destruct (numAssigned (field fields 10));
        destruct (numAssigned (field fields 11));
        destruct ((12 <? len fields) && negb (String.eqb (field fields 12) ""));
        reflexivity.
  - intros Hlen. unfold handleRoutingTable. cbv zeta.
    rewrite (len_ge_ltb _ _ Hlen). rewrite !parseNumeric_eq.
    eexists. split; [apply f_equal2; [reflexivity|]|].
    + cbn [fst snd firstFailure app].
      destruct (numFailure lineNum "lastRefTime" (field fields 5)); reflexivity.
    + cbn [fst snd]. unfold numValue.
      destruct (numAssigned (field fields 5)); reflexivity.
  - intros Hlen. unfold handleClientListV1. cbv zeta.
    rewrite (len_ge_ltb _ _ Hlen). rewrite !parseNumeric_eq.
    eexists. split; [apply f_equal2; [reflexivity|]|].
    + cbn [fst snd firstFailure app].
      destruct (numFailure lineNum "bytesReceived" (field fields 2));
        destruct (numFailure lineNum "bytesSent" (field fields 3)); reflexivity.
    + cbn [fst snd map]. unfold numValue.
      destruct (numAssigned (field fields 2));
        destruct (numAssigned (field fields 3)); reflexivity.
  - intros name. split; reflexivity.
  - intros name raw Hne Hnum.
    unfold numValue, numAssigned, numFailure.
    rewrite (eqb_string_false _ _ Hne).
    destruct (ParseInt_non_numeric raw Hnum) as [v [cause ->]].
    split; [reflexivity | exists cause; reflexivity].
Qed.

Lemma numeric_subfield_policy_witness :
  (exists c,
     handleClientListV2V3
       ["CLIENT_LIST"; "user1"; "192.168.1.100:54321"; "10.8.0.2"; "";
        "invalid_number"; "2097152"; "Thu Nov 27 09:30:45 2025"; "x17";
        "user1"; ""; "0"] initStatus 2 =
       (setClientList initStatus [c],
        Some (ParseError 2 "bytesReceived" "invalid_number"
                (numError (Strconv.mkNumError "ParseInt" "invalid_number"
                             Strconv.ErrSyntax))))
     /\ [BytesReceived c; BytesSent c; ConnectedSinceTime c; ClientID c; PeerID c]
        = [0; 2097152; 0; 0; 0])
  /\ numValue "12a" = 0.
Proof.
  pose proof (numeric_subfield_policy
                ["CLIENT_LIST"; "user1"; "192.168.1.100:54321"; "10.8.0.2"; "";
                 "invalid_number"; "2097152"; "Thu Nov 27 09:30:45 2025"; "x17";
                 "user1"; ""; "0"] initStatus 2) as [H12 [_ [_ [_ Hbad]]]].
  split.
  - destruct H12 as [c [E V]]; [vm_compute; discriminate|].
    exists c. split; [exact E | exact V].
  - apply (Hbad "bytesSent" "12a"); [discriminate | reflexivity].
Defined.

(** ** The scan loop as a function of the lines *)

(** The error a decoder returns does not depend on the model. *)
Lemma parseLine_error_any_status (line : string) (s1 s2 : Status) (lineNum : Z)
    (version : StatusVersion) (delimiter : ascii) :
  snd (parseLine line s1 lineNum version delimiter)
  = snd (parseLine line s2 lineNum version delimiter).
Proof.
  unfold parseLine, handleTitle, handleTime, handleClientListV1,
    handleClientListV2V3, handleRoutingTable. cbv zeta.
  repeat match goal with
         | |- context [if ?b then _ else _] => destruct b
         end; reflexivity.
Qed.

Lemma scanBody_eq (version : StatusVersion) (delimiter : ascii)
    (status : Status) (errs : list error) (n : Z) (text : string) :
  scanBody version delimiter (status, errs, n) text =
    (stepStatus version delimiter status (n + 1) text,
     (errs ++ optList (decodeError version delimiter (n + 1) text))%list,
     n + 1).
Proof.
  unfold scanBody, stepStatus, decodeError. cbv zeta.
  destruct (String.eqb (TrimSpace text) "").
  - rewrite app_nil_r. reflexivity.
  - rewrite (parseLine_error_any_status _ initStatus status).
    destruct (parseLine (TrimSpace text) status (n + 1) version delimiter)
      as [st' [e|]]; simpl; [reflexivity | rewrite app_nil_r; reflexivity].
Qed.

Lemma scan_loop_eq (version : StatusVersion) (delimiter : ascii) (texts : list string) :
  forall (status : Status) (errs : list error) (n : Z),
    fold_left (scanBody version delimiter) texts (status, errs, n) =
      (runStatus version delimiter texts status n,
       (errs ++ lineErrors version delimiter n texts)%list,
       n + len texts).
Proof.
  induction texts as [|t rest IH]; intros status errs n.
  - simpl. rewrite app_nil_r. unfold len. simpl. rewrite Z.add_0_r. reflexivity.
  - cbn [fold_left]. rewrite scanBody_eq, IH. cbn [runStatus lineErrors].
    rewrite <- app_assoc. unfold len. cbn [length].
    rewrite Nat2Z.inj_succ. f_equal. lia.
Qed.

(** [ParseFile] on a file that opens. *)
Lemma ParseFile_opened (os_Open : string -> File + error) (filepath : string)
    (version : StatusVersion) (file : File) :
  os_Open filepath = inl file ->
  ParseFile os_Open filepath version =
    let delimiter := if version =? Version3 then tab else comma in
    let scanner := Bufio.Scan (data file) (rderr file) in
    (Some (runStatus version delimiter (fst scanner) initStatus 0),
     (lineErrors version delimiter 0 (fst scanner)
      ++ match snd scanner with
         | Some err => [wrapError "error reading file: " err]
         | None => []
         end)%list).
Proof.
  intros Ho. unfold ParseFile. rewrite Ho. cbv zeta.
  rewrite scan_loop_eq. cbn [app].
  destruct (snd (Bufio.Scan (data file) (rderr file))); [reflexivity|].
  rewrite app_nil_r. reflexivity.
Qed.

Lemma lineErrors_nil (version : StatusVersion) (delimiter : ascii) (texts : list string) :
  forall n,
    lineErrors version delimiter n texts = [] ->
    forall (i : nat) (text : string),
      nth_error texts i = Some text ->
      decodeError version delimiter (n + Z.of_nat i + 1) text = None.
Proof.
  induction texts as [|t rest IH]; intros n Hnil i text Hi.
  - destruct i; discriminate.
  - cbn [lineErrors] in Hnil. apply app_eq_nil in Hnil. destruct Hnil as [Ht Hrest].
    destruct i as [|i].
    + injection Hi as <-. simpl. rewrite Z.add_0_r.
      destruct (decodeError version delimiter (n + 1) t); [discriminate | reflexivity].
    + simpl in Hi. rewrite Nat2Z.inj_succ.
      replace (n + Z.succ (Z.of_nat i) + 1) with (n + 1 + Z.of_nat i + 1) by lia.
      apply (IH (n + 1) Hrest i text Hi).
Qed.

(** ** C4: what [ParseFile] returns *)

(** C4: the model is absent exactly when the file does not open, and the
    error list is then the single open error.  When the file opens the
    returned list holds the decode error of every line, in file order and
    with its 1-indexed line number, followed by the read error if the scan
    ended with one; the loop body leaves the model and the error list as they
    are on a line that is blank after the trim; and an empty list means that
    the scan ended without an error and no line had a decode error. *)
Theorem ParseFile_result :
  forall (os_Open : string -> File + error) (filepath : string)
         (version : StatusVersion),
    (fst (ParseFile os_Open filepath version) = None
     <-> exists e, os_Open filepath = inr e)
    /\ (forall e, os_Open filepath = inr e ->
          ParseFile os_Open filepath version =
            (None, [wrapError "failed to open file: " e]))
    /\ (forall file, os_Open filepath = inl file ->
          let delimiter := if version =? Version3 then tab else comma in
          let lines := fst (Bufio.Scan (data file) (rderr file)) in
          let readErr := snd (Bufio.Scan (data file) (rderr file)) in
          fst (ParseFile os_Open filepath version) <> None
          /\ snd (ParseFile os_Open filepath version) =
               (lineErrors version delimiter 0 lines
                ++ optList (option_map (wrapError "error reading file: ") readErr))%list
          /\ (snd (ParseFile os_Open filepath version) = [] ->
              readErr = None
              /\ forall (i : nat) (text : string),
                   nth_error lines i = Some text ->
                   decodeError version delimiter (Z.of_nat i + 1) text = None))
    /\ (forall delimiter status parseErrors lineNum text,
          TrimSpace text = "" ->
          scanBody version delimiter (status, parseErrors, lineNum) text =
            (status, parseErrors, lineNum + 1)).
Proof.
  intros os_Open filepath version. split; [|split; [|split]].
  - split.
    + intros Hnone. destruct (os_Open filepath) as [file|e] eqn:Ho.
      * rewrite (ParseFile_opened _ _ _ _ Ho) in Hnone. discriminate.
      * exists e. reflexivity.
    + intros [e Ho]. unfold ParseFile. rewrite Ho. reflexivity.
  - intros e Ho. unfold ParseFile. rewrite Ho. reflexivity.
  - intros file Ho. cbv zeta. rewrite (ParseFile_opened _ _ _ _ Ho). cbv zeta.
    cbn [fst snd]. split; [discriminate|]. split.
    + destruct (snd (Bufio.Scan (data file) (rderr file))); reflexivity.
    + intros Hnil. apply app_eq_nil in Hnil. destruct Hnil as [Hlines Hread].
      split.
      * destruct (snd (Bufio.Scan (data file) (rderr file))); [discriminate | reflexivity].
      * intros i text Hi.
        apply (lineErrors_nil _ _ _ 0 Hlines i text Hi).
  - intros delimiter status parseErrors lineNum text Hblank.
    unfold scanBody. rewrite Hblank. reflexivity.
Qed.

Lemma ParseFile_result_witness :
  ParseFile (oneFile "status.log" sampleV2) "missing.log" Version2 =
    (None, [wrapError "failed to open file: " (ioError "no such file or directory")])
  /\ snd (ParseFile (oneFile "status.log" sampleV2) "status.log" Version2) =
       [ParseError 2 "CLIENT_LIST" "CLIENT_LIST,b"
          (errorString "expected at least 12 fields, got 2");
        ParseError 4 "TITLE" "TITLE"
          (errorString "expected at least 2 fields, got 1")]
  /\ scanBody Version2 comma (initStatus, [], 2) "  " = (initStatus, [], 3).
Proof.
  pose proof (ParseFile_result (oneFile "status.log" sampleV2) "missing.log" Version2)
    as [_ [Hopen _]].
  pose proof (ParseFile_result (oneFile "status.log" sampleV2) "status.log" Version2)
    as [_ [_ [Hscan Hblank]]].
  split; [|split].
  - apply Hopen. reflexivity.
  - destruct (Hscan (mkFile sampleV2 None) eq_refl) as [_ [Herrs _]].
    rewrite Herrs. vm_compute. reflexivity.
  - apply Hblank. vm_compute. reflexivity.
Defined.

(** ** C6: version 1 has client records only *)

Lemma handleClientListV1_status (fields : list string) (status : Status) (lineNum : Z) :
  fst (handleClientListV1 fields status lineNum) =
    if 5 <=? len fields
    then setClientList status (ClientList status ++ [clientV1 fields])%list
    else status.
Proof.
  unfold handleClientListV1. cbv zeta. rewrite Z.leb_antisym.
  destruct (len fields <? 5); [reflexivity|].
  rewrite !parseNumeric_eq. cbn [negb fst snd]. unfold clientV1, numValue.
  destruct (numAssigned (field fields 2)); destruct (numAssigned (field fields 3));
    reflexivity.
Qed.

Lemma stepStatus_v1 (delimiter : ascii) (status : Status) (lineNum : Z) (text : string) :
  stepStatus Version1 delimiter status lineNum text =
    let fields := Split (TrimSpace text) delimiter in
    if 5 <=? len fields
    then setClientList status (ClientList status ++ [clientV1 fields])%list
    else status.
Proof.
  unfold stepStatus. cbv zeta.
  destruct (String.eqb (TrimSpace text) "") eqn:E.
  - apply String.eqb_eq in E. rewrite E. reflexivity.
  - rewrite parseLine_v1. apply handleClientListV1_status.
Qed.

Lemma runStatus_v1 (delimiter : ascii) (texts : list string) :
  forall (status : Status) (n : Z),
    runStatus Version1 delimiter texts status n =
      setClientList status
        (ClientList status ++ map clientV1 (v1Records delimiter texts))%list.
Proof.
  induction texts as [|t rest IH]; intros status n.
  - simpl. rewrite app_nil_r. destruct status; reflexivity.
  - cbn [runStatus]. rewrite IH, stepStatus_v1. cbv zeta.
    unfold v1Records. cbn [map filter].
    destruct (5 <=? len (Split (TrimSpace t) delimiter)).
    + cbn [map]. unfold setClientList. cbn. rewrite <- app_assoc. reflexivity.
    + reflexivity.
Qed.

(** C6: a version-1 parse of a file that opens returns a model whose title
    is empty, whose time fields and routes are empty, and whose clients are
    the records [clientV1] of the valid lines in file order; such a record
    has an empty virtual address, virtual IPv6 address, user name and cipher
    and a zero client id, peer id and connect epoch. *)
Theorem version1_clients_only :
  forall (os_Open : string -> File + error) (filepath : string) (file : File),
    os_Open filepath = inl file ->
    (exists st,
       fst (ParseFile os_Open filepath Version1) = Some st
       /\ Title st = "" /\ Time st = [] /\ RoutingTable st = []
       /\ ClientList st =
            map clientV1 (v1Records comma (fst (Bufio.Scan (data file) (rderr file)))))
    /\ (forall fields status lineNum,
          5 <= len fields ->
          fst (handleClientListV1 fields status lineNum) =
            setClientList status (ClientList status ++ [clientV1 fields])%list)
    /\ (forall fields,
          VirtualAddress (clientV1 fields) = ""
          /\ VirtualIPv6Address (clientV1 fields) = ""
          /\ Username (clientV1 fields) = ""
          /\ DataCipher (clientV1 fields) = ""
          /\ ClientID (clientV1 fields) = 0
          /\ PeerID (clientV1 fields) = 0
          /\ ConnectedSinceTime (clientV1 fields) = 0).
Proof.
  intros os_Open filepath file Ho. split; [|split].
  - rewrite (ParseFile_opened _ _ _ _ Ho). cbv zeta. cbn [fst].
    eexists. split; [reflexivity|].
    change (Version1 =? Version3) with false. cbv iota.
    rewrite runStatus_v1. cbn. repeat split; reflexivity.
  - intros fields status lineNum Hlen. rewrite handleClientListV1_status.
    apply Z.leb_le in Hlen. rewrite Hlen. reflexivity.
  - intros fields. repeat split; reflexivity.
Qed.

Lemma version1_clients_only_witness :
  exists st,
    fst (ParseFile (oneFile "status.log" "user1,10.0.0.1:5,100,200,T1")
           "status.log" Version1) = Some st
    /\ Title st = "" /\ Time st = [] /\ RoutingTable st = []
    /\ ClientList st = [mkClient "user1" "10.0.0.1" "" "" 100 200 "T1" 0 "" 0 0 ""].
Proof.
  destruct (version1_clients_only (oneFile "status.log" "user1,10.0.0.1:5,100,200,T1")
              "status.log" (mkFile "user1,10.0.0.1:5,100,200,T1" None) eq_refl)
    as [[st [Hst [Ht [Htm [Hr Hc]]]]] _].
  exists st. repeat split; assumption.
Defined.

(** ** C10: repeated TITLE and TIME lines *)

Lemma last_cons_default {A} (l : list A) (a d : A) : last (a :: l) d = last l a.
Proof.
  revert a d. induction l as [|b rest IH]; intros a d; [reflexivity|].
  change (last (a :: b :: rest) d) with (last (b :: rest) d).
  rewrite (IH b d), (IH b a). reflexivity.
Qed.

Lemma stepStatus_title_time (version : StatusVersion) (delimiter : ascii)
    (status : Status) (lineNum : Z) (text : string) :
  version <> Version1 ->
  Title (stepStatus version delimiter status lineNum text) =
    last (map (fun fields => field fields 1)
            (optList (taggedFields "TITLE" delimiter text))) (Title status)
  /\ Time (stepStatus version delimiter status lineNum text) =
    last (map (@tl string) (optList (taggedFields "TIME" delimiter text))) (Time status).
Proof.
  intros Hv. unfold stepStatus, taggedFields. cbv zeta.
  destruct (String.eqb (TrimSpace text) "") eqn:E.
  - apply String.eqb_eq in E. rewrite E. split; reflexivity.
  - rewrite parseLine_tagged by exact Hv. cbv zeta.
    set (fields := Split (TrimSpace text) delimiter).
    unfold handleTitle, handleTime, handleClientListV2V3, handleRoutingTable.
    cbv zeta. rewrite !Z.leb_antisym.
    destruct (String.eqb (field fields 0) "TITLE") eqn:Et.
    { apply String.eqb_eq in Et. rewrite Et.
      destruct (len fields <? 2); split; reflexivity. }
    destruct (String.eqb (field fields 0) "TIME") eqn:Em.
    { destruct (len fields <? 2); split; reflexivity. }
    cbn [andb].
    repeat match goal with
           | |- context [if ?b then _ else _] => destruct b
           end; split; reflexivity.
Qed.

Lemma runStatus_title_time (version : StatusVersion) (delimiter : ascii)
    (texts : list string) :
  version <> Version1 ->
  forall (status : Status) (n : Z),
    Title (runStatus version delimiter texts status n) =
      last (map (fun fields => field fields 1) (validTagged "TITLE" delimiter texts))
        (Title status)
    /\ Time (runStatus version delimiter texts status n) =
      last (map (@tl string) (validTagged "TIME" delimiter texts)) (Time status).
Proof.
  intros Hv. induction texts as [|t rest IH]; intros status n.
  - split; reflexivity.
  - cbn [runStatus]. destruct (IH (stepStatus version delimiter status (n + 1) t) (n + 1))
      as [IHt IHm].
    destruct (stepStatus_title_time version delimiter status (n + 1) t Hv) as [St Sm].
    rewrite IHt, IHm, St, Sm. unfold validTagged. cbn [flat_map].
    split.
    + destruct (taggedFields "TITLE" delimiter t) as [fs|]; cbn [optList map app].
      * etransitivity; [|symmetry; apply last_cons_default]. reflexivity.
      * reflexivity.
    + destruct (taggedFields "TIME" delimiter t) as [fs|]; cbn [optList map app].
      * etransitivity; [|symmetry; apply last_cons_default]. reflexivity.
      * reflexivity.
Qed.

(** C10: after a parse under versions 2 and 3 the title is [fields[1]] of
    the last valid TITLE line and the time fields are the fields after the
    tag of the last valid TIME line, however many such lines the file has
    (the empty title and no time fields when it has none). *)
Theorem last_title_time_wins :
  forall (os_Open : string -> File + error) (filepath : string) (file : File)
         (version : StatusVersion),
    version <> Version1 ->
    os_Open filepath = inl file ->
    let delimiter := if version =? Version3 then tab else comma in
    let lines := fst (Bufio.Scan (data file) (rderr file)) in
    exists st,
      fst (ParseFile os_Open filepath version) = Some st
      /\ Title st =
           last (map (fun fields => field fields 1) (validTagged "TITLE" delimiter lines)) ""
      /\ Time st = last (map (@tl string) (validTagged "TIME" delimiter lines)) [].
Proof.
  intros os_Open filepath file version Hv Ho. cbv zeta.
  rewrite (ParseFile_opened _ _ _ _ Ho). cbv zeta. cbn [fst].
  eexists. split; [reflexivity|].
  apply (runStatus_title_time version _ _ Hv initStatus 0).
Qed.

Lemma last_title_time_wins_witness :
  exists st,
    fst (ParseFile (oneFile "status.log" sampleTitles) "status.log" Version2) = Some st
    /\ Title st = "second" /\ Time st = ["t2"; "2"].
Proof.
  destruct (last_title_time_wins (oneFile "status.log" sampleTitles) "status.log"
              (mkFile sampleTitles None) Version2) as [st [Hst [Ht Hm]]];
    [discriminate | reflexivity |].
  exists st. split; [exact Hst|]. split.
  - rewrite Ht. vm_compute. reflexivity.
  - rewrite Hm. vm_compute. reflexivity.
Defined.

(** ** Facts on string append, [Split] and [Join] *)

Lemma str_app_nil_r (s : string) : s ++ "" = s.
Proof. induction s as [|c rest IH]; simpl; [reflexivity | rewrite IH; reflexivity]. Qed.

Lemma str_app_assoc (a b c : string) : (a ++ b) ++ c = a ++ b ++ c.
Proof. induction a as [|x rest IH]; simpl; [reflexivity | rewrite IH; reflexivity]. Qed.

Lemma Split_no_sep (f : string) (sep : ascii) :
  hasByte sep f = false -> Split f sep = [f].
Proof.
  induction f as [|c rest IH]; simpl; [reflexivity|].
  intros H. apply orb_false_iff in H. destruct H as [Hc Hrest].
  rewrite Hc, (IH Hrest). reflexivity.
Qed.

Lemma Split_app_sep (f s : string) (sep : ascii) :
  hasByte sep f = false -> Split (f ++ String sep s) sep = f :: Split s sep.
Proof.
  induction f as [|c rest IH]; simpl.
  - intros _. rewrite Ascii.eqb_refl. reflexivity.
  - intros H. apply orb_false_iff in H. destruct H as [Hc Hrest].
    rewrite Hc, (IH Hrest). reflexivity.
Qed.

(** Splitting a joined line gives back the fields that hold no separator. *)
Lemma Split_Join (fields : list string) (sep : ascii) :
  fields <> [] ->
  Forall (fun f => hasByte sep f = false) fields ->
  Split (Join fields (String sep "")) sep = fields.
Proof.
  induction fields as [|f rest IH]; [congruence|].
  intros _ HF. inversion HF as [|? ? Hf Hrest]; subst.
  destruct rest as [|g rest'].
  - simpl. apply Split_no_sep. exact Hf.
  - change (Join (f :: g :: rest') (String sep ""))
      with (f ++ String sep (Join (g :: rest') (String sep ""))).
    rewrite Split_app_sep by exact Hf.
    rewrite IH; [reflexivity | discriminate | exact Hrest].
Qed.

(** Joining the parts of a split gives back the string. *)
Lemma Join_Split (s : string) (sep : ascii) :
  Join (Split s sep) (String sep "") = s.
Proof.
  induction s as [|c rest IH]; [reflexivity|].
  simpl. pose proof (Split_not_nil rest sep) as Hne.
  destruct (Ascii.eqb c sep) eqn:E.
  - apply Ascii.eqb_eq in E. subst c.
    destruct (Split rest sep) as [|f fs] eqn:Es; [congruence|].
    change (Join ("" :: f :: fs) (String sep "")) with (String sep (Join (f :: fs) (String sep ""))).
    rewrite IH. reflexivity.
  - destruct (Split rest sep) as [|f fs] eqn:Es; [congruence|].
    destruct fs as [|g fs'].
    + simpl in IH. simpl. rewrite IH. reflexivity.
    + change (Join (String c f :: g :: fs') (String sep ""))
        with (String c (Join (f :: g :: fs') (String sep ""))).
      rewrite IH. reflexivity.
Qed.

Lemma Split_eq_blank (s : string) (sep : ascii) : Split s sep = [""] -> s = "".
Proof.
  destruct s as [|c rest]; [reflexivity|]. simpl.
  pose proof (Split_not_nil rest sep) as Hne.
  destruct (Ascii.eqb c sep).
  - intros H. injection H as H. congruence.
  - destruct (Split rest sep); [congruence | discriminate].
Qed.

(** ** C1: the real address *)

(** The decoders keep the part before the first colon; this is the part
    before the last one when the field has at most one colon. *)
Lemma addressPart_single_colon (raw : string) :
  len (Split raw colon) <= 2 ->
  addressPart raw = addressBeforeLastSeparator raw.
Proof.
  intros Hlen. unfold addressPart, addressBeforeLastSeparator, field. cbv zeta.
  pose proof (Join_Split raw colon) as HJ.
  destruct (Split raw colon) as [|a [|b [|c rest]]]; unfold len in *; simpl in *.
  - exact HJ.
  - exact HJ.
  - reflexivity.
  - lia.
Qed.

(** C1: on a real-address field that holds an IPv6 address with a port, here
    [[2001:db8::1]:51234], the three decoders store [[2001], the part before
    the first colon, where the split on the last separator gives
    [[2001:db8::1]]. *)
Theorem real_address_cut_at_first_colon :
  addressBeforeLastSeparator ipv6Real = "[2001:db8::1]"
  /\ map RealAddress
       (ClientList (fst (handleClientListV1
                           ["peer"; ipv6Real; "1"; "2"; "Thu Nov 27 09:30:45 2025"]
                           initStatus 1)))
     = ["[2001"]
  /\ map RealAddress
       (ClientList (fst (handleClientListV2V3
                           ["CLIENT_LIST"; "peer"; ipv6Real; "10.8.0.2"; ""; "1"; "2";
                            "Thu Nov 27 09:30:45 2025"; "1732700645"; "peer"; "0"; "0"]
                           initStatus 1)))
     = ["[2001"]
  /\ map rRealAddress
       (RoutingTable (fst (handleRoutingTable
                             ["ROUTING_TABLE"; "10.8.0.2"; "peer"; ipv6Real;
                              "Thu Nov 27 10:30:45 2025"; "1732704645"]
                             initStatus 1)))
     = ["[2001"].
Proof. repeat split; vm_compute; reflexivity. Qed.

(** ** C5: the connect-duration gauge *)

Lemma Contains_refl (x : string) : Contains x x.
Proof. exists "", "". simpl. rewrite str_app_nil_r. reflexivity. Qed.

Lemma Contains_skip (a s x : string) : Contains s x -> Contains (a ++ s) x.
Proof.
  intros [pre [post ->]]. exists (a ++ pre), post.
  rewrite str_app_assoc. reflexivity.
Qed.

Lemma Contains_app_l (s b x : string) : Contains s x -> Contains (s ++ b) x.
Proof.
  intros [pre [post ->]]. exists pre, (post ++ b).
  rewrite !str_app_assoc. reflexivity.
Qed.

Lemma Contains_concat {A} (f : A -> string) (l : list A) (a : A) :
  In a l -> Contains (String.concat "" (map f l)) (f a).
Proof.
  induction l as [|b rest IH]; [intros []|].
  intros [-> | Hin].
  - destruct rest as [|c rest']; cbn [map String.concat].
    + apply Contains_refl.
    + apply Contains_app_l, Contains_refl.
  - destruct rest as [|c rest']; [destruct Hin|].
    change (String.concat "" (map f (b :: c :: rest')))
      with (f b ++ "" ++ String.concat "" (map f (c :: rest'))).
    apply Contains_skip. simpl append. apply IH. exact Hin.
Qed.

(** [Format] writes a duration sample for every client of the model. *)
Lemma Format_duration_sample (Quote : string -> string) (now : Z)
    (status : Status) (server : ServerConfig) (client : Client) :
  Server status = Some server ->
  In client (ClientList status) ->
  exists output,
    Formatter.Format Quote now status = Some output
    /\ Contains output
         (Formatter.sample "openvpn_client_connected_duration_seconds"
            (Formatter.buildClientLabels Quote client server)
            (Formatter.wrap64 (now - ConnectedSinceTime client))).
Proof.
  intros Hs Hin. unfold Formatter.Format. rewrite Hs.
  eexists. split; [reflexivity|].
  do 10 apply Contains_skip. apply Contains_app_l.
  unfold Formatter.durationBlock. do 4 apply Contains_skip.
  apply (Contains_concat
           (fun c => Formatter.sample "openvpn_client_connected_duration_seconds"
                       (Formatter.buildClientLabels Quote c server)
                       (Formatter.wrap64 (now - ConnectedSinceTime c)))).
  exact Hin.
Qed.

(** C5: for a client whose connect epoch is zero [Format] still writes the
    sample of the seconds-since-connect gauge, with the value [now]. *)
Theorem duration_gauge_for_zero_epoch :
  forall (Quote : string -> string) (now : Z),
    ConnectedSinceTime v1Client = 0
    /\ exists output,
         Formatter.Format Quote now v1NoTimestamp = Some output
         /\ Contains output
              ("openvpn_client_connected_duration_seconds"
               ++ Formatter.buildClientLabels Quote v1Client v1Server
               ++ " " ++ itoa (Formatter.wrap64 (now - 0)) ++ Formatter.nl).
Proof.
  intros Quote now. split; [reflexivity|].
  apply (Format_duration_sample Quote now v1NoTimestamp v1Server v1Client);
    [reflexivity | left; reflexivity].
Qed.

(** ** C9: version 2 against version 3 *)

(** The loop bodies of versions 2 and 3 agree on two lines that, once
    trimmed, split into the same fields. *)
Lemma scanBody_v2_v3 (t2 t3 : string) (acc : Status * list error * Z) :
  Split (TrimSpace t2) comma = Split (TrimSpace t3) tab ->
  scanBody Version2 comma acc t2 = scanBody Version3 tab acc t3.
Proof.
  intros Hs. destruct acc as [[status errs] n]. unfold scanBody.
  destruct (String.eqb (TrimSpace t2) "") eqn:E2.
  - apply String.eqb_eq in E2. rewrite E2 in Hs. symmetry in Hs.
    apply Split_eq_blank in Hs. rewrite Hs. reflexivity.
  - destruct (String.eqb (TrimSpace t3) "") eqn:E3.
    + apply String.eqb_eq in E3. rewrite E3 in Hs.
      apply Split_eq_blank in Hs. rewrite Hs in E2. discriminate.
    + assert (Hp : parseLine (TrimSpace t2) status (n + 1) Version2 comma
                   = parseLine (TrimSpace t3) status (n + 1) Version3 tab).
      { unfold parseLine. rewrite Hs. reflexivity. }
      rewrite Hp. reflexivity.
Qed.

Lemma scan_loop_v2_v3 (texts2 texts3 : list string) :
  Forall2 (fun t2 t3 => Split (TrimSpace t2) comma = Split (TrimSpace t3) tab)
    texts2 texts3 ->
  forall acc,
    fold_left (scanBody Version2 comma) texts2 acc
    = fold_left (scanBody Version3 tab) texts3 acc.
Proof.
  induction 1 as [|t2 t3 r2 r3 Ht _ IH]; intros acc; [reflexivity|].
  cbn [fold_left]. rewrite (scanBody_v2_v3 t2 t3 acc Ht). apply IH.
Qed.

(** Two files whose lines agree in this way parse alike. *)
Lemma ParseFile_v2_v3 (os_Open : string -> File + error) (path2 path3 : string)
    (file2 file3 : File) :
  os_Open path2 = inl file2 ->
  os_Open path3 = inl file3 ->
  Forall2 (fun t2 t3 => Split (TrimSpace t2) comma = Split (TrimSpace t3) tab)
    (fst (Bufio.Scan (data file2) (rderr file2)))
    (fst (Bufio.Scan (data file3) (rderr file3))) ->
  snd (Bufio.Scan (data file2) (rderr file2))
  = snd (Bufio.Scan (data file3) (rderr file3)) ->
  ParseFile os_Open path2 Version2 = ParseFile os_Open path3 Version3.
Proof.
  intros H2 H3 Hlines Herr. unfold ParseFile. rewrite H2, H3. cbv zeta.
  change (Version2 =? Version3) with false.
  change (Version3 =? Version3) with true. cbv iota.
  rewrite (scan_loop_v2_v3 _ _ Hlines), Herr. reflexivity.
Qed.

(** C9 as stated fails: the field list [["TITLE"; ""]] holds no comma and no
    tab; its comma-joined line sets an empty title under version 2, while
    the trim removes the final tab of its tab-joined line, which then has a
    single field and is an error under version 3. *)
Lemma v2_v3_differ_on_empty_last_field :
  let fss := [["TITLE"; ""]] in
  let os_Open := twoFiles "v2.log" ("TITLE," ++ String lf "")
                          "v3.log" ("TITLE" ++ tabs ++ String lf "") in
  Forall (Forall fieldFree) fss
  /\ fst (Bufio.Scan ("TITLE," ++ String lf "") None) = map (fun fs => Join fs ",") fss
  /\ fst (Bufio.Scan ("TITLE" ++ tabs ++ String lf "") None)
     = map (fun fs => Join fs tabs) fss
  /\ ParseFile os_Open "v2.log" Version2 = (Some initStatus, [])
  /\ ParseFile os_Open "v3.log" Version3 =
       (Some initStatus,
        [ParseError 1 "TITLE" "TITLE" (errorString "expected at least 2 fields, got 1")])
  /\ ParseFile os_Open "v2.log" Version2 <> ParseFile os_Open "v3.log" Version3.
Proof.
  cbv zeta. split; [|split; [|split; [|split; [|split]]]].
  - repeat constructor.
  - vm_compute. reflexivity.
  - vm_compute. reflexivity.
  - vm_compute. reflexivity.
  - vm_compute. reflexivity.
  - vm_compute. discriminate.
Qed.

(** *** Trimming a joined line *)

Lemma revOnto_app (s acc : string) : revOnto s acc = rev s ++ acc.
Proof.
  unfold rev. revert acc. induction s as [|c rest IH]; intros acc; [reflexivity|].
  simpl. rewrite (IH (String c acc)), (IH (String c "")), str_app_assoc. reflexivity.
Qed.

Lemma rev_cons (c : ascii) (s : string) : rev (String c s) = rev s ++ String c "".
Proof. unfold rev at 1. simpl. apply revOnto_app. Qed.

Lemma rev_app (a b : string) : rev (a ++ b) = rev b ++ rev a.
Proof.
  induction a as [|c rest IH]; simpl.
  - rewrite str_app_nil_r. reflexivity.
  - rewrite !rev_cons, IH, str_app_assoc. reflexivity.
Qed.

Lemma rev_involutive (s : string) : rev (rev s) = s.
Proof.
  induction s as [|c rest IH]; [reflexivity|].
  rewrite rev_cons, rev_app, IH. reflexivity.
Qed.

Lemma hasByte_app (x : ascii) (a b : string) :
  hasByte x (a ++ b) = hasByte x a || hasByte x b.
Proof.
  induction a as [|c rest IH]; simpl; [reflexivity|].
  rewrite IH, orb_assoc. reflexivity.
Qed.

Lemma hasByte_rev (x : ascii) (s : string) : hasByte x (rev s) = hasByte x s.
Proof.
  induction s as [|c rest IH]; [reflexivity|].
  rewrite rev_cons, hasByte_app, IH. simpl. rewrite orb_false_r. apply orb_comm.
Qed.

Lemma dropSpaces_app (width : string -> nat) (R : string) :
  stable width R ->
  forall f k,
    dropSpaces width k f <> "" ->
    dropSpaces width k (f ++ R) = dropSpaces width k f ++ R.
Proof.
  intros Hst. induction f as [|c rest IH]; intros k Hne; [destruct k; simpl in Hne; congruence|].
  destruct k as [|k].
  - cbn [dropSpaces append] in *.
    change (String c (rest ++ R)) with (String c rest ++ R).
    rewrite (Hst (String c rest)) by discriminate.
    destruct (width (String c rest)) as [|k]; [reflexivity|].
    apply IH. exact Hne.
  - cbn [dropSpaces append] in *. apply IH. exact Hne.
Qed.

Lemma dropSpaces_hasByte (width : string -> nat) (x : ascii) :
  forall s k, hasByte x s = false -> hasByte x (dropSpaces width k s) = false.
Proof.
  induction s as [|c rest IH]; intros k H; [reflexivity|].
  pose proof H as H'. simpl in H'. apply orb_false_iff in H'. destruct H' as [_ Hrest].
  destruct k as [|k]; cbn [dropSpaces].
  - destruct (width (String c rest)); [exact H | apply IH; exact Hrest].
  - apply IH. exact Hrest.
Qed.

Lemma spaceWidth_stable (sep : ascii) (X : string) :
  isSep sep -> stable spaceWidth (String sep X).
Proof.
  intros Hsep s Hne.
  destruct s as [|c0 [|c1 [|c2 s']]]; [congruence| | |reflexivity].
  - cbn [append]. unfold spaceWidth.
    destruct (asciiSpace c0); [reflexivity|].
    destruct Hsep as [-> | ->].
    + change (byte comma) with 44. destruct X; eval_bytes; reflexivity.
    + change (byte tab) with 9. destruct X; eval_bytes; reflexivity.
  - cbn [append]. unfold spaceWidth.
    destruct (asciiSpace c0); [reflexivity|].
    destruct ((byte c0 =? 194) && ((byte c1 =? 133) || (byte c1 =? 160))); [reflexivity|].
    destruct Hsep as [-> | ->].
    + change (byte comma) with 44. eval_bytes. reflexivity.
    + change (byte tab) with 9. eval_bytes. reflexivity.
Qed.

Lemma spaceWidthRev_stable (sep : ascii) (X : string) :
  isSep sep -> stable spaceWidthRev (String sep X).
Proof.
  intros Hsep s Hne.
  destruct s as [|c0 [|c1 [|c2 s']]]; [congruence| | |reflexivity].
  - cbn [append]. unfold spaceWidthRev.
    destruct (asciiSpace c0) eqn:E0; [reflexivity|].
    destruct Hsep as [-> | ->].
    + unfold spaceWidth. change (asciiSpace comma) with false.
      change (byte comma) with 44. cbv iota. eval_bytes.
      destruct X as [|c2 X']; [reflexivity|].
      destruct (asciiSpace c2); eval_bytes; reflexivity.
    + unfold spaceWidth. change (asciiSpace tab) with true.
      change (byte tab) with 9. cbv iota. eval_bytes.
      destruct X as [|c2 X']; [reflexivity|].
      destruct (asciiSpace c2); eval_bytes; reflexivity.
  - cbn [append]. unfold spaceWidthRev.
    destruct (asciiSpace c0) eqn:E0; [reflexivity|].
    destruct (Nat.eqb (spaceWidth (String c1 (String c0 ""))) 2); [reflexivity|].
    destruct Hsep as [-> | ->].
    + unfold spaceWidth. change (asciiSpace comma) with false.
      change (byte comma) with 44. cbv iota. eval_bytes. reflexivity.
    + unfold spaceWidth. change (asciiSpace tab) with true. reflexivity.
Qed.

Lemma Join_cons (f : string) (rest : list string) (sep : string) :
  rest <> [] -> Join (f :: rest) sep = f ++ sep ++ Join rest sep.
Proof. destruct rest; [congruence | reflexivity]. Qed.

Lemma Join_snoc (l : list string) (f : string) (sep : string) :
  l <> [] -> Join (l ++ [f]) sep = Join l sep ++ sep ++ f.
Proof.
  induction l as [|a rest IH]; [congruence|]. intros _.
  destruct rest as [|b rest'].
  - reflexivity.
  - change ((a :: b :: rest') ++ [f])%list with (a :: ((b :: rest') ++ [f]))%list.
    rewrite Join_cons by (simpl; discriminate).
    rewrite IH by discriminate.
    rewrite (Join_cons a (b :: rest')) by discriminate.
    rewrite !str_app_assoc. reflexivity.
Qed.

Lemma TrimLeft_Join (sep : ascii) (f : string) (rest : list string) :
  isSep sep -> rest <> [] -> TrimLeft f <> "" ->
  TrimLeft (Join (f :: rest) (String sep "")) = Join (TrimLeft f :: rest) (String sep "").
Proof.
  intros Hsep Hrest Hf. rewrite !Join_cons by exact Hrest.
  unfold TrimLeft in *. cbn [append].
  apply (dropSpaces_app spaceWidth (String sep (Join rest (String sep "")))).
  - apply spaceWidth_stable. exact Hsep.
  - exact Hf.
Qed.

Lemma rev_nil_inv (s : string) : rev s = "" -> s = "".
Proof. intros H. rewrite <- (rev_involutive s), H. reflexivity. Qed.

Lemma TrimRight_Join (sep : ascii) (l : list string) (f : string) :
  isSep sep -> l <> [] -> TrimRight f <> "" ->
  TrimRight (Join (l ++ [f]) (String sep "")) = Join (l ++ [TrimRight f]) (String sep "").
Proof.
  intros Hsep Hl Hf. rewrite !Join_snoc by exact Hl.
  unfold TrimRight in *. cbn [append].
  rewrite rev_app, rev_cons, str_app_assoc. cbn [append].
  rewrite (dropSpaces_app spaceWidthRev (String sep (rev (Join l (String sep ""))))).
  - rewrite rev_app, rev_cons, rev_involutive, str_app_assoc. reflexivity.
  - apply spaceWidthRev_stable. exact Hsep.
  - intros H. apply Hf. rewrite H. reflexivity.
Qed.

Lemma TrimLeft_hasByte (x : ascii) (s : string) :
  hasByte x s = false -> hasByte x (TrimLeft s) = false.
Proof. apply dropSpaces_hasByte. Qed.

Lemma TrimRight_hasByte (x : ascii) (s : string) :
  hasByte x s = false -> hasByte x (TrimRight s) = false.
Proof.
  intros H. unfold TrimRight. rewrite hasByte_rev.
  apply dropSpaces_hasByte. rewrite hasByte_rev. exact H.
Qed.

(** The fields of the trimmed joined line. *)
Lemma Split_Trim_Join (sep : ascii) (f : string) (mid : list string) (g : string) :
  isSep sep ->
  Forall (fun x => hasByte sep x = false) (f :: mid ++ [g]) ->
  TrimLeft f <> "" -> TrimRight g <> "" ->
  Split (TrimSpace (Join (f :: mid ++ [g]) (String sep ""))) sep
  = (TrimLeft f :: mid ++ [TrimRight g])%list.
Proof.
  intros Hsep HF Hf Hg. unfold TrimSpace.
  rewrite TrimLeft_Join; [|exact Hsep|destruct mid; discriminate|exact Hf].
  change (TrimLeft f :: mid ++ [g])%list with ((TrimLeft f :: mid) ++ [g])%list.
  rewrite TrimRight_Join; [|exact Hsep|discriminate|exact Hg].
  apply Split_Join; [discriminate|].
  inversion HF as [|? ? Hf0 Hrest]; subst.
  apply Forall_app in Hrest. destruct Hrest as [Hmid Hg0].
  inversion Hg0 as [|? ? Hg1 _]; subst.
  constructor; [apply TrimLeft_hasByte; exact Hf0|].
  apply Forall_app. split; [exact Hmid|].
  constructor; [apply TrimRight_hasByte; exact Hg1 | constructor].
Qed.

Lemma Split_Trim_Join_agree (fields : list string) :
  Forall fieldFree fields ->
  edgesNotBlank fields ->
  Split (TrimSpace (Join fields ",")) comma = Split (TrimSpace (Join fields tabs)) tab.
Proof.
  intros HF He. destruct fields as [|f rest]; [reflexivity|].
  destruct rest as [|g rest'].
  - cbn [Join String.concat]. inversion HF as [|? ? [Hc Ht] _]; subst.
    rewrite !Split_no_sep; [reflexivity| |].
    + unfold TrimSpace. apply TrimRight_hasByte, TrimLeft_hasByte. exact Ht.
    + unfold TrimSpace. apply TrimRight_hasByte, TrimLeft_hasByte. exact Hc.
  - destruct (exists_last (l := g :: rest')) as [mid [z Hz]]; [discriminate|].
    cbn [edgesNotBlank] in He. rewrite Hz in *. rewrite last_last in He.
    destruct He as [Hf Hg].
    change ","%string with (String comma "").
    unfold tabs.
    rewrite (Split_Trim_Join comma f mid z), (Split_Trim_Join tab f mid z);
      try assumption; try (left; reflexivity); try (right; reflexivity).
    + reflexivity.
    + eapply Forall_impl; [|exact HF]. intros a [_ Ha]. exact Ha.
    + eapply Forall_impl; [|exact HF]. intros a [Ha _]. exact Ha.
Qed.

(** C9, amended: when no field holds a comma or a tab and, in every list of
    two or more fields, neither the first nor the last field consists of
    white space only, a version-2 parse of a file whose lines are the
    comma-joined field lists and a version-3 parse of a file whose lines are
    the tab-joined field lists return the same model and the same errors. *)
Theorem v2_v3_agree_up_to_delimiter :
  forall (os_Open : string -> File + error) (path2 path3 : string)
         (file2 file3 : File) (fss : list (list string)),
    os_Open path2 = inl file2 ->
    os_Open path3 = inl file3 ->
    fst (Bufio.Scan (data file2) (rderr file2)) = map (fun fs => Join fs ",") fss ->
    fst (Bufio.Scan (data file3) (rderr file3)) = map (fun fs => Join fs tabs) fss ->
    snd (Bufio.Scan (data file2) (rderr file2))
    = snd (Bufio.Scan (data file3) (rderr file3)) ->
    Forall (Forall fieldFree) fss ->
    Forall edgesNotBlank fss ->
    ParseFile os_Open path2 Version2 = ParseFile os_Open path3 Version3.
Proof.
  intros os_Open path2 path3 file2 file3 fss H2 H3 L2 L3 Herr Hfree Hedges.
  apply (ParseFile_v2_v3 os_Open path2 path3 file2 file3 H2 H3); [|exact Herr].
  rewrite L2, L3. clear L2 L3.
  induction fss as [|fs rest IH]; [constructor|].
  inversion Hfree as [|? ? Hf Hfrest]; subst.
  inversion Hedges as [|? ? He Herest]; subst.
  cbn [map]. constructor.
  - apply Split_Trim_Join_agree; assumption.
  - apply IH; assumption.
Qed.

Lemma v2_v3_agree_up_to_delimiter_witness :
  ParseFile (twoFiles "v2.log" agreeV2 "v3.log" agreeV3) "v2.log" Version2
  = ParseFile (twoFiles "v2.log" agreeV2 "v3.log" agreeV3) "v3.log" Version3.
Proof.
  apply (v2_v3_agree_up_to_delimiter
           (twoFiles "v2.log" agreeV2 "v3.log" agreeV3) "v2.log" "v3.log"
           (mkFile agreeV2 None) (mkFile agreeV3 None)
           [["TITLE"; "OpenVPN"];
            ["ROUTING_TABLE"; "10.8.0.2"; "user1"; "1.2.3.4:5"; "now"; "x"]]).
  - reflexivity.
  - reflexivity.
  - vm_compute. reflexivity.
  - vm_compute. reflexivity.
  - vm_compute. reflexivity.
  - repeat constructor.
  - repeat constructor; vm_compute; discriminate.
Defined.

(** * Further properties of the parser *)

(** ** The decoders in closed form *)

Lemma field_beyond (fields : list string) (i : nat) :
  len fields <= Z.of_nat i -> field fields i = "".
Proof.
  intros H. unfold field. apply nth_overflow. unfold len in H. lia.
Qed.

Lemma handleClientListV1_eq (fields : list string) (status : Status) (lineNum : Z) :
  handleClientListV1 fields status lineNum =
    if len fields <? 5
    then (status,
          Some (ParseError lineNum "CLIENT_LIST_V1" (Join fields ",")
                  (errorString ("expected 5 fields, got " ++ itoa (len fields)))))
    else (setClientList status (ClientList status ++ [clientV1 fields])%list,
          firstFailure lineNum
            [("bytesReceived", field fields 2); ("bytesSent", field fields 3)]).
Proof.
  unfold handleClientListV1. cbv zeta.
  destruct (len fields <? 5); [reflexivity|].
  rewrite !parseNumeric_eq. cbn [fst snd app firstFailure].
  unfold clientV1, numValue. f_equal.
  - destruct (numAssigned (field fields 2)); destruct (numAssigned (field fields 3));
      reflexivity.
  - destruct (numFailure lineNum "bytesReceived" (field fields 2));
      destruct (numFailure lineNum "bytesSent" (field fields 3)); reflexivity.
Qed.

Lemma handleClientListV2V3_eq (fields : list string) (status : Status) (lineNum : Z) :
  handleClientListV2V3 fields status lineNum =
    if len fields <? 12
    then (status,
          Some (ParseError lineNum "CLIENT_LIST" (Join fields ",")
                  (errorString ("expected at least 12 fields, got " ++ itoa (len fields)))))
    else (setClientList status (ClientList status ++ [clientV2V3 fields])%list,
          firstFailure lineNum (numericV2V3 fields)).
Proof.
  unfold handleClientListV2V3. cbv zeta.
  destruct (len fields <? 12) eqn:Hlen; [reflexivity|].
  rewrite !parseNumeric_eq. cbn [fst snd app firstFailure numericV2V3].
  unfold clientV2V3, numValue. f_equal.
  - assert (Hc : (if (12 <? len fields) && negb (String.eqb (field fields 12) "")
                  then field fields 12 else "") = field fields 12).
    { destruct (12 <? len fields) eqn:H12; cbn [andb].
      - destruct (String.eqb (field fields 12) "") eqn:E; cbn [negb]; [|reflexivity].
        apply String.eqb_eq in E. symmetry. exact E.
      - symmetry. apply field_beyond. apply Z.ltb_ge in H12. exact H12. }
    destruct (numAssigned (field fields 5));
      destruct (numAssigned (field fields 6));
      destruct (numAssigned (field fields 8));
      destruct (numAssigned (field fields 10));
      destruct (numAssigned (field fields 11));
      destruct ((12 <? len fields) && negb (String.eqb (field fields 12) ""));
      cbn in Hc |- *; rewrite <- ?Hc; reflexivity.
  - destruct (numFailure lineNum "bytesReceived" (field fields 5));
      destruct (numFailure lineNum "bytesSent" (field fields 6));
      destruct (numFailure lineNum "connectedSinceTime" (field fields 8));
      destruct (numFailure lineNum "clientId" (field fields 10));
      destruct (numFailure lineNum "peerId" (field fields 11)); reflexivity.
Qed.

Lemma handleRoutingTable_eq (fields : list string) (status : Status) (lineNum : Z) :
  handleRoutingTable fields status lineNum =
    if len fields <? 6
    then (status,
          Some (ParseError lineNum "ROUTING_TABLE" (Join fields ",")
                  (errorString ("expected 6 fields, got " ++ itoa (len fields)))))
    else (setRoutingTable status (RoutingTable status ++ [routeOf fields])%list,
          firstFailure lineNum [("lastRefTime", field fields 5)]).
Proof.
  unfold handleRoutingTable. cbv zeta.
  destruct (len fields <? 6); [reflexivity|].
  rewrite !parseNumeric_eq. cbn [fst snd app firstFailure].
  unfold routeOf, numValue. f_equal.
  - destruct (numAssigned (field fields 5)); reflexivity.
  - destruct (numFailure lineNum "lastRefTime" (field fields 5)); reflexivity.
Qed.

Lemma firstFailure_relabel (n m : Z) (named : list (string * string)) :
  firstFailure n named = option_map (relabel n) (firstFailure m named).
Proof.
  induction named as [|[name raw] rest IH]; [reflexivity|].
  cbn [firstFailure]. unfold numFailure.
  destruct (String.eqb raw ""); [exact IH|].
  destruct (Strconv.ParseInt raw) as [v [e|]]; [reflexivity | exact IH].
Qed.

(** The model that a line gives does not depend on its number, and its
    error depends on the number through the cited line only. *)
Lemma parseLine_any_line (line : string) (status : Status) (n m : Z)
    (version : StatusVersion) (delimiter : ascii) :
  fst (parseLine line status n version delimiter)
  = fst (parseLine line status m version delimiter)
  /\ snd (parseLine line status n version delimiter)
     = option_map (relabel n) (snd (parseLine line status m version delimiter)).
Proof.
  unfold parseLine, handleTitle, handleTime. cbv zeta.
  rewrite !handleClientListV1_eq, !handleClientListV2V3_eq, !handleRoutingTable_eq.
  rewrite (firstFailure_relabel n m
             [("bytesReceived", field (Split line delimiter) 2);
              ("bytesSent", field (Split line delimiter) 3)]).
  rewrite (firstFailure_relabel n m (numericV2V3 (Split line delimiter))).
  rewrite (firstFailure_relabel n m [("lastRefTime", field (Split line delimiter) 5)]).
  repeat match goal with
         | |- context [if ?b then _ else _] => destruct b
         end; split; reflexivity.
Qed.

(** Every error of a decoder is a [ParseError] that cites the line. *)
Lemma parseLine_error_line (line : string) (status : Status) (n : Z)
    (version : StatusVersion) (delimiter : ascii) (e : error) :
  snd (parseLine line status n version delimiter) = Some e ->
  exists f v c, e = ParseError n f v c.
Proof.
  intros H.
  destruct (parseLine_any_line line status n 0 version delimiter) as [_ Hr].
  rewrite Hr in H.
  destruct (snd (parseLine line status 0 version delimiter)) as [e0|] eqn:E0;
    [|discriminate].
  cbn in H. injection H as <-.
  revert E0. unfold parseLine, handleTitle, handleTime. cbv zeta.
  rewrite !handleClientListV1_eq, !handleClientListV2V3_eq, !handleRoutingTable_eq.
  assert (HF : forall named, firstFailure 0 named = Some e0 ->
                             exists f v c, relabel n e0 = ParseError n f v c).
  { induction named as [|[name raw] rest IH]; [discriminate|].
    cbn [firstFailure]. unfold numFailure.
    destruct (String.eqb raw ""); [exact IH|].
    destruct (Strconv.ParseInt raw) as [v [ne|]]; [|exact IH].
    intros [= <-]. cbn. eauto. }
  repeat match goal with
         | |- context [if ?b then _ else _] => destruct b
         end; cbn [snd]; intros E0;
    try discriminate; try (apply HF in E0; exact E0);
    injection E0 as <-; cbn; eauto.
Qed.

Lemma decodeError_line (version : StatusVersion) (delimiter : ascii)
    (n : Z) (text : string) (e : error) :
  decodeError version delimiter n text = Some e ->
  exists f v c, e = ParseError n f v c.
Proof.
  unfold decodeError. cbv zeta.
  destruct (String.eqb (TrimSpace text) ""); [discriminate|].
  apply parseLine_error_line.
Qed.

Lemma lineErrors_lines (version : StatusVersion) (delimiter : ascii)
    (texts : list string) :
  forall n,
    Forall (fun e => (exists f v c, e = ParseError (lineOf e) f v c)
                     /\ n < lineOf e <= n + len texts)
      (lineErrors version delimiter n texts)
    /\ StronglySorted Z.lt (map lineOf (lineErrors version delimiter n texts))
    /\ (length (lineErrors version delimiter n texts) <= length texts)%nat.
Proof.
  induction texts as [|t rest IH]; intros n.
  - cbn. repeat split; constructor.
  - destruct (IH (n + 1)) as [HF [HS HL]].
    assert (Hlen : len (t :: rest) = len rest + 1).
    { unfold len. cbn [length]. lia. }
    assert (HF' : Forall (fun e => (exists f v c, e = ParseError (lineOf e) f v c)
                                   /\ n < lineOf e <= n + len (t :: rest))
                    (lineErrors version delimiter (n + 1) rest)).
    { eapply Forall_impl; [|exact HF]. cbv beta. intros e [He Hb].
      split; [exact He | rewrite Hlen; lia]. }
    cbn [lineErrors].
    destruct (decodeError version delimiter (n + 1) t) as [e|] eqn:E; cbn [optList app].
    + destruct (decodeError_line _ _ _ _ _ E) as [f [v [c ->]]].
      split; [|split].
      * constructor; [|exact HF'].
        cbn [lineOf]. split; [eauto|]. rewrite Hlen.
        unfold len. lia.
      * cbn [map lineOf]. constructor; [exact HS|].
        apply Forall_map. eapply Forall_impl; [|exact HF].
        cbv beta. intros e [_ Hb]. lia.
      * cbn [length]. lia.
    + split; [exact HF'|]. split; [exact HS|]. cbn [length]. lia.
Qed.

(** ** The errors of a parse and the lines they cite *)

(** The decode errors that [ParseFile] returns are [ParseError]s whose lines
    lie between 1 and the number of lines read and increase strictly: no
    line has two errors, and the list holds at most one error per line and
    one for the read. *)
Theorem ParseFile_error_lines :
  forall (os_Open : string -> File + error) (filepath : string)
         (version : StatusVersion) (file : File),
    os_Open filepath = inl file ->
    let lines := fst (Bufio.Scan (data file) (rderr file)) in
    let readErr := snd (Bufio.Scan (data file) (rderr file)) in
    exists decodeErrs,
      snd (ParseFile os_Open filepath version) =
        (decodeErrs ++ optList (option_map (wrapError "error reading file: ") readErr))%list
      /\ Forall (fun e => (exists f v c, e = ParseError (lineOf e) f v c)
                          /\ 1 <= lineOf e <= len lines) decodeErrs
      /\ StronglySorted Z.lt (map lineOf decodeErrs)
      /\ (length (snd (ParseFile os_Open filepath version)) <= length lines + 1)%nat.
Proof.
  intros os_Open filepath version file Ho. cbv zeta.
  rewrite (ParseFile_opened _ _ _ _ Ho). cbv zeta. cbn [snd].
  set (delim := if version =? Version3 then tab else comma).
  set (lines := fst (Bufio.Scan (data file) (rderr file))).
  destruct (lineErrors_lines version delim lines 0) as [HF [HS HL]].
  exists (lineErrors version delim 0 lines). split; [|split; [|split]].
  - destruct (snd (Bufio.Scan (data file) (rderr file))); reflexivity.
  - eapply Forall_impl; [|exact HF]. cbv beta. intros e [He Hb].
    split; [exact He | lia].
  - exact HS.
  - rewrite length_app.
    destruct (snd (Bufio.Scan (data file) (rderr file))); cbn [length]; lia.
Qed.

Lemma ParseFile_error_lines_witness :
  exists decodeErrs,
    snd (ParseFile (oneFile "status.log" sampleV2) "status.log" Version2) =
      (decodeErrs ++ [])%list
    /\ map lineOf decodeErrs = [2; 4].
Proof.
  destruct (ParseFile_error_lines (oneFile "status.log" sampleV2) "status.log"
              Version2 (mkFile sampleV2 None) eq_refl) as [errs [He _]].
  exists errs. split; [exact He|].
  cbn [optList option_map] in He. rewrite app_nil_r in He.
  rewrite <- He. vm_compute. reflexivity.
Defined.

(** ** The records of versions 2 and 3 *)

Lemma stepStatus_records (version : StatusVersion) (delimiter : ascii)
    (status : Status) (lineNum : Z) (text : string) :
  version <> Version1 ->
  ClientList (stepStatus version delimiter status lineNum text) =
    (ClientList status
     ++ map clientV2V3 (recordFields "CLIENT_LIST" 12 delimiter [text]))%list
  /\ RoutingTable (stepStatus version delimiter status lineNum text) =
    (RoutingTable status
     ++ map routeOf (recordFields "ROUTING_TABLE" 6 delimiter [text]))%list.
Proof.
  intros Hv. unfold stepStatus, recordFields. cbv zeta. cbn [map filter].
  destruct (String.eqb (TrimSpace text) "") eqn:E.
  - apply String.eqb_eq in E. rewrite E. cbn. rewrite !app_nil_r. split; reflexivity.
  - rewrite parseLine_tagged by exact Hv. cbv zeta.
    set (fields := Split (TrimSpace text) delimiter).
    unfold handleTitle, handleTime.
    rewrite handleClientListV2V3_eq, handleRoutingTable_eq.
    rewrite !Z.leb_antisym.
    destruct (String.eqb (field fields 0) "TITLE") eqn:Et.
    { apply String.eqb_eq in Et. rewrite Et. cbn [String.eqb Ascii.eqb Bool.eqb andb].
      destruct (len fields <? 2); cbn; rewrite !app_nil_r; split; reflexivity. }
    destruct (String.eqb (field fields 0) "TIME") eqn:Em.
    { apply String.eqb_eq in Em. rewrite Em. cbn [String.eqb Ascii.eqb Bool.eqb andb].
      destruct (len fields <? 2); cbn; rewrite !app_nil_r; split; reflexivity. }
    destruct (String.eqb (field fields 0) "HEADER") eqn:Eh.
    { apply String.eqb_eq in Eh. rewrite Eh. cbn. rewrite !app_nil_r. split; reflexivity. }
    destruct (String.eqb (field fields 0) "CLIENT_LIST") eqn:Ec.
    { apply String.eqb_eq in Ec. rewrite Ec. cbn [String.eqb Ascii.eqb Bool.eqb andb].
      destruct (len fields <? 12); cbn; rewrite ?app_nil_r; split; reflexivity. }
    destruct (String.eqb (field fields 0) "ROUTING_TABLE") eqn:Er.
    { cbn [andb]. destruct (len fields <? 6); cbn; rewrite ?app_nil_r; split; reflexivity. }
    cbn. rewrite !app_nil_r. split; reflexivity.
Qed.

Lemma recordFields_cons (tag : string) (floor : Z) (delimiter : ascii)
    (t : string) (rest : list string) :
  recordFields tag floor delimiter (t :: rest) =
    (recordFields tag floor delimiter [t] ++ recordFields tag floor delimiter rest)%list.
Proof.
  unfold recordFields. cbn [map filter].
  destruct (String.eqb (field (Split (TrimSpace t) delimiter) 0) tag
            && (floor <=? len (Split (TrimSpace t) delimiter))); reflexivity.
Qed.

Lemma recordFields_app (tag : string) (floor : Z) (delimiter : ascii)
    (l1 l2 : list string) :
  recordFields tag floor delimiter (l1 ++ l2) =
    (recordFields tag floor delimiter l1 ++ recordFields tag floor delimiter l2)%list.
Proof. unfold recordFields. rewrite map_app, filter_app. reflexivity. Qed.

Lemma runStatus_records (version : StatusVersion) (delimiter : ascii)
    (texts : list string) :
  version <> Version1 ->
  forall (status : Status) (n : Z),
    ClientList (runStatus version delimiter texts status n) =
      (ClientList status
       ++ map clientV2V3 (recordFields "CLIENT_LIST" 12 delimiter texts))%list
    /\ RoutingTable (runStatus version delimiter texts status n) =
      (RoutingTable status
       ++ map routeOf (recordFields "ROUTING_TABLE" 6 delimiter texts))%list.
Proof.
  intros Hv. induction texts as [|t rest IH]; intros status n.
  - cbn. rewrite !app_nil_r. split; reflexivity.
  - cbn [runStatus].
    destruct (IH (stepStatus version delimiter status (n + 1) t) (n + 1)) as [IHc IHr].
    destruct (stepStatus_records version delimiter status (n + 1) t Hv) as [Sc Sr].
    rewrite IHc, IHr, Sc, Sr.
    rewrite (recordFields_cons "CLIENT_LIST" 12 delimiter t rest),
      (recordFields_cons "ROUTING_TABLE" 6 delimiter t rest).
    rewrite !map_app, <- !app_assoc. split; reflexivity.
Qed.

(** Under versions 2 and 3 the clients of the returned model are the
    records of the CLIENT_LIST lines with at least 12 fields and its routes
    the records of the ROUTING_TABLE lines with at least 6 fields, each in
    file order; so the number of clients is the number of such CLIENT_LIST
    lines.  A thirteenth field is the cipher, further fields are ignored. *)
Theorem v2_v3_records_in_file_order :
  forall (os_Open : string -> File + error) (filepath : string) (file : File)
         (version : StatusVersion),
    version <> Version1 ->
    os_Open filepath = inl file ->
    let delimiter := if version =? Version3 then tab else comma in
    let lines := fst (Bufio.Scan (data file) (rderr file)) in
    exists st,
      fst (ParseFile os_Open filepath version) = Some st
      /\ ClientList st = map clientV2V3 (recordFields "CLIENT_LIST" 12 delimiter lines)
      /\ RoutingTable st = map routeOf (recordFields "ROUTING_TABLE" 6 delimiter lines)
      /\ length (ClientList st)
         = length (recordFields "CLIENT_LIST" 12 delimiter lines).
Proof.
  intros os_Open filepath file version Hv Ho. cbv zeta.
  rewrite (ParseFile_opened _ _ _ _ Ho). cbv zeta. cbn [fst].
  eexists. split; [reflexivity|].
  destruct (runStatus_records version
              (if version =? Version3 then tab else comma)
              (fst (Bufio.Scan (data file) (rderr file))) Hv initStatus 0) as [Hc Hr].
  rewrite Hc, Hr. cbn [ClientList RoutingTable initStatus app].
  rewrite length_map. repeat split; reflexivity.
Qed.

Lemma v2_v3_records_in_file_order_witness :
  exists st,
    fst (ParseFile (oneFile "status.log" sampleRecords) "status.log" Version2) = Some st
    /\ ClientList st =
         [mkClient "user1" "1.2.3.4" "10.8.0.2" "" 1 2 "T" 3 "user1" 4 5 "AES-256-GCM"]
    /\ RoutingTable st = [mkRoute "10.8.0.2" "user1" "1.2.3.4" "T" 9].
Proof.
  destruct (v2_v3_records_in_file_order (oneFile "status.log" sampleRecords)
              "status.log" (mkFile sampleRecords None) Version2)
    as [st [Hst [Hc [Hr _]]]]; [discriminate | reflexivity |].
  exists st. split; [exact Hst|]. split.
  - rewrite Hc. vm_compute. reflexivity.
  - rewrite Hr. vm_compute. reflexivity.
Defined.

(** ** Lines that versions 2 and 3 skip or reject *)

(** Under versions 2 and 3 the loop body leaves the model and the error list
    as they are on a line whose first field is none of TITLE, TIME,
    CLIENT_LIST and ROUTING_TABLE (a HEADER line, GLOBAL_STATS, END, ...);
    on a ROUTING_TABLE line with fewer than 6 fields it appends one error
    and leaves the model as it is. *)
Theorem unknown_tag_and_short_route :
  forall (version : StatusVersion) (delimiter : ascii)
         (status : Status) (parseErrors : list error) (lineNum : Z)
         (text : string) (fields : list string),
    version <> Version1 ->
    Split (TrimSpace text) delimiter = fields ->
    (knownTag (field fields 0) = false ->
     scanBody version delimiter (status, parseErrors, lineNum) text =
       (status, parseErrors, lineNum + 1))
    /\ (field fields 0 = "ROUTING_TABLE" -> len fields < 6 ->
        scanBody version delimiter (status, parseErrors, lineNum) text =
          (status,
           (parseErrors ++
              [ParseError (lineNum + 1) "ROUTING_TABLE" (Join fields ",")
                 (errorString ("expected 6 fields, got " ++ itoa (len fields)))])%list,
           lineNum + 1)).
Proof.
  intros version delimiter status parseErrors lineNum text fields Hv Hs.
  unfold scanBody. split.
  - intros Hk. destruct (String.eqb (TrimSpace text) ""); [reflexivity|].
    rewrite parseLine_tagged by exact Hv. cbv zeta. rewrite Hs.
    unfold knownTag in Hk.
    apply orb_false_iff in Hk. destruct Hk as [Hk Hr].
    apply orb_false_iff in Hk. destruct Hk as [Hk Hc].
    apply orb_false_iff in Hk. destruct Hk as [Ht Hm].
    rewrite Ht, Hm, Hc, Hr.
    destruct (String.eqb (field fields 0) "HEADER"); reflexivity.
  - intros Htag Hlen.
    destruct (String.eqb (TrimSpace text) "") eqn:E.
    { apply String.eqb_eq in E. rewrite E in Hs. subst fields. discriminate. }
    rewrite parseLine_tagged by exact Hv. cbv zeta. rewrite Hs, Htag.
    cbn [String.eqb Ascii.eqb Bool.eqb]. rewrite handleRoutingTable_eq.
    apply Z.ltb_lt in Hlen. rewrite Hlen. reflexivity.
Qed.

Lemma unknown_tag_and_short_route_witness :
  scanBody Version2 comma (initStatus, [], 0) "GLOBAL_STATS,Max bcast/mcast queue length,0"
    = (initStatus, [], 1)
  /\ scanBody Version2 comma (initStatus, [], 1) "ROUTING_TABLE,10.8.0.2,user1" =
       (initStatus,
        [ParseError 2 "ROUTING_TABLE" "ROUTING_TABLE,10.8.0.2,user1"
           (errorString "expected 6 fields, got 3")], 2).
Proof.
  split.
  - apply (unknown_tag_and_short_route Version2 comma initStatus [] 0
             "GLOBAL_STATS,Max bcast/mcast queue length,0"
             ["GLOBAL_STATS"; "Max bcast/mcast queue length"; "0"]);
      [discriminate | reflexivity | reflexivity].
  - apply (unknown_tag_and_short_route Version2 comma initStatus [] 1
             "ROUTING_TABLE,10.8.0.2,user1" ["ROUTING_TABLE"; "10.8.0.2"; "user1"]);
      [discriminate | reflexivity | reflexivity | vm_compute; reflexivity].
Defined.

(** ** Blank lines only shift the line numbers *)

Lemma relabel_relabel (n m : Z) (e : error) : relabel n (relabel m e) = relabel n e.
Proof. destruct e; reflexivity. Qed.

Lemma run_without_blank_lines (version : StatusVersion) (delimiter : ascii)
    (texts : list string) :
  forall (status : Status) (n m : Z),
    runStatus version delimiter texts status n
    = runStatus version delimiter (filter nonBlank texts) status m
    /\ map (relabel 0) (lineErrors version delimiter n texts)
       = map (relabel 0) (lineErrors version delimiter m (filter nonBlank texts)).
Proof.
  induction texts as [|t rest IH]; intros status n m; [split; reflexivity|].
  cbn [filter]. destruct (nonBlank t) eqn:Enb; unfold nonBlank in Enb.
  - apply negb_true_iff in Enb.
    cbn [runStatus lineErrors]. unfold stepStatus, decodeError. cbv zeta.
    rewrite Enb.
    destruct (parseLine_any_line (TrimSpace t) status (n + 1) (m + 1) version delimiter)
      as [Hf _].
    destruct (parseLine_any_line (TrimSpace t) initStatus (n + 1) (m + 1) version delimiter)
      as [_ Hs].
    rewrite Hf, Hs.
    destruct (IH (fst (parseLine (TrimSpace t) status (m + 1) version delimiter))
                (n + 1) (m + 1)) as [IHs IHe].
    split; [exact IHs|].
    rewrite !map_app, IHe. f_equal.
    destruct (snd (parseLine (TrimSpace t) initStatus (m + 1) version delimiter));
      cbn; [rewrite relabel_relabel|]; reflexivity.
  - apply negb_false_iff in Enb.
    cbn [runStatus lineErrors]. unfold stepStatus, decodeError. cbv zeta.
    rewrite Enb. cbn [optList app]. apply IH.
Qed.

(** Two files that differ by blank lines only give the same model, and the
    same errors up to the lines they cite. *)
Theorem blank_lines_shift_line_numbers_only :
  forall (os_Open : string -> File + error) (path1 path2 : string)
         (file1 file2 : File) (version : StatusVersion),
    os_Open path1 = inl file1 ->
    os_Open path2 = inl file2 ->
    fst (Bufio.Scan (data file2) (rderr file2))
    = filter nonBlank (fst (Bufio.Scan (data file1) (rderr file1))) ->
    snd (Bufio.Scan (data file2) (rderr file2))
    = snd (Bufio.Scan (data file1) (rderr file1)) ->
    fst (ParseFile os_Open path1 version) = fst (ParseFile os_Open path2 version)
    /\ map (relabel 0) (snd (ParseFile os_Open path1 version))
       = map (relabel 0) (snd (ParseFile os_Open path2 version)).
Proof.
  intros os_Open path1 path2 file1 file2 version H1 H2 Hl He.
  rewrite (ParseFile_opened _ _ _ _ H1), (ParseFile_opened _ _ _ _ H2). cbv zeta.
  cbn [fst snd]. rewrite Hl, He.
  destruct (run_without_blank_lines version
              (if version =? Version3 then tab else comma)
              (fst (Bufio.Scan (data file1) (rderr file1))) initStatus 0 0) as [Hs Hr].
  rewrite Hs, !map_app, Hr. split; reflexivity.
Qed.

Lemma blank_lines_shift_line_numbers_only_witness :
  fst (ParseFile (twoFiles "a.log" withBlanks "b.log" withoutBlanks) "a.log" Version2)
  = fst (ParseFile (twoFiles "a.log" withBlanks "b.log" withoutBlanks) "b.log" Version2)
  /\ map lineOf
       (snd (ParseFile (twoFiles "a.log" withBlanks "b.log" withoutBlanks) "a.log" Version2))
     = [4]
  /\ map lineOf
       (snd (ParseFile (twoFiles "a.log" withBlanks "b.log" withoutBlanks) "b.log" Version2))
     = [2].
Proof.
  split; [|split; vm_compute; reflexivity].
  apply (blank_lines_shift_line_numbers_only
           (twoFiles "a.log" withBlanks "b.log" withoutBlanks) "a.log" "b.log"
           (mkFile withBlanks None) (mkFile withoutBlanks None) Version2);
    vm_compute; reflexivity.
Defined.

(** ** Records are kept when lines are added *)

Lemma runStatus_app (version : StatusVersion) (delimiter : ascii) (l1 l2 : list string) :
  forall (status : Status) (n : Z),
    runStatus version delimiter (l1 ++ l2) status n
    = runStatus version delimiter l2
        (runStatus version delimiter l1 status n) (n + len l1).
Proof.
  induction l1 as [|t rest IH]; intros status n.
  - cbn. unfold len. cbn. rewrite Z.add_0_r. reflexivity.
  - cbn [app runStatus]. rewrite IH. f_equal.
    unfold len. cbn [length]. lia.
Qed.

Lemma runStatus_extends (version : StatusVersion) (delimiter : ascii)
    (texts : list string) :
  forall (status : Status) (n : Z),
    exists clients routes,
      ClientList (runStatus version delimiter texts status n)
      = (ClientList status ++ clients)%list
      /\ RoutingTable (runStatus version delimiter texts status n)
         = (RoutingTable status ++ routes)%list.
Proof.
  intros status n. destruct (Z.eq_dec version Version1) as [-> | Hv].
  - rewrite runStatus_v1. exists (map clientV1 (v1Records delimiter texts)), [].
    cbn. rewrite app_nil_r. split; reflexivity.
  - destruct (runStatus_records version delimiter texts Hv status n) as [Hc Hr].
    eexists. eexists. split; [exact Hc | exact Hr].
Qed.

(** When the lines of one file are the lines of another followed by more
    lines, its clients and routes are those of the other file followed by
    more records: no later line removes, changes or reorders a record. *)
Theorem records_kept_when_lines_are_added :
  forall (os_Open : string -> File + error) (path1 path2 : string)
         (file1 file2 : File) (version : StatusVersion) (more : list string),
    os_Open path1 = inl file1 ->
    os_Open path2 = inl file2 ->
    fst (Bufio.Scan (data file2) (rderr file2))
    = (fst (Bufio.Scan (data file1) (rderr file1)) ++ more)%list ->
    exists st1 st2 clients routes,
      fst (ParseFile os_Open path1 version) = Some st1
      /\ fst (ParseFile os_Open path2 version) = Some st2
      /\ ClientList st2 = (ClientList st1 ++ clients)%list
      /\ RoutingTable st2 = (RoutingTable st1 ++ routes)%list.
Proof.
  intros os_Open path1 path2 file1 file2 version more H1 H2 Hl.
  rewrite (ParseFile_opened _ _ _ _ H1), (ParseFile_opened _ _ _ _ H2). cbv zeta.
  cbn [fst]. rewrite Hl, runStatus_app.
  set (delim := if version =? Version3 then tab else comma).
  set (st1 := runStatus version delim (fst (Bufio.Scan (data file1) (rderr file1)))
                initStatus 0).
  destruct (runStatus_extends version delim more st1
              (0 + len (fst (Bufio.Scan (data file1) (rderr file1)))))
    as [clients [routes [Hc Hr]]].
  exists st1. eexists. exists clients, routes.
  split; [reflexivity|]. split; [reflexivity|]. split; [exact Hc | exact Hr].
Qed.

Lemma records_kept_when_lines_are_added_witness :
  exists st1 st2 clients routes,
    fst (ParseFile (twoFiles "a.log" oneClient "b.log" twoClients) "a.log" Version1)
    = Some st1
    /\ fst (ParseFile (twoFiles "a.log" oneClient "b.log" twoClients) "b.log" Version1)
       = Some st2
    /\ ClientList st2 = (ClientList st1 ++ clients)%list
    /\ RoutingTable st2 = (RoutingTable st1 ++ routes)%list.
Proof.
  apply (records_kept_when_lines_are_added
           (twoFiles "a.log" oneClient "b.log" twoClients) "a.log" "b.log"
           (mkFile oneClient None) (mkFile twoClients None) Version1
           ["user2,10.0.0.2:6,1,2,T2"]); vm_compute; reflexivity.
Defined.

(** ** Decimal numerals *)

Lemma valFrom_ge (s : string) :
  digits s = true -> forall n, 0 <= n -> n <= valFrom n s.
Proof.
  induction s as [|c rest IH]; intros Hd n Hn; [cbn; lia|].
  cbn [digits] in Hd. apply andb_true_iff in Hd. destruct Hd as [Hc Hrest].
  unfold Strconv.isDigit in Hc. apply andb_true_iff in Hc. destruct Hc as [Hlo Hhi].
  apply Z.leb_le in Hlo, Hhi. cbn [valFrom].
  specialize (IH Hrest (n * 10 + (byte c - 48)) ltac:(lia)). lia.
Qed.

Lemma parseUintLoop_digits (s : string) :
  digits s = true ->
  forall n, 0 <= n -> valFrom n s <= Strconv.maxUint64 ->
            Strconv.parseUintLoop s n = (valFrom n s, None).
Proof.
  induction s as [|c rest IH]; intros Hd n Hn Hmax; [reflexivity|].
  pose proof Hd as Hd'.
  cbn [digits] in Hd'. apply andb_true_iff in Hd'. destruct Hd' as [Hc Hrest].
  cbn [Strconv.parseUintLoop valFrom] in *. rewrite Hc.
  pose proof Hc as Hc'. unfold Strconv.isDigit in Hc'.
  apply andb_true_iff in Hc'. destruct Hc' as [Hlo Hhi].
  apply Z.leb_le in Hlo, Hhi.
  pose proof (valFrom_ge rest Hrest (n * 10 + (byte c - 48)) ltac:(lia)) as Hge.
  assert (Hcut : Strconv.maxUint64 / 10 + 1 = 1844674407370955162) by reflexivity.
  assert (Hm : Strconv.maxUint64 = 18446744073709551615) by reflexivity.
  destruct (Strconv.maxUint64 / 10 + 1 <=? n) eqn:E1.
  { apply Z.leb_le in E1. lia. }
  cbv zeta.
  destruct (Strconv.maxUint64 <? n * 10 + (byte c - 48)) eqn:E2.
  { apply Z.ltb_lt in E2. lia. }
  apply IH; [exact Hrest | lia | exact Hmax].
Qed.

(** A numeric sub-field that consists of decimal digits whose value is below
    2^63 is stored with that value and raises no error; so is one with a
    minus sign in front of digits whose value is at most 2^63. *)
Theorem numeral_decodes_to_its_value :
  forall (lineNum : Z) (name s : string),
    s <> "" -> digits s = true ->
    (decVal s < 2 ^ 63 ->
     numValue s = decVal s /\ numFailure lineNum name s = None)
    /\ (decVal s <= 2 ^ 63 ->
        numValue (String "-" s) = - decVal s
        /\ numFailure lineNum name (String "-" s) = None).
Proof.
  intros lineNum name s Hne Hd.
  pose proof (valFrom_ge s Hd 0 ltac:(lia)) as Hge. fold (decVal s) in Hge.
  assert (Hp : decVal s <= 2 ^ 63 -> Strconv.ParseUint s = (decVal s, None)).
  { intros Hb. destruct s as [|c rest]; [congruence|].
    unfold Strconv.ParseUint. apply parseUintLoop_digits; [exact Hd | lia |].
    fold (decVal (String c rest)). unfold Strconv.maxUint64. lia. }
  split.
  - intros Hb. specialize (Hp ltac:(lia)).
    unfold numValue, numAssigned, numFailure.
    rewrite (eqb_string_false _ _ Hne).
    assert (HP : Strconv.ParseInt s = (decVal s, None)).
    { destruct s as [|c rest]; [congruence|].
      unfold Strconv.ParseInt.
      assert (Hsign : Ascii.eqb c "+" = false /\ Ascii.eqb c "-" = false).
      { cbn [digits] in Hd. apply andb_true_iff in Hd. destruct Hd as [Hc _].
        unfold Strconv.isDigit in Hc. apply andb_true_iff in Hc.
        destruct Hc as [Hlo Hhi]. apply Z.leb_le in Hlo, Hhi.
        split; apply Ascii.eqb_neq; intros ->; vm_compute in Hlo; congruence. }
      destruct Hsign as [-> ->]. cbn [orb negb andb]. rewrite Hp.
      destruct (2 ^ 63 <=? decVal (String c rest)) eqn:E; [|reflexivity].
      apply Z.leb_le in E. lia. }
    rewrite HP. split; reflexivity.
  - intros Hb. specialize (Hp Hb).
    unfold numValue, numAssigned, numFailure.
    assert (HP : Strconv.ParseInt (String "-" s) = (- decVal s, None)).
    { unfold Strconv.ParseInt.
      change (Ascii.eqb "-" "-") with true. change (Ascii.eqb "-" "+") with false.
      cbn [orb negb andb]. rewrite Hp.
      destruct (2 ^ 63 <? decVal s) eqn:E; [|reflexivity].
      apply Z.ltb_lt in E. lia. }
    change (String.eqb (String "-" s) "") with false. cbv iota.
    rewrite HP. split; reflexivity.
Qed.

Lemma numeral_decodes_to_its_value_witness :
  numValue "1732700645" = 1732700645
  /\ numValue "-9223372036854775808" = - 9223372036854775808.
Proof.
  split.
  - destruct (numeral_decodes_to_its_value 1 "connectedSinceTime" "1732700645")
      as [H _]; [discriminate | reflexivity |].
    destruct H as [H _]; [vm_compute; reflexivity | exact H].
  - destruct (numeral_decodes_to_its_value 1 "bytesSent" "9223372036854775808")
      as [_ H]; [discriminate | reflexivity |].
    destruct H as [H _]; [vm_compute; discriminate | exact H].
Defined.

(** * Further properties of the formatter *)

(** ** Escaping of label values *)

Lemma ReplaceAll_app (a b : string) (old : ascii) (new : string) :
  ReplaceAll (a ++ b) old new = ReplaceAll a old new ++ ReplaceAll b old new.
Proof.
  induction a as [|c rest IH]; [reflexivity|].
  cbn [append ReplaceAll]. rewrite IH.
  destruct (Ascii.eqb c old); [rewrite str_app_assoc|]; reflexivity.
Qed.

Lemma sanitizeLabelValue_cons (c : ascii) (rest : string) :
  Formatter.sanitizeLabelValue (String c rest)
  = escapeByte c ++ Formatter.sanitizeLabelValue rest.
Proof.
  unfold Formatter.sanitizeLabelValue, escapeByte. cbv zeta.
  cbn [ReplaceAll].
  destruct (Ascii.eqb c "\") eqn:Eb.
  - rewrite !ReplaceAll_app. reflexivity.
  - cbn [ReplaceAll]. destruct (Ascii.eqb c lf) eqn:El.
    + rewrite !ReplaceAll_app. reflexivity.
    + cbn [ReplaceAll]. destruct (Ascii.eqb c Formatter.dquote); reflexivity.
Qed.

Lemma unescape_escapeByte (c : ascii) (s : string) :
  unescape (escapeByte c ++ s) = String c (unescape s).
Proof.
  unfold escapeByte.
  destruct (Ascii.eqb c "\") eqn:Eb.
  { apply Ascii.eqb_eq in Eb. subst c. reflexivity. }
  destruct (Ascii.eqb c lf) eqn:El.
  { apply Ascii.eqb_eq in El. subst c. reflexivity. }
  destruct (Ascii.eqb c Formatter.dquote) eqn:Eq.
  { apply Ascii.eqb_eq in Eq. subst c. reflexivity. }
  cbn [append unescape]. rewrite Eb. reflexivity.
Qed.

(** [sanitizeLabelValue] can be undone, so two label values never get the
    same escaped text; the escaped text holds no line feed; and a value
    without backslash, line feed and double quote is left as it is. *)
Theorem sanitizeLabelValue_reversible :
  forall value : string,
    unescape (Formatter.sanitizeLabelValue value) = value
    /\ hasByte lf (Formatter.sanitizeLabelValue value) = false
    /\ (if hasByte "\" value || hasByte lf value || hasByte Formatter.dquote value
        then True
        else Formatter.sanitizeLabelValue value = value).
Proof.
  induction value as [|c rest [IHu [IHl IHi]]].
  - repeat split.
  - rewrite sanitizeLabelValue_cons. split; [|split].
    + rewrite unescape_escapeByte, IHu. reflexivity.
    + rewrite hasByte_app, IHl, orb_false_r. unfold escapeByte.
      destruct (Ascii.eqb c "\"); [reflexivity|].
      destruct (Ascii.eqb c lf) eqn:El; [reflexivity|].
      destruct (Ascii.eqb c Formatter.dquote); [reflexivity|].
      cbn [hasByte]. rewrite El. reflexivity.
    + cbn [hasByte]. unfold escapeByte.
      destruct (Ascii.eqb c "\"); [exact I|].
      destruct (Ascii.eqb c lf); [cbn; rewrite ?orb_true_r; exact I|].
      destruct (Ascii.eqb c Formatter.dquote); [cbn; rewrite ?orb_true_r; exact I|].
      cbn [orb append].
      destruct (hasByte "\" rest || hasByte lf rest || hasByte Formatter.dquote rest);
        [exact I | rewrite IHi; reflexivity].
Qed.

(** ** What the exposition holds *)

Lemma EndsWith_skip (a s x : string) : EndsWith s x -> EndsWith (a ++ s) x.
Proof. intros [pre ->]. exists (a ++ pre). rewrite str_app_assoc. reflexivity. Qed.

Lemma EndsWith_refl (x : string) : EndsWith x x.
Proof. exists "". reflexivity. Qed.

(** [Format] dereferences the server configuration: it yields no output
    when the model has none.  Otherwise the exposition holds, for every
    client of the model, its received and sent counters and the connected
    indicator 1, for every route its last-reference gauge, the two gauges of
    the numbers of clients and routes and the info sample, and it ends with
    the end-of-stream marker. *)
Theorem Format_samples :
  forall (Quote : string -> string) (now : Z) (status : Status),
    match Server status with
    | None => Formatter.Format Quote now status = None
    | Some server =>
        exists output,
          Formatter.Format Quote now status = Some output
          /\ (forall client, In client (ClientList status) ->
                Contains output
                  (Formatter.sample "openvpn_client_bytes_received_total"
                     (Formatter.buildClientLabels Quote client server)
                     (BytesReceived client))
                /\ Contains output
                     (Formatter.sample "openvpn_client_bytes_sent_total"
                        (Formatter.buildClientLabels Quote client server)
                        (BytesSent client))
                /\ Contains output
                     ("openvpn_client_connected"
                      ++ Formatter.buildClientLabels Quote client server
                      ++ " 1" ++ Formatter.nl))
          /\ (forall route, In route (RoutingTable status) ->
                Contains output
                  (Formatter.sample "openvpn_routing_last_ref_seconds"
                     (Formatter.buildRouteLabels Quote route server)
                     (LastRefTime route)))
          /\ Contains output
               (Formatter.sample "openvpn_clients_connected_total"
                  ("{" ++ Formatter.label Quote "server_id" (ID server) ++ "}")
                  (len (ClientList status)))
          /\ Contains output
               (Formatter.sample "openvpn_routing_entries_total"
                  ("{" ++ Formatter.label Quote "server_id" (ID server) ++ "}")
                  (len (RoutingTable status)))
          /\ Contains output
               ("openvpn_status_info" ++ Formatter.buildInfoLabels Quote status server
                ++ " 1" ++ Formatter.nl)
          /\ EndsWith output ("# EOF" ++ Formatter.nl)
    end.
Proof.
  intros Quote now status. unfold Formatter.Format.
  destruct (Server status) as [server|]; [|reflexivity].
  eexists. split; [reflexivity|]. cbv zeta.
  split; [|split; [|split; [|split; [|split]]]].
  - intros client Hin. split; [|split].
    + do 4 apply Contains_skip. apply Contains_app_l.
      apply (Contains_concat
               (fun c => Formatter.sample "openvpn_client_bytes_received_total"
                           (Formatter.buildClientLabels Quote c server)
                           (BytesReceived c))). exact Hin.
    + do 9 apply Contains_skip. apply Contains_app_l.
      apply (Contains_concat
               (fun c => Formatter.sample "openvpn_client_bytes_sent_total"
                           (Formatter.buildClientLabels Quote c server)
                           (BytesSent c))). exact Hin.
    + do 15 apply Contains_skip. apply Contains_app_l.
      apply (Contains_concat
               (fun c => "openvpn_client_connected"
                         ++ Formatter.buildClientLabels Quote c server
                         ++ " 1" ++ Formatter.nl)). exact Hin.
  - intros route Hin. do 30 apply Contains_skip. apply Contains_app_l.
    apply (Contains_concat
             (fun r => Formatter.sample "openvpn_routing_last_ref_seconds"
                         (Formatter.buildRouteLabels Quote r server)
                         (LastRefTime r))). exact Hin.
  - do 20 apply Contains_skip. apply Contains_app_l. apply Contains_refl.
  - do 25 apply Contains_skip. apply Contains_app_l. apply Contains_refl.
  - do 35 apply Contains_skip.
    exists "", ("# EOF" ++ Formatter.nl). cbn [append]. rewrite !str_app_assoc.
    reflexivity.
  - do 39 apply EndsWith_skip. apply EndsWith_refl.
Qed.

(** * Properties of the configuration reader *)

(** ** The server identifier *)

Lemma str_length_app (a b : string) :
  String.length (a ++ b) = (String.length a + String.length b)%nat.
Proof. induction a as [|c rest IH]; cbn; [reflexivity | rewrite IH; reflexivity]. Qed.

Lemma substring_prefix (a b : string) : substring 0 (String.length a) (a ++ b) = a.
Proof.
  induction a as [|c rest IH]; cbn.
  - destruct b; reflexivity.
  - rewrite IH. reflexivity.
Qed.

Lemma rev_app_cons (r : string) (c : ascii) (acc : string) :
  rev (String c r) ++ acc = rev r ++ String c acc.
Proof. rewrite rev_cons, str_app_assoc. reflexivity. Qed.

(** [Ext] returns a suffix of its argument. *)
Lemma extFrom_suffix (r : string) :
  forall acc,
    Filepath.extFrom r acc = ""
    \/ exists pre, rev r ++ acc = pre ++ Filepath.extFrom r acc.
Proof.
  induction r as [|c rest IH]; intros acc; [left; reflexivity|].
  cbn [Filepath.extFrom].
  destruct (Ascii.eqb c Filepath.slash); [left; reflexivity|].
  destruct (Ascii.eqb c Filepath.dot).
  - right. exists (rev rest). apply rev_app_cons.
  - destruct (IH (String c acc)) as [H | [pre H]]; [left; exact H|].
    right. exists pre. rewrite rev_app_cons. exact H.
Qed.

Lemma Ext_suffix (b : string) :
  Filepath.Ext b = "" \/ exists pre, b = pre ++ Filepath.Ext b.
Proof.
  unfold Filepath.Ext.
  destruct (extFrom_suffix (rev b) "") as [H | [pre H]]; [left; exact H|].
  right. exists pre. rewrite rev_involutive, str_app_nil_r in H. exact H.
Qed.

Lemma untilSlash_no_slash (r : string) :
  hasByte Filepath.slash (Filepath.untilSlash r) = false.
Proof.
  induction r as [|c rest IH]; [reflexivity|].
  cbn [Filepath.untilSlash].
  destruct (Ascii.eqb c Filepath.slash) eqn:E; [reflexivity|].
  cbn [hasByte]. rewrite E, IH. reflexivity.
Qed.

Lemma Base_no_slash (path : string) :
  Filepath.Base path = String Filepath.slash ""
  \/ hasByte Filepath.slash (Filepath.Base path) = false.
Proof.
  unfold Filepath.Base.
  destruct (String.eqb path ""); [right; reflexivity|]. cbv zeta.
  destruct (String.eqb (rev (Filepath.untilSlash (Filepath.dropSlashes (rev path)))) "");
    [left; reflexivity|].
  right. rewrite hasByte_rev. apply untilSlash_no_slash.
Qed.

(** The identifier and the extension make up the base name of the path, and
    the identifier holds no path separator unless the path consists of
    separators only, when it is the separator. *)
Theorem getServerID_splits_base_name :
  forall statusPath : string,
    Config.getServerID statusPath ++ Filepath.Ext (Filepath.Base statusPath)
    = Filepath.Base statusPath
    /\ (hasByte Filepath.slash (Config.getServerID statusPath) = false
        \/ Config.getServerID statusPath = "/").
Proof.
  intros statusPath. unfold Config.getServerID. cbv zeta.
  set (b := Filepath.Base statusPath).
  assert (Hb : b = String Filepath.slash "" \/ hasByte Filepath.slash b = false)
    by apply Base_no_slash.
  destruct (String.eqb (Filepath.Ext b) "") eqn:E; cbn [negb].
  - apply String.eqb_eq in E. rewrite E, str_app_nil_r. split; [reflexivity|].
    destruct Hb as [-> | Hb]; [right; reflexivity | left; exact Hb].
  - destruct (Ext_suffix b) as [H | [pre H]].
    { rewrite H in E. discriminate. }
    assert (Hsub : substring 0 (String.length b - String.length (Filepath.Ext b)) b = pre).
    { rewrite H at 1 3. rewrite str_length_app.
      replace (String.length pre + String.length (Filepath.Ext b)
               - String.length (Filepath.Ext b))%nat with (String.length pre) by lia.
      apply substring_prefix. }
    rewrite Hsub. split; [symmetry; exact H|].
    destruct Hb as [Hb | Hb].
    + rewrite Hb in E. discriminate.
    + left. rewrite H, hasByte_app in Hb. apply orb_false_iff in Hb. apply Hb.
Qed.

Lemma dropSlashes_id (r : string) :
  match r with
  | EmptyString => True
  | String c _ => Ascii.eqb c Filepath.slash = false
  end ->
  Filepath.dropSlashes r = r.
Proof. destruct r as [|c rest]; [reflexivity|]. cbn. intros ->. reflexivity. Qed.

Lemma untilSlash_app (a X : string) :
  hasByte Filepath.slash a = false ->
  Filepath.untilSlash (a ++ String Filepath.slash X) = a.
Proof.
  induction a as [|c rest IH]; intros H; [reflexivity|].
  cbn [hasByte] in H. apply orb_false_iff in H. destruct H as [Hc Hr].
  cbn [append Filepath.untilSlash]. rewrite Hc, (IH Hr). reflexivity.
Qed.

Lemma untilSlash_all (a : string) :
  hasByte Filepath.slash a = false -> Filepath.untilSlash a = a.
Proof.
  induction a as [|c rest IH]; intros H; [reflexivity|].
  cbn [hasByte] in H. apply orb_false_iff in H. destruct H as [Hc Hr].
  cbn [Filepath.untilSlash]. rewrite Hc, (IH Hr). reflexivity.
Qed.

Lemma extFrom_app_dot (a X acc : string) :
  hasByte Filepath.slash a = false -> hasByte Filepath.dot a = false ->
  Filepath.extFrom (a ++ String Filepath.dot X) acc
  = String Filepath.dot (rev a ++ acc).
Proof.
  revert acc. induction a as [|c rest IH]; intros acc Hs Hd; [reflexivity|].
  cbn [hasByte] in Hs, Hd.
  apply orb_false_iff in Hs. destruct Hs as [Hcs Hrs].
  apply orb_false_iff in Hd. destruct Hd as [Hcd Hrd].
  cbn [append Filepath.extFrom]. rewrite Hcs, Hcd, (IH _ Hrs Hrd), rev_app_cons.
  reflexivity.
Qed.

(** The identifier of a path [dir/name.ext], and of a bare [name.ext], is
    [name]: the directory and the last extension are removed, whatever dots
    [name] holds. *)
Theorem getServerID_of_file_name :
  forall dir name ext : string,
    hasByte Filepath.slash name = false ->
    hasByte Filepath.slash ext = false ->
    hasByte Filepath.dot ext = false ->
    Config.getServerID (dir ++ "/" ++ name ++ "." ++ ext) = name
    /\ Config.getServerID (name ++ "." ++ ext) = name.
Proof.
  intros dir name ext Hn Hes Hed.
  set (file := name ++ "." ++ ext).
  assert (Hrev : rev file = rev ext ++ String Filepath.dot (rev name)).
  { unfold file. rewrite rev_app. cbn [append]. rewrite rev_cons, str_app_assoc.
    reflexivity. }
  assert (Hfs : hasByte Filepath.slash (rev file) = false).
  { rewrite hasByte_rev. unfold file. rewrite hasByte_app. cbn [append hasByte].
    rewrite Hn, Hes. reflexivity. }
  assert (Hhead : match rev file with
                  | EmptyString => True
                  | String c _ => Ascii.eqb c Filepath.slash = false
                  end).
  { destruct (rev file) as [|c r]; [exact I|].
    cbn [hasByte] in Hfs. apply orb_false_iff in Hfs. apply Hfs. }
  assert (Hne : String.eqb file "" = false).
  { unfold file. destruct name; reflexivity. }
  assert (Hext : Filepath.Ext file = String Filepath.dot ext).
  { unfold Filepath.Ext. rewrite Hrev, extFrom_app_dot.
    - rewrite rev_involutive, str_app_nil_r. reflexivity.
    - rewrite hasByte_rev. exact Hes.
    - rewrite hasByte_rev. exact Hed. }
  assert (Hid : (if negb (String.eqb (Filepath.Ext file) "")
                 then substring 0 (String.length file - String.length (Filepath.Ext file)) file
                 else file) = name).
  { rewrite Hext. cbn [String.eqb negb]. unfold file at 1 2.
    rewrite str_length_app.
    replace (String.length name + String.length ("." ++ ext)
             - String.length (String Filepath.dot ext))%nat
      with (String.length name) by (cbn; lia).
    apply substring_prefix. }
  assert (Hb1 : Filepath.Base (dir ++ "/" ++ file) = file).
  { unfold Filepath.Base.
    assert (Hd : String.eqb (dir ++ "/" ++ file) "" = false) by (destruct dir; reflexivity).
    rewrite Hd. cbv zeta. rewrite rev_app. cbn [append]. rewrite rev_cons, str_app_assoc.
    cbn [append]. rewrite (dropSlashes_id (rev file ++ String "/" (rev dir))).
    - rewrite untilSlash_app by exact Hfs. rewrite rev_involutive, Hne. reflexivity.
    - destruct (rev file) as [|c r] eqn:Er; [|exact Hhead].
      apply rev_nil_inv in Er. rewrite Er in Hne. discriminate. }
  assert (Hb2 : Filepath.Base file = file).
  { unfold Filepath.Base. rewrite Hne. cbv zeta.
    rewrite (dropSlashes_id (rev file) Hhead), (untilSlash_all _ Hfs), rev_involutive, Hne.
    reflexivity. }
  unfold Config.getServerID. cbv zeta. fold file. rewrite Hb1, Hb2.
  split; exact Hid.
Qed.

Lemma getServerID_of_file_name_witness :
  Config.getServerID "/var/log/openvpn/server1.status.log" = "server1.status"
  /\ Config.getServerID "status.log" = "status".
Proof.
  split.
  - apply (getServerID_of_file_name "/var/log/openvpn" "server1.status" "log");
      reflexivity.
  - apply (getServerID_of_file_name "" "status" "log"); reflexivity.
Defined.

(** ** The directives *)

Lemma pushField_nonempty (cur : string) (rest : list string) :
  Forall (fun f => f <> "") rest -> Forall (fun f => f <> "") (pushField cur rest).
Proof.
  intros H. destruct cur as [|c cur']; [exact H|].
  cbn [pushField]. constructor; [discriminate | exact H].
Qed.

Lemma fieldsFrom_nonempty (s : string) :
  forall skip, Forall (fun f => f <> "") (snd (fieldsFrom skip s)).
Proof.
  induction s as [|c rest IH]; intros skip; [constructor|].
  cbn [fieldsFrom]. destruct skip as [|k].
  - destruct (spaceWidth (String c rest)) as [|k]; cbv zeta; cbn [snd].
    + apply IH.
    + apply pushField_nonempty, IH.
  - cbv zeta. cbn [snd]. apply pushField_nonempty, IH.
Qed.

(** [strings.Fields] returns no empty field. *)
Lemma Fields_nonempty (s : string) : Forall (fun f => f <> "") (Fields s).
Proof. unfold Fields. cbv zeta. apply pushField_nonempty, fieldsFrom_nonempty. Qed.

Lemma directiveArg_nonempty (name text arg : string) :
  directiveArg name text = Some arg -> arg <> "".
Proof.
  unfold directiveArg. cbv zeta.
  destruct (String.eqb (TrimSpace text) "" || HasPrefix (TrimSpace text) "#"
            || HasPrefix (TrimSpace text) ";"); [discriminate|].
  pose proof (Fields_nonempty (TrimSpace text)) as HF.
  destruct (String.eqb (field (Fields (TrimSpace text)) 0) name
            && (2 <=? len (Fields (TrimSpace text)))) eqn:E; [|discriminate].
  intros [= <-]. apply andb_true_iff in E. destruct E as [_ E].
  apply Z.leb_le in E. unfold len in E.
  destruct (Fields (TrimSpace text)) as [|a [|b rest]]; cbn in E; try lia.
  inversion HF as [|? ? _ HF']; subst. inversion HF' as [|? ? Hb _]; subst.
  exact Hb.
Qed.

Lemma directiveArgs_nonempty (name : string) (texts : list string) :
  Forall (fun a => a <> "") (directiveArgs name texts).
Proof.
  induction texts as [|t rest IH]; [constructor|].
  unfold directiveArgs. cbn [flat_map]. apply Forall_app. split; [|exact IH].
  destruct (directiveArg name t) as [a|] eqn:E; [|constructor].
  constructor; [|constructor]. apply (directiveArg_nonempty name t a E).
Qed.

Lemma last_app_default {A} (l1 l2 : list A) (d : A) :
  last (l1 ++ l2) d = last l2 (last l1 d).
Proof.
  revert d. induction l1 as [|a rest IH]; intros d; [reflexivity|].
  change ((a :: rest) ++ l2)%list with (a :: (rest ++ l2))%list.
  rewrite !last_cons_default. apply IH.
Qed.

Lemma last_map {A B} (f : A -> B) (l : list A) (d : A) :
  last (map f l) (f d) = f (last l d).
Proof.
  revert d. induction l as [|a rest IH]; intros d; [reflexivity|].
  cbn [map]. rewrite !last_cons_default. apply IH.
Qed.

Lemma last_Forall {A} (P : A -> Prop) (l : list A) (d : A) :
  Forall P l -> P d -> P (last l d).
Proof.
  revert d. induction l as [|a rest IH]; intros d HF Hd; [exact Hd|].
  inversion HF; subst. rewrite last_cons_default. apply IH; assumption.
Qed.

(** The fields of the configuration after one line. *)
Lemma config_scanBody_fields (config : Config.ServerConfig) (text : string) :
  let next := Config.scanBody config text in
  Config.ID next =
    last (map Config.getServerID (optList (directiveArg "status" text))) (Config.ID config)
  /\ Config.Local next = last (optList (directiveArg "local" text)) (Config.Local config)
  /\ Config.Port next = last (optList (directiveArg "port" text)) (Config.Port config)
  /\ Config.Proto next = last (optList (directiveArg "proto" text)) (Config.Proto config)
  /\ Config.Dev next = last (optList (directiveArg "dev" text)) (Config.Dev config)
  /\ Config.StatusFile next =
       last (optList (directiveArg "status" text)) (Config.StatusFile config)
  /\ Config.StatusVersion next =
       last (flat_map (fun arg => optList (validVersion arg))
               (optList (directiveArg "status-version" text)))
         (Config.StatusVersion config).
Proof.
  cbv zeta. unfold Config.scanBody, directiveArg. cbv zeta.
  destruct (String.eqb (TrimSpace text) "" || HasPrefix (TrimSpace text) "#"
            || HasPrefix (TrimSpace text) ";"); [repeat split; reflexivity|].
  set (tokens := Fields (TrimSpace text)).
  destruct (len tokens =? 0) eqn:E0.
  { apply Z.eqb_eq in E0. unfold len in E0.
    destruct tokens; [repeat split; reflexivity | cbn in E0; lia]. }
  destruct (String.eqb (field tokens 0) "local") eqn:E1.
  { apply String.eqb_eq in E1. rewrite E1. cbn [String.eqb Ascii.eqb Bool.eqb andb].
    destruct (2 <=? len tokens); repeat split; reflexivity. }
  destruct (String.eqb (field tokens 0) "port") eqn:E2.
  { apply String.eqb_eq in E2. rewrite E2. cbn [String.eqb Ascii.eqb Bool.eqb andb].
    destruct (2 <=? len tokens); repeat split; reflexivity. }
  destruct (String.eqb (field tokens 0) "proto") eqn:E3.
  { apply String.eqb_eq in E3. rewrite E3. cbn [String.eqb Ascii.eqb Bool.eqb andb].
    destruct (2 <=? len tokens); repeat split; reflexivity. }
  destruct (String.eqb (field tokens 0) "dev") eqn:E4.
  { apply String.eqb_eq in E4. rewrite E4. cbn [String.eqb Ascii.eqb Bool.eqb andb].
    destruct (2 <=? len tokens); repeat split; reflexivity. }
  destruct (String.eqb (field tokens 0) "status") eqn:E5.
  { apply String.eqb_eq in E5. rewrite E5. cbn [String.eqb Ascii.eqb Bool.eqb andb].
    destruct (2 <=? len tokens); repeat split; reflexivity. }
  destruct (String.eqb (field tokens 0) "status-version") eqn:E6.
  { cbn [andb]. destruct (2 <=? len tokens); [|repeat split; reflexivity].
    cbn [optList flat_map]. unfold validVersion, Config.applyStatusVersion.
    destruct (Strconv.Atoi (field tokens 1)) as [ver [e|]];
      [repeat split; reflexivity|].
    destruct ((1 <=? ver) && (ver <=? 3)); repeat split; reflexivity. }
  repeat split; reflexivity.
Qed.

Lemma config_fold_fields (texts : list string) :
  forall config : Config.ServerConfig,
    let final := fold_left Config.scanBody texts config in
    Config.ID final =
      last (map Config.getServerID (directiveArgs "status" texts)) (Config.ID config)
    /\ Config.Local final = last (directiveArgs "local" texts) (Config.Local config)
    /\ Config.Port final = last (directiveArgs "port" texts) (Config.Port config)
    /\ Config.Proto final = last (directiveArgs "proto" texts) (Config.Proto config)
    /\ Config.Dev final = last (directiveArgs "dev" texts) (Config.Dev config)
    /\ Config.StatusFile final =
         last (directiveArgs "status" texts) (Config.StatusFile config)
    /\ Config.StatusVersion final =
         last (flat_map (fun arg => optList (validVersion arg))
                 (directiveArgs "status-version" texts))
           (Config.StatusVersion config).
Proof.
  induction texts as [|t rest IH]; intros config; [repeat split; reflexivity|].
  cbv zeta. cbn [fold_left].
  destruct (IH (Config.scanBody config t)) as [I1 [I2 [I3 [I4 [I5 [I6 I7]]]]]].
  destruct (config_scanBody_fields config t) as [S1 [S2 [S3 [S4 [S5 [S6 S7]]]]]].
  cbv zeta in I1, I2, I3, I4, I5, I6, I7.
  rewrite I1, I2, I3, I4, I5, I6, I7, S1, S2, S3, S4, S5, S6, S7.
  unfold directiveArgs. cbn [flat_map].
  rewrite ?map_app, ?flat_map_app, ?last_app_default.
  repeat split; reflexivity.
Qed.

Lemma config_fold_eq (texts : list string) :
  fold_left Config.scanBody texts Config.initConfig = configOf texts.
Proof.
  destruct (config_fold_fields texts Config.initConfig) as [I1 [I2 [I3 [I4 [I5 [I6 I7]]]]]].
  cbv zeta in I1, I2, I3, I4, I5, I6, I7.
  destruct (fold_left Config.scanBody texts Config.initConfig)
    as [id local port proto dev sf ver].
  cbn [Config.ID Config.Local Config.Port Config.Proto Config.Dev Config.StatusFile
       Config.StatusVersion Config.initConfig] in *.
  unfold configOf. cbv zeta. subst.
  f_equal.
  pose proof (last_map Config.getServerID (directiveArgs "status" texts) "") as H.
  change (Config.getServerID "") with "" in H at 1. exact H.
Qed.

(** ** What [ParseConfig] returns *)

Lemma ParseConfig_cases :
  forall (os_Open : string -> File + error) (configPath : string),
    match os_Open configPath with
    | inr err =>
        Config.ParseConfig os_Open configPath =
          (None, Some (wrapError "failed to open config file: " err))
    | inl file =>
        let lines := fst (Bufio.Scan (data file) (rderr file)) in
        match snd (Bufio.Scan (data file) (rderr file)) with
        | Some err =>
            Config.ParseConfig os_Open configPath =
              (None, Some (wrapError "error reading config file: " err))
        | None =>
            Config.ParseConfig os_Open configPath =
              match directiveArgs "status" lines with
              | [] => (None, Some (errorString "no 'status' directive found in config file"))
              | _ :: _ => (Some (configOf lines), None)
              end
        end
    end.
Proof.
  intros os_Open configPath. unfold Config.ParseConfig.
  destruct (os_Open configPath) as [file|err]; [|reflexivity]. cbv zeta.
  destruct (snd (Bufio.Scan (data file) (rderr file))); [reflexivity|].
  rewrite config_fold_eq.
  set (lines := fst (Bufio.Scan (data file) (rderr file))).
  unfold configOf at 1. cbv zeta. cbn [Config.StatusFile].
  pose proof (directiveArgs_nonempty "status" lines) as HF.
  destruct (directiveArgs "status" lines) as [|a rest] eqn:E; [reflexivity|].
  assert (Hne : last (a :: rest) "" <> "").
  { rewrite last_cons_default. inversion HF; subst.
    apply (last_Forall (fun x => x <> "")); assumption. }
  rewrite (eqb_string_false _ _ Hne). reflexivity.
Qed.

(** [ParseConfig] returns only an error when the file does not open, when
    the scan ends with an error (whatever was read before), and when no
    [status] directive has an argument.  Otherwise it returns a
    configuration that holds for each of [local], [port], [proto], [dev] and
    [status] the argument of its last directive, for [status-version] the
    last argument that is 1, 2 or 3, the defaults (port 1194, version 3)
    where there is none, and the identifier of the status file.  Comment
    lines, blank lines and other directives change nothing. *)
Theorem ParseConfig_result :
  forall (os_Open : string -> File + error) (configPath : string),
    match os_Open configPath with
    | inr err =>
        Config.ParseConfig os_Open configPath =
          (None, Some (wrapError "failed to open config file: " err))
    | inl file =>
        let lines := fst (Bufio.Scan (data file) (rderr file)) in
        match snd (Bufio.Scan (data file) (rderr file)) with
        | Some err =>
            Config.ParseConfig os_Open configPath =
              (None, Some (wrapError "error reading config file: " err))
        | None =>
            Config.ParseConfig os_Open configPath =
              match directiveArgs "status" lines with
              | [] => (None, Some (errorString "no 'status' directive found in config file"))
              | _ :: _ =>
                  (Some (Config.mkServerConfig
                           (Config.getServerID (last (directiveArgs "status" lines) ""))
                           (last (directiveArgs "local" lines) "")
                           (last (directiveArgs "port" lines) "1194")
                           (last (directiveArgs "proto" lines) "")
                           (last (directiveArgs "dev" lines) "")
                           (last (directiveArgs "status" lines) "")
                           (last (flat_map (fun arg => optList (validVersion arg))
                                    (directiveArgs "status-version" lines)) 3)),
                   None)
              end
        end
    end.
Proof.
  intros os_Open configPath.
  pose proof (ParseConfig_cases os_Open configPath) as H.
  destruct (os_Open configPath) as [file|err]; [|exact H].
  cbv zeta in H |- *.
  destruct (snd (Bufio.Scan (data file) (rderr file))); [exact H|].
  rewrite H. unfold configOf. cbv zeta.
  destruct (directiveArgs "status" (fst (Bufio.Scan (data file) (rderr file))));
    reflexivity.
Qed.

Lemma configOf_invariants (texts : list string) :
  directiveArgs "status" texts <> [] ->
  Config.StatusFile (configOf texts) <> ""
  /\ Config.ID (configOf texts) = Config.getServerID (Config.StatusFile (configOf texts))
  /\ Config.Port (configOf texts) <> ""
  /\ 1 <= Config.StatusVersion (configOf texts) <= 3.
Proof.
  intros Hne. unfold configOf. cbv zeta.
  cbn [Config.StatusFile Config.ID Config.Port Config.StatusVersion].
  split; [|split; [reflexivity|split]].
  - pose proof (directiveArgs_nonempty "status" texts) as HF.
    destruct (directiveArgs "status" texts) as [|a rest]; [congruence|].
    rewrite last_cons_default. inversion HF; subst.
    apply (last_Forall (fun x => x <> "")); assumption.
  - apply (last_Forall (fun x => x <> ""));
      [apply directiveArgs_nonempty | discriminate].
  - apply (last_Forall (fun v => 1 <= v <= 3)); [|lia].
    induction (directiveArgs "status-version" texts) as [|a rest IH]; [constructor|].
    cbn [flat_map]. apply Forall_app. split; [|exact IH].
    unfold validVersion. destruct (Strconv.Atoi a) as [ver [e|]]; [constructor|].
    destruct ((1 <=? ver) && (ver <=? 3)) eqn:E; [|constructor].
    apply andb_true_iff in E. destruct E as [E1 E2].
    apply Z.leb_le in E1, E2. constructor; [lia | constructor].
Qed.

Lemma ParseConfig_some (os_Open : string -> File + error) (configPath : string)
    (cfg : Config.ServerConfig) :
  fst (Config.ParseConfig os_Open configPath) = Some cfg ->
  Config.ParseConfig os_Open configPath = (Some cfg, None)
  /\ Config.StatusFile cfg <> ""
  /\ Config.ID cfg = Config.getServerID (Config.StatusFile cfg)
  /\ Config.Port cfg <> ""
  /\ 1 <= Config.StatusVersion cfg <= 3.
Proof.
  intros H. pose proof (ParseConfig_cases os_Open configPath) as Hc.
  destruct (os_Open configPath) as [file|err]; [|rewrite Hc in H; discriminate].
  cbv zeta in Hc.
  destruct (snd (Bufio.Scan (data file) (rderr file)));
    [rewrite Hc in H; discriminate|].
  remember (fst (Bufio.Scan (data file) (rderr file))) as lines eqn:Hl.
  destruct (directiveArgs "status" lines) as [|a rest] eqn:E;
    [rewrite Hc in H; discriminate|].
  rewrite Hc in H. cbn [fst] in H. injection H as <-.
  split; [exact Hc|]. apply configOf_invariants.
  intros Hn. rewrite Hn in E. discriminate.
Qed.

Lemma ParseConfig_none (os_Open : string -> File + error) (configPath : string) :
  fst (Config.ParseConfig os_Open configPath) = None ->
  snd (Config.ParseConfig os_Open configPath) <> None.
Proof.
  intros H. pose proof (ParseConfig_cases os_Open configPath) as Hc.
  destruct (os_Open configPath) as [file|err]; [|rewrite Hc; discriminate].
  cbv zeta in Hc.
  destruct (snd (Bufio.Scan (data file) (rderr file))); [rewrite Hc; discriminate|].
  destruct (directiveArgs "status" (fst (Bufio.Scan (data file) (rderr file))));
    rewrite Hc in *; [discriminate | discriminate].
Qed.

(** A configuration that [ParseConfig] returns comes without an error, names
    a status file, carries the identifier of that file and a port, and has a
    status version among 1, 2 and 3, which [getStatusVersion] leaves as it
    is: the default branch of [getStatusVersion] is never taken in [main]. *)
Theorem ParseConfig_invariants :
  forall (os_Open : string -> File + error) (configPath : string)
         (cfg : Config.ServerConfig),
    fst (Config.ParseConfig os_Open configPath) = Some cfg ->
    snd (Config.ParseConfig os_Open configPath) = None
    /\ Config.StatusFile cfg <> ""
    /\ Config.ID cfg = Config.getServerID (Config.StatusFile cfg)
    /\ Config.Port cfg <> ""
    /\ 1 <= Config.StatusVersion cfg <= 3
    /\ Main.getStatusVersion (Config.StatusVersion cfg) = Config.StatusVersion cfg.
Proof.
  intros os_Open configPath cfg H.
  destruct (ParseConfig_some os_Open configPath cfg H) as [He [Hs [Hi [Hp Hv]]]].
  rewrite He. repeat split; try assumption; try lia.
  rewrite getStatusVersion_eq.
  destruct (1 <=? Config.StatusVersion cfg) eqn:E1;
    destruct (Config.StatusVersion cfg <=? 3) eqn:E2; cbn; try reflexivity;
    try (apply Z.leb_gt in E1; lia); apply Z.leb_gt in E2; lia.
Qed.

Lemma ParseConfig_invariants_witness :
  fst (Config.ParseConfig sampleFS "server.conf")
  = Some (Config.mkServerConfig "status" "" "1195" "" "" "/run/openvpn/status.log" 2)
  /\ snd (Config.ParseConfig sampleFS "server.conf") = None.
Proof.
  assert (H : fst (Config.ParseConfig sampleFS "server.conf")
              = Some (Config.mkServerConfig "status" "" "1195" "" ""
                        "/run/openvpn/status.log" 2))
    by (vm_compute; reflexivity).
  split; [exact H|].
  apply (ParseConfig_invariants sampleFS "server.conf" _ H).
Defined.

(** * Properties of [main] *)

Section MainProperties.

Variable Quote : string -> string.
Variable Marshal : Status -> string + error.
Variable MarshalIndent : Status -> string + error.
Variable now : Z.
Variable arg0 : string.
Variable printDefaults : string.
Variable os_Open : string -> File + error.

Local Notation "'main'" :=
  (Cli.main Quote Marshal MarshalIndent now arg0 printDefaults os_Open).

Lemma Format_with_server (status : Status) (server : ServerConfig) :
  Formatter.Format Quote now (setServer status (Some server)) <> None.
Proof. unfold Formatter.Format. cbn [Server setServer]. discriminate. Qed.

(** What a run that reaches the formatter is made of. *)
Lemma main_cases (flags : Cli.Flags) :
  (exists out, main flags = Some out /\ Cli.stdout out = "" /\ Cli.exitCode out = 1)
  \/ (Cli.version flags = true
      /\ main flags =
           Some (Cli.mkOutcome ("openvpn-status-parser version 0.1.0" ++ Cli.nl) "" 0))
  \/ (Cli.version flags = false
      /\ exists cfg st errs output log,
           Config.ParseConfig os_Open (Cli.filePath flags) = (Some cfg, None)
           /\ ParseFile os_Open (Config.StatusFile cfg) (Config.StatusVersion cfg)
              = (Some st, errs)
           /\ ((Cli.format flags = "json"
                /\ Cli.JSONFormat Marshal MarshalIndent (Cli.indent flags)
                     (setServer st (Some (serverOf cfg))) = (output, None))
               \/ (Cli.format flags = "openmetrics"
                   /\ Formatter.Format Quote now (setServer st (Some (serverOf cfg)))
                      = Some output))
           /\ main flags =
                Some (Cli.mkOutcome output log (if 0 <? len errs then 2 else 0))).
Proof.
  unfold Cli.main.
  destruct (Cli.version flags) eqn:Ev; [right; left; split; reflexivity|].
  destruct (String.eqb (Cli.filePath flags) ""); [left; eexists; repeat split|].
  destruct (String.eqb (Cli.format flags) "json") eqn:Ej; cbn [negb andb].
  - destruct (Config.ParseConfig os_Open (Cli.filePath flags)) as [ocfg oerr] eqn:Ec.
    destruct ocfg as [cfg|]; destruct oerr as [err|];
      try (left; eexists; repeat split; fail).
    2:{ exfalso. apply (ParseConfig_none os_Open (Cli.filePath flags));
          rewrite Ec; reflexivity. }
    destruct (ParseConfig_some os_Open (Cli.filePath flags) cfg) as [_ [_ [_ [_ Hv]]]];
      [rewrite Ec; reflexivity|].
    assert (Hg : Main.getStatusVersion (Config.StatusVersion cfg)
                 = Config.StatusVersion cfg).
    { rewrite getStatusVersion_eq.
      destruct (1 <=? Config.StatusVersion cfg) eqn:E1;
        destruct (Config.StatusVersion cfg <=? 3) eqn:E2; cbn; try reflexivity;
        try (apply Z.leb_gt in E1; lia); apply Z.leb_gt in E2; lia. }
    cbv zeta. rewrite Hg.
    destruct (ParseFile os_Open (Config.StatusFile cfg) (Config.StatusVersion cfg))
      as [ost errs] eqn:Ep. cbn [fst snd].
    destruct ost as [st|]; [|left; eexists; repeat split].
    fold (serverOf cfg).
    destruct (Cli.JSONFormat Marshal MarshalIndent (Cli.indent flags)
                (setServer st (Some (serverOf cfg)))) as [output [err|]] eqn:Ef;
      [left; eexists; repeat split|].
    right; right. split; [reflexivity|].
    exists cfg, st, errs, output. eexists.
    split; [reflexivity|]. split; [exact Ep|].
    split; [left; split; [apply String.eqb_eq; exact Ej | exact Ef]|]. reflexivity.
  - destruct (String.eqb (Cli.format flags) "openmetrics") eqn:Eo; cbn [negb].
    2:{ left; eexists; repeat split. }
    destruct (Config.ParseConfig os_Open (Cli.filePath flags)) as [ocfg oerr] eqn:Ec.
    destruct ocfg as [cfg|]; destruct oerr as [err|];
      try (left; eexists; repeat split; fail).
    2:{ exfalso. apply (ParseConfig_none os_Open (Cli.filePath flags));
          rewrite Ec; reflexivity. }
    destruct (ParseConfig_some os_Open (Cli.filePath flags) cfg) as [_ [_ [_ [_ Hv]]]];
      [rewrite Ec; reflexivity|].
    assert (Hg : Main.getStatusVersion (Config.StatusVersion cfg)
                 = Config.StatusVersion cfg).
    { rewrite getStatusVersion_eq.
      destruct (1 <=? Config.StatusVersion cfg) eqn:E1;
        destruct (Config.StatusVersion cfg <=? 3) eqn:E2; cbn; try reflexivity;
        try (apply Z.leb_gt in E1; lia); apply Z.leb_gt in E2; lia. }
    cbv zeta. rewrite Hg.
    destruct (ParseFile os_Open (Config.StatusFile cfg) (Config.StatusVersion cfg))
      as [ost errs] eqn:Ep. cbn [fst snd].
    destruct ost as [st|]; [|left; eexists; repeat split].
    fold (serverOf cfg).
    destruct (Formatter.Format Quote now (setServer st (Some (serverOf cfg))))
      as [output|] eqn:Ef.
    2:{ exfalso. apply (Format_with_server st (serverOf cfg)). exact Ef. }
    cbn [option_map].
    right; right. split; [reflexivity|].
    exists cfg, st, errs, output. eexists.
    split; [reflexivity|]. split; [exact Ep|].
    split; [right; split; [apply String.eqb_eq; exact Eo | exact Ef]|]. reflexivity.
Qed.

(** [main] never dereferences [nil]: [ParseConfig] never returns neither a
    configuration nor an error, and the model reaches the formatter with the
    server configuration attached.  A run exits with 0, 1 or 2, and it
    writes nothing to the standard output when it exits with 1. *)
Theorem main_never_panics :
  forall flags : Cli.Flags,
    exists out,
      main flags = Some out
      /\ (Cli.exitCode out = 0 \/ Cli.exitCode out = 1 \/ Cli.exitCode out = 2)
      /\ (if Cli.exitCode out =? 1 then Cli.stdout out = "" else True).
Proof.
  intros flags.
  destruct (main_cases flags) as [[out [Hm [Hs He]]] | [[_ Hm] | [_ H]]].
  - exists out. split; [exact Hm|]. rewrite He. split; [right; left; reflexivity | exact Hs].
  - eexists. split; [exact Hm|]. split; [left; reflexivity | exact I].
  - destruct H as [cfg [st [errs [output [log [_ [_ [_ Hm]]]]]]]].
    eexists. split; [exact Hm|]. cbn [Cli.exitCode Cli.stdout].
    destruct (0 <? len errs); split; auto; exact I.
Qed.

(** A run without the version flag that exits with 0 or 2 has read the
    configuration, has parsed the status file that the configuration names
    under the version that it gives, and has written to the standard output
    what the chosen formatter makes of the model with the server
    configuration attached; it exits with 2 exactly when the parse returned
    errors, and the output is the same with and without them. *)
Theorem main_output_and_exit_code :
  forall (flags : Cli.Flags) (out : Cli.Outcome),
    Cli.version flags = false ->
    main flags = Some out ->
    Cli.exitCode out <> 1 ->
    exists cfg st errs,
      Config.ParseConfig os_Open (Cli.filePath flags) = (Some cfg, None)
      /\ ParseFile os_Open (Config.StatusFile cfg) (Config.StatusVersion cfg)
         = (Some st, errs)
      /\ ((Cli.format flags = "json"
           /\ Cli.JSONFormat Marshal MarshalIndent (Cli.indent flags)
                (setServer st (Some (serverOf cfg))) = (Cli.stdout out, None))
          \/ (Cli.format flags = "openmetrics"
              /\ Formatter.Format Quote now (setServer st (Some (serverOf cfg)))
                 = Some (Cli.stdout out)))
      /\ Cli.exitCode out = (if 0 <? len errs then 2 else 0)
      /\ (Cli.exitCode out = 2 <-> errs <> []).
Proof.
  intros flags out Hv Hm Hne.
  destruct (main_cases flags) as [[out' [Hm' [_ He]]] | [[Hv' _] | [_ H]]].
  - rewrite Hm in Hm'. injection Hm' as <-. congruence.
  - congruence.
  - destruct H as [cfg [st [errs [output [log [Hc [Hp [Hf Hm']]]]]]]].
    rewrite Hm in Hm'. injection Hm' as ->.
    exists cfg, st, errs. cbn [Cli.stdout Cli.exitCode].
    split; [exact Hc|]. split; [exact Hp|]. split; [exact Hf|]. split; [reflexivity|].
    unfold len. destruct errs as [|e rest]; cbn.
    + split; [discriminate | congruence].
    + split; [discriminate | reflexivity].
Qed.

End MainProperties.

Lemma main_output_and_exit_code_witness :
  exists out,
    Cli.main quoteId marshalStub marshalStub 0 "ovpn" "" sampleFS
      (Cli.mkFlags "server.conf" "json" false false) = Some out
    /\ Cli.stdout out = "OpenVPN"
    /\ Cli.exitCode out = 2.
Proof.
  assert (Hm : Cli.main quoteId marshalStub marshalStub 0 "ovpn" "" sampleFS
                 (Cli.mkFlags "server.conf" "json" false false)
               = Some (Cli.mkOutcome "OpenVPN"
                         (Cli.stderr
                            (match Cli.main quoteId marshalStub marshalStub 0 "ovpn" ""
                                     sampleFS (Cli.mkFlags "server.conf" "json" false false)
                             with Some o => o | None => Cli.mkOutcome "" "" 1 end)) 2))
    by (vm_compute; reflexivity).
  eexists. split; [exact Hm|].
  destruct (main_output_and_exit_code quoteId marshalStub marshalStub 0 "ovpn" "" sampleFS
              (Cli.mkFlags "server.conf" "json" false false) _ eq_refl Hm)
    as [cfg [st [errs [_ [_ [_ [He _]]]]]]]; [cbn; discriminate|].
  split; reflexivity.
Defined.
